(** * cqrtraffic: the raw-data loader and the model orchestrator

    A shallow embedding of [cqrtraffic/utils/load.py] ([read_report],
    [read_several_reports]) and of [FintrafficTMS.weighted_model] from
    [cqrtraffic/fintraffic.py], followed by the properties of the loader and
    of the orchestrator.

    Python integers are [Z]; a [pd.DataFrame] is the list of its rows, each
    with its index label; a Python call that prints, warns, talks to the
    network or raises is a computation in the monad [Py], which returns a
    value or an exception together with the events it produced, in order.
    The readings of [time.perf_counter()] in the loader only feed the
    elapsed seconds of the printed lines and are left out; in the
    orchestrator, where they are stored, they are part of the state. *)

From Stdlib Require Import ZArith List String Ascii Bool Lia DecimalString.
Import ListNotations.

Local Open Scope string_scope.
Local Open Scope Z_scope.

Set Implicit Arguments.

(* ------------------------------------------------------------------ *)
(** ** Python built-ins used by the loader *)

Module py.

(** [str(n)] for an integer. *)
Definition str (n : Z) : string := NilZero.string_of_int (Z.to_int n).

(** [s[i:j]] for [0 <= i <= j]. *)
Definition slice (i j : nat) (s : string) : string := substring i (j - i) s.

(** [s.replace(old, new)] for a non-empty [old]: occurrences are replaced
    from the left and do not overlap.  [skip] counts the characters of a
    matched occurrence that are still to be dropped. *)
Fixpoint replace_from (old new : string) (skip : nat) (s : string) : string :=
  match s with
  | EmptyString => EmptyString
  | String c s' =>
      match skip with
      | S k => replace_from old new k s'
      | O =>
          if prefix old s
          then new ++ replace_from old new (String.length old - 1) s'
          else String c (replace_from old new 0 s')
      end
  end.

Definition replace (old new s : string) : string := replace_from old new 0 s.

(** [c.lower()] on one ASCII character. *)
Definition lower_ascii (c : ascii) : ascii :=
  let n := nat_of_ascii c in
  if ((65 <=? n) && (n <=? 90))%nat then ascii_of_nat (n + 32) else c.

(** [s.lower()]. *)
Fixpoint lower (s : string) : string :=
  match s with
  | EmptyString => EmptyString
  | String c s' => String (lower_ascii c) (lower s')
  end.

(** [s.endswith(suffix)]. *)
Definition endswith (s suffix : string) : bool :=
  let n := String.length s in
  let m := String.length suffix in
  ((m <=? n)%nat && String.eqb (substring (n - m) m s) suffix)%bool.

(** The exceptions that can leave the modelled code. *)
Inductive exn : Type :=
| AssertionError (msg : string)
| HTTPError (status : Z)
| ConnectionError
| ValueError
| OverflowError
| AttributeError (attr : string)
| SolverError (code : Z)
| OSError (errno : Z).

End py.

(* ------------------------------------------------------------------ *)
(** ** cqrtraffic/utils/load.py *)

Module load.
Import py.

(** One line of the downloaded [.csv] report.  The loader reads the
    columns [total_time], [direction], [vehicle] and [faulty]; the other
    columns of [DEF_COL_NAMES_FINTRAFFIC] are carried along untouched. *)
Module Csv.
Record line : Type := Line {
  total_time : Z;
  direction : Z;
  vehicle : Z;
  faulty : Z;
  other_columns : list Z
}.
End Csv.

(** One row of the frame [read_report] returns: the columns of the report
    and the four columns the loader adds. *)
Module Col.
Record row : Type := Row {
  total_time : Z;
  direction : Z;
  vehicle : Z;
  faulty : Z;
  other_columns : list Z;
  date : Z;
  cars : Z;
  buses : Z;
  trucks : Z
}.
End Col.

(** A data frame: its rows in order, each with its index label.
    [pd.DataFrame()] is the frame without rows. *)
Definition DataFrame : Type := list (nat * Col.row).

Definition records (df : DataFrame) : list Col.row := map snd df.

(** [df.empty] *)
Definition empty (df : DataFrame) : bool :=
  match df with
  | [] => true
  | _ :: _ => false
  end.

(** What the server answers to a request for a URL: a status code and the
    lines of the body, or no answer at all. *)
Inductive reply : Type :=
| Reply (status_code : Z) (body : list Csv.line)
| NoConnection.

(** The lines that [print] writes.  The elapsed seconds that some of them
    show are left out. *)
Inductive message : Type :=
| MsgTrying (day year : Z)
| MsgDownloadSuccessful (tms_id day year : Z)
| MsgSaved (save_name : string)
| MsgTimeSpent
| MsgLoadingSuccessful (counter : Z) (total : nat).

(** What a call does besides returning.  [ToParquet] is the call of
    [df.to_parquet], whether it writes the file or raises. *)
Inductive event : Type :=
| Print (m : message)
| Warn (text : string)
| RequestsGet (url : string)
| ReadCsv (url : string)
| ToParquet (save_name : string) (df : DataFrame).

(** A computation: the value returned or the exception raised, and the
    events up to that point. *)
Definition Py (A : Type) : Type := (exn + A) * list event.

Definition ret {A} (a : A) : Py A := (inr a, []).

Definition raise {A} (e : exn) : Py A := (inl e, []).

Definition bind {A B} (m : Py A) (f : A -> Py B) : Py B :=
  match fst m with
  | inl e => (inl e, snd m)
  | inr a => (fst (f a), (snd m ++ snd (f a))%list)
  end.

Definition emit (ev : event) : Py unit := (inr tt, [ev]).

Declare Scope py_scope.
Delimit Scope py_scope with py.
Notation "x <- c1 ;; c2" := (bind c1 (fun x => c2))
  (at level 100, c1 at next level, right associativity) : py_scope.
Notation "c1 ;; c2" := (bind c1 (fun _ => c2))
  (at level 100, right associativity) : py_scope.
Local Open Scope py_scope.

(** [assert cond, msg] *)
Definition assert (cond : bool) (msg : string) : Py unit :=
  if cond then ret tt else raise (AssertionError msg).

(** [for value in l: s = body(s, value)] *)
Fixpoint for_each {A S} (body : S -> A -> Py S) (l : list A) (s : S) : Py S :=
  match l with
  | [] => ret s
  | a :: l' => s' <- body s a ;; for_each body l' s'
  end.

(** *** datetime *)

(** Dates are proleptic Gregorian ordinals, as [date.toordinal()]. *)
Definition MAXYEAR : Z := 9999.
Definition max_ordinal : Z := 3652059.

Definition days_before_year (year : Z) : Z :=
  let y := year - 1 in
  y * 365 + y / 4 - y / 100 + y / 400.

(** [datetime.date(year, 1, 1) + datetime.timedelta(day - 1)], for a year
    that is at least 1 and a day that is at least 1. *)
Definition date_of_year_day (year day : Z) : Py Z :=
  if MAXYEAR <? year then raise ValueError
  else
    let ordinal := days_before_year year + 1 + (day - 1) in
    if max_ordinal <? ordinal then raise OverflowError else ret ordinal.

(** *** pandas *)

(** The frame [pd.read_csv] builds from the lines of a report. *)
Definition frame_of_lines (ls : list Csv.line) : DataFrame :=
  combine (seq 0 (List.length ls))
    (map (fun l =>
            {| Col.total_time := Csv.total_time l;
               Col.direction := Csv.direction l;
               Col.vehicle := Csv.vehicle l;
               Col.faulty := Csv.faulty l;
               Col.other_columns := Csv.other_columns l;
               Col.date := 0; Col.cars := 0; Col.buses := 0; Col.trucks := 0 |})
         ls).

(** [df[mask]]: the rows that satisfy the mask keep their labels. *)
Definition select (p : Col.row -> bool) (df : DataFrame) : DataFrame :=
  filter (fun ir => p (snd ir)) df.

(** [df[col] = ...], row by row. *)
Definition assign (f : Col.row -> Col.row) (df : DataFrame) : DataFrame :=
  map (fun ir => (fst ir, f (snd ir))) df.

(** [pd.concat((a, b), ignore_index=True)] *)
Definition concat_ignore_index (a b : DataFrame) : DataFrame :=
  let rs := (records a ++ records b)%list in
  combine (seq 0 (List.length rs)) rs.

Definition set_date (d : Z) (r : Col.row) : Col.row :=
  {| Col.total_time := Col.total_time r; Col.direction := Col.direction r;
     Col.vehicle := Col.vehicle r; Col.faulty := Col.faulty r;
     Col.other_columns := Col.other_columns r;
     Col.date := d;
     Col.cars := Col.cars r; Col.buses := Col.buses r; Col.trucks := Col.trucks r |}.

(** The three [apply(lambda x: ...)] columns. *)
Definition is_car (x : Z) : Z := if x =? 1 then 1 else 0.
Definition is_bus (x : Z) : Z := if x =? 3 then 1 else 0.
Definition is_truck (x : Z) : Z :=
  if (x =? 2) || (x =? 4) || (x =? 5) || (x =? 6) || (x =? 7) then 1 else 0.

Definition set_cars (r : Col.row) : Col.row :=
  {| Col.total_time := Col.total_time r; Col.direction := Col.direction r;
     Col.vehicle := Col.vehicle r; Col.faulty := Col.faulty r;
     Col.other_columns := Col.other_columns r;
     Col.date := Col.date r;
     Col.cars := is_car (Col.vehicle r);
     Col.buses := Col.buses r; Col.trucks := Col.trucks r |}.

Definition set_buses (r : Col.row) : Col.row :=
  {| Col.total_time := Col.total_time r; Col.direction := Col.direction r;
     Col.vehicle := Col.vehicle r; Col.faulty := Col.faulty r;
     Col.other_columns := Col.other_columns r;
     Col.date := Col.date r;
     Col.cars := Col.cars r;
     Col.buses := is_bus (Col.vehicle r);
     Col.trucks := Col.trucks r |}.

Definition set_trucks (r : Col.row) : Col.row :=
  {| Col.total_time := Col.total_time r; Col.direction := Col.direction r;
     Col.vehicle := Col.vehicle r; Col.faulty := Col.faulty r;
     Col.other_columns := Col.other_columns r;
     Col.date := Col.date r;
     Col.cars := Col.cars r; Col.buses := Col.buses r;
     Col.trucks := is_truck (Col.vehicle r) |}.

(** The messages of the [assert] statements and of the warnings. *)
Definition msg_hour_from : string :=
  "Error: the hour_from is incorrect, it should be 0 <= hour_from < 24".
Definition msg_hour_to : string :=
  "Error: the hour_to is incorrect, it should be 0 < hour_to <= 24".
Definition msg_hour_order : string :=
  "Error: the hour_to should be less than hour_to".
Definition msg_day : string :=
  "Error: the day is incorrect, it should be 1 < day < 366".
Definition msg_year : string :=
  "Error: the data is available starting from year 1995 only ".
Definition msg_direction : string :=
  "Error: direction must be either 1 or 2, check TMS station description".
Definition msg_filename : string :=
  "Error: Filename is wrong, please, provide it in *.gzip format".
Definition msg_not_loaded : string :=
  "Error: Data was not loaded, check the input given.".
Definition msg_cannot_save : string :=
  "Warning: It is impossible to save a file, as data was not loaded. Check warning above.".

Definition msg_no_data (tms_id day year : Z) : string :=
  "Warning: The data for the TMS " ++ str tms_id
  ++ " for the day " ++ str day
  ++ " of year " ++ str year
  ++ " does not exist. "
  ++ "Try to select another day. "
  ++ "An empty pd.DataFrame will be returned.".

Section WithServer.

(** The URL template of [constant.py], with its place holders [TMS],
    [YY] and [DD]. *)
Variable URL_FINTRAFFIC : string.

(** The answer of the server to each URL, the same for the two requests
    that [read_report] makes for it. *)
Variable server : string -> reply.

(** What [df.to_parquet(save_name, engine="pyarrow", compression="gzip")]
    raises for a file name and a frame ([OSError] for a directory that does
    not exist, [OverflowError] for a column that does not fit), or [None]
    when the file is written. *)
Variable to_parquet_raises : string -> DataFrame -> option exn.

(** [requests.get(url).status_code] *)
Definition requests_get_status_code (url : string) : Py Z :=
  emit (RequestsGet url) ;;
  match server url with
  | Reply status_code _ => ret status_code
  | NoConnection => raise ConnectionError
  end.

(** [pd.read_csv(url, delimiter=";", names=column_names)]: the URL is
    opened again, and any status outside 200..299 raises. *)
Definition pd_read_csv (url : string) : Py DataFrame :=
  emit (ReadCsv url) ;;
  match server url with
  | Reply status_code body =>
      if (200 <=? status_code) && (status_code <? 300)
      then ret (frame_of_lines body)
      else raise (HTTPError status_code)
  | NoConnection => raise ConnectionError
  end.

Definition make_url (tms_id year day : Z) : string :=
  replace "DD" (str day)
    (replace "YY" (slice 2 4 (str year))
       (replace "TMS" (str tms_id) URL_FINTRAFFIC)).

(** [df.to_parquet(save_name, ...)] behind its [assert], and the line
    printed after it.  The event records the call; the call may raise. *)
Definition save_gzip (save_name : string) (df : DataFrame) : Py unit :=
  assert (endswith (lower save_name) ".gzip") msg_filename ;;
  emit (ToParquet save_name df) ;;
  match to_parquet_raises save_name df with
  | Some e => raise e
  | None => ret tt
  end ;;
  emit (Print (MsgSaved save_name)).

Definition read_report
    (tms_id year day direction hour_from hour_to : Z)
    (delete_if_faulty : bool) (save_name : option string) : Py DataFrame :=
  emit (Print (MsgTrying day year)) ;;
  assert ((0 <=? hour_from) && (hour_from <? 24)) msg_hour_from ;;
  assert ((0 <? hour_to) && (hour_to <=? 24)) msg_hour_to ;;
  assert (hour_from <? hour_to) msg_hour_order ;;
  assert ((1 <=? day) && (day <=? 366)) msg_day ;;
  assert (1995 <=? year) msg_year ;;
  assert ((direction =? 1) || (direction =? 2)) msg_direction ;;
  let url := make_url tms_id year day in
  status_code <- requests_get_status_code url ;;
  if negb (status_code =? 404) then
    df <- pd_read_csv url ;;
    d <- date_of_year_day year day ;;
    let df := assign (set_date d) df in
    let df := assign set_cars df in
    let df := assign set_buses df in
    let df := assign set_trucks df in
    let df :=
      if delete_if_faulty
      then select (fun r => negb (Col.faulty r =? 1)) df
      else df in
    let df := select (fun r => hour_from * 60 * 60 * 100 <=? Col.total_time r) df in
    let df := select (fun r => Col.total_time r <=? hour_to * 60 * 60 * 100) df in
    let df := select (fun r => Col.direction r =? direction) df in
    emit (Print (MsgDownloadSuccessful tms_id day year)) ;;
    match save_name with
    | Some name => save_gzip name df
    | None => ret tt
    end ;;
    ret df
  else
    emit (Print MsgTimeSpent) ;;
    emit (Warn (msg_no_data tms_id day year)) ;;
    match save_name with
    | Some _ => emit (Warn msg_cannot_save)
    | None => ret tt
    end ;;
    ret [].

(** The body of the loop of [read_several_reports]; the state is the
    frame [df] and [counter]. *)
Definition read_day
    (tms_id direction hour_from hour_to : Z) (delete_if_faulty : bool)
    (st : DataFrame * Z) (value : Z * Z) : Py (DataFrame * Z) :=
  let '(df, counter) := st in
  if empty df then
    read_df <- read_report tms_id (fst value) (snd value) direction
                 hour_from hour_to delete_if_faulty None ;;
    if negb (empty read_df) then ret (read_df, counter + 1)
    else ret (df, counter)
  else
    read_df <- read_report tms_id (fst value) (snd value) direction
                 hour_from hour_to delete_if_faulty None ;;
    if negb (empty read_df)
    then ret (concat_ignore_index df read_df, counter + 1)
    else ret (df, counter).

(** [read_several_reports] together with the final value of its local
    [counter], which the Python function does not return. *)
Definition read_several_reports_counted
    (tms_id : Z) (year_day_list : list (Z * Z))
    (direction hour_from hour_to : Z)
    (delete_if_faulty : bool) (save_name : option string)
  : Py (DataFrame * Z) :=
  assert ((0 <=? hour_from) && (hour_from <? 24)) msg_hour_from ;;
  assert ((0 <? hour_to) && (hour_to <=? 24)) msg_hour_to ;;
  assert (hour_from <? hour_to) msg_hour_order ;;
  assert ((direction =? 1) || (direction =? 2)) msg_direction ;;
  st <- for_each
          (read_day tms_id direction hour_from hour_to delete_if_faulty)
          year_day_list ([], 0) ;;
  let '(df, counter) := st in
  assert (negb (empty df)) msg_not_loaded ;;
  emit (Print (MsgLoadingSuccessful counter (List.length year_day_list))) ;;
  match save_name with
  | Some name => save_gzip name df
  | None => ret tt
  end ;;
  ret (df, counter).

(** What the caller of [read_several_reports] receives: the frame. *)
Definition read_several_reports
    (tms_id : Z) (year_day_list : list (Z * Z))
    (direction hour_from hour_to : Z)
    (delete_if_faulty : bool) (save_name : option string)
  : Py DataFrame :=
  st <- read_several_reports_counted tms_id year_day_list direction
          hour_from hour_to delete_if_faulty save_name ;;
  ret (fst st).

End WithServer.

End load.

(* ------------------------------------------------------------------ *)
(** ** cqrtraffic/fintraffic.py *)

Module fintraffic.
Import py.

Section WithSolver.

(** Floating-point numbers, the readings of [time.perf_counter()] among
    them, and the subtraction that turns two readings into a duration. *)
Variable Num : Type.
Variable fsub : Num -> Num -> Num.

(** The successive readings of [time.perf_counter()]. *)
Variable perf_counter : nat -> Num.

(** The columns of the frame [process.bagging] returns that the
    orchestrator reads. *)
Record BagData : Type := {
  centroid_density : list Num;
  centroid_flow : list Num;
  bag_weight : list Num
}.

(** The external solver, [pystoned.wCQER.wCQR].  [Sol] is what a solve
    leaves in the model, [beta_default_lb] the lower bound the library
    puts on the coefficient [beta] of a new model, [wCQR_check] the
    exception its constructor raises on data it refuses, and [solve]
    the outcome of [optimize]. *)
Variable Sol : Type.
Variable beta_default_lb : Num.
Variable wCQR_check : list Num -> list Num -> list Num -> Num -> option exn.

Record wCQR : Type := {
  y : list Num;
  x : list Num;
  w : list Num;
  tau : Num;
  beta_lb : option Num;
  solution : option Sol
}.

Variable solve : option string -> wCQR -> exn + Sol.

(** [model.__model__.beta.setlb(lb)]; [None] is "no lower bound". *)
Definition setlb (lb : option Num) (m : wCQR) : wCQR :=
  {| y := y m; x := x m; w := w m; tau := tau m;
     beta_lb := lb; solution := solution m |}.

Definition set_solution (sol : Sol) (m : wCQR) : wCQR :=
  {| y := y m; x := x m; w := w m; tau := tau m;
     beta_lb := beta_lb m; solution := Some sol |}.

(** A station object.  The attributes that [__init__] does not set are
    [None] until a method assigns them. *)
Record FintrafficTMS : Type := {
  tms_id : Z;
  days_list : list (Z * Z);
  hour_from : Z;
  hour_to : Z;
  direction : Z;
  tau_list : list Num;
  bag_data : option BagData;
  weight : option (list Num);
  bagged_model : option (list wCQR);
  time_weighted : option (list Num)
}.

Definition __init__ (tms_id : Z) (days_list : list (Z * Z)) (direction : Z)
    (tau_list : list Num) (hour_from hour_to : Z) : FintrafficTMS :=
  {| tms_id := tms_id; days_list := days_list;
     hour_from := hour_from; hour_to := hour_to;
     direction := direction; tau_list := tau_list;
     bag_data := None; weight := None;
     bagged_model := None; time_weighted := None |}.

Definition set_bagged_model (v : list wCQR) (o : FintrafficTMS) : FintrafficTMS :=
  {| tms_id := tms_id o; days_list := days_list o;
     hour_from := hour_from o; hour_to := hour_to o;
     direction := direction o; tau_list := tau_list o;
     bag_data := bag_data o; weight := weight o;
     bagged_model := Some v; time_weighted := time_weighted o |}.

Definition set_time_weighted (v : list Num) (o : FintrafficTMS) : FintrafficTMS :=
  {| tms_id := tms_id o; days_list := days_list o;
     hour_from := hour_from o; hour_to := hour_to o;
     direction := direction o; tau_list := tau_list o;
     bag_data := bag_data o; weight := weight o;
     bagged_model := bagged_model o; time_weighted := Some v |}.

(** The calls that leave the orchestrator. *)
Inductive event : Type :=
| PerfCounter
| CallwCQR (y x w : list Num) (tau : Num)
| CallSetlb (lb : option Num)
| CallOptimize (m : wCQR) (email : option string).

(** The state a method runs in: the object, the number of clock readings
    taken so far and the calls made so far. *)
Record state : Type := {
  self : FintrafficTMS;
  ticks : nat;
  trace : list event
}.

(** A method body: it returns or raises, and leaves a state either way. *)
Definition M (A : Type) : Type := state -> (exn + A) * state.

Definition ret {A} (a : A) : M A := fun s => (inr a, s).

Definition raise {A} (e : exn) : M A := fun s => (inl e, s).

Definition bind {A B} (m : M A) (f : A -> M B) : M B :=
  fun s =>
    match m s with
    | (inl e, s') => (inl e, s')
    | (inr a, s') => f a s'
    end.

Declare Scope m_scope.
Delimit Scope m_scope with m.
Notation "v <- c1 ;; c2" := (bind c1 (fun v => c2))
  (at level 100, c1 at next level, right associativity) : m_scope.
Notation "c1 ;; c2" := (bind c1 (fun _ => c2))
  (at level 100, right associativity) : m_scope.
Local Open Scope m_scope.

Definition emit (ev : event) : M unit :=
  fun s => (inr tt, {| self := self s; ticks := ticks s;
                       trace := (trace s ++ [ev])%list |}).

Definition update (f : FintrafficTMS -> FintrafficTMS) : M unit :=
  fun s => (inr tt, {| self := f (self s); ticks := ticks s; trace := trace s |}).

(** [self.attr] for an attribute that may not be set yet. *)
Definition getattr {A} (name : string) (proj : FintrafficTMS -> option A) : M A :=
  fun s =>
    match proj (self s) with
    | Some v => (inr v, s)
    | None => (inl (AttributeError name), s)
    end.

(** [time.perf_counter()] *)
Definition time_perf_counter : M Num :=
  fun s => (inr (perf_counter (ticks s)),
            {| self := self s; ticks := S (ticks s);
               trace := (trace s ++ [PerfCounter])%list |}).

(** [wCQER.wCQR(y=..., x=..., w=..., tau=...)] *)
Definition new_wCQR (y x w : list Num) (tau : Num) : M wCQR :=
  emit (CallwCQR y x w tau) ;;
  match wCQR_check y x w tau with
  | Some e => raise e
  | None => ret {| y := y; x := x; w := w; tau := tau;
                   beta_lb := Some beta_default_lb; solution := None |}
  end.

(** [model.optimize(email)] and [model.optimize()] *)
Definition optimize (email : option string) (m : wCQR) : M wCQR :=
  emit (CallOptimize m email) ;;
  match solve email m with
  | inl e => raise e
  | inr sol => ret (set_solution sol m)
  end.

(** [for tau in l: body(tau)] *)
Fixpoint for_each {A} (body : A -> M unit) (l : list A) : M unit :=
  match l with
  | [] => ret tt
  | a :: l' => body a ;; for_each body l'
  end.

(** One turn of the loop of [weighted_model]. *)
Definition fit (email : option string) (tau : Num) : M unit :=
  start_time <- time_perf_counter ;;
  bag <- getattr "bag_data" bag_data ;;
  wt <- getattr "weight" weight ;;
  model <- new_wCQR (centroid_flow bag) (centroid_density bag) wt tau ;;
  emit (CallSetlb None) ;;
  let model := setlb None model in
  model <- optimize email model ;;
  models <- getattr "bagged_model" bagged_model ;;
  update (set_bagged_model (models ++ [model])) ;;
  end_time <- time_perf_counter ;;
  times <- getattr "time_weighted" time_weighted ;;
  update (set_time_weighted (times ++ [fsub end_time start_time])).

(** [self.tau_list] *)
Definition self_tau_list : M (list Num) :=
  fun s => (inr (tau_list (self s)), s).

Definition weighted_model (tau_list : option (list Num))
    (email : option string) : M unit :=
  update (set_bagged_model []) ;;
  update (set_time_weighted []) ;;
  tau_list <- match tau_list with
              | None => self_tau_list
              | Some l => ret l
              end ;;
  for_each (fit email) tau_list.

End WithSolver.

End fintraffic.

(* ------------------------------------------------------------------ *)
(** ** Auxiliary definitions for the statements about the loader *)

Module load_props.
Import py load.

(** The [assert] statements at the head of [read_several_reports]. *)
Definition window_ok (direction hour_from hour_to : Z) : bool :=
  ((0 <=? hour_from) && (hour_from <? 24))
  && ((0 <? hour_to) && (hour_to <=? 24))
  && (hour_from <? hour_to)
  && ((direction =? 1) || (direction =? 2)).

(** The two further [assert] statements of [read_report]. *)
Definition year_day_ok (value : Z * Z) : bool :=
  ((1 <=? snd value) && (snd value <=? 366)) && (1995 <=? fst value).

(** The events that reach the network. *)
Definition is_network (ev : event) : bool :=
  match ev with
  | RequestsGet _ | ReadCsv _ => true
  | _ => false
  end.

Definition network_events (tr : list event) : list event :=
  filter is_network tr.

(** The messages of the [assert] statements on the parameters. *)
Definition param_messages : list string :=
  [msg_hour_from; msg_hour_to; msg_hour_order; msg_day; msg_year; msg_direction].

(** The row [read_report] makes of one line of a report dated [d], before
    any row is dropped. *)
Definition row_of_line (d : Z) (l : Csv.line) : Col.row :=
  {| Col.total_time := Csv.total_time l;
     Col.direction := Csv.direction l;
     Col.vehicle := Csv.vehicle l;
     Col.faulty := Csv.faulty l;
     Col.other_columns := Csv.other_columns l;
     Col.date := d;
     Col.cars := is_car (Csv.vehicle l);
     Col.buses := is_bus (Csv.vehicle l);
     Col.trucks := is_truck (Csv.vehicle l) |}.

(** The classification table: what the three added columns say about the
    vehicle class of a row.  Each column holds 1 or 0, and 1 exactly for
    the classes of its kind. *)
Definition class_table (r : Col.row) : Prop :=
  (Col.cars r = 1 <-> Col.vehicle r = 1)
  /\ (Col.buses r = 1 <-> Col.vehicle r = 3)
  /\ (Col.trucks r = 1 <-> In (Col.vehicle r) [2; 4; 5; 6; 7])
  /\ (~ In (Col.vehicle r) [1; 2; 3; 4; 5; 6; 7] ->
      Col.cars r = 0 /\ Col.buses r = 0 /\ Col.trucks r = 0)
  /\ Forall (fun c => c = 0 \/ c = 1) [Col.cars r; Col.buses r; Col.trucks r].

(** The rows that the four filters of [read_report] keep. *)
Definition kept (direction hour_from hour_to : Z) (delete_if_faulty : bool)
    (r : Col.row) : bool :=
  (if delete_if_faulty then negb (Col.faulty r =? 1) else true)
  && (hour_from * 60 * 60 * 100 <=? Col.total_time r)
  && (Col.total_time r <=? hour_to * 60 * 60 * 100)
  && (Col.direction r =? direction).

(** The frame [read_report] makes of the lines of a report dated [d]. *)
Definition cleaned (direction hour_from hour_to : Z) (delete_if_faulty : bool)
    (d : Z) (body : list Csv.line) : DataFrame :=
  let df := assign set_trucks
              (assign set_buses
                 (assign set_cars (assign (set_date d) (frame_of_lines body)))) in
  let df := if delete_if_faulty
            then select (fun r => negb (Col.faulty r =? 1)) df
            else df in
  let df := select (fun r => hour_from * 60 * 60 * 100 <=? Col.total_time r) df in
  let df := select (fun r => Col.total_time r <=? hour_to * 60 * 60 * 100) df in
  select (fun r => Col.direction r =? direction) df.

Section WithServer.

Variable URL_FINTRAFFIC : string.
Variable server : string -> reply.
Variable to_parquet_raises : string -> DataFrame -> option exn.

(** What the saving step raises for a frame: nothing without a file name,
    the [AssertionError] of a name that does not end in .gzip, and
    otherwise what [to_parquet] raises. *)
Definition save_raises (save_name : option string) (df : DataFrame) : option exn :=
  match save_name with
  | None => None
  | Some name =>
      if endswith (lower name) ".gzip"
      then to_parquet_raises name df
      else Some (AssertionError msg_filename)
  end.

Section OneCall.

Variables (tms_id direction hour_from hour_to : Z).
Variable delete_if_faulty : bool.

(** What the loop of [read_several_reports] gets for one day. *)
Definition day_result (value : Z * Z) : exn + DataFrame :=
  fst (read_report URL_FINTRAFFIC server to_parquet_raises tms_id (fst value) (snd value)
         direction hour_from hour_to delete_if_faulty None).

(** The frame retrieved for a day, empty when the retrieval raised. *)
Definition retrieved (value : Z * Z) : DataFrame :=
  match day_result value with
  | inr df => df
  | inl _ => []
  end.

Definition yields_empty (value : Z * Z) : Prop :=
  exists df, day_result value = inr df /\ empty df = true.

Definition yields_data (value : Z * Z) : Prop :=
  exists df, day_result value = inr df /\ empty df = false.

Definition returns (value : Z * Z) : Prop :=
  exists df, day_result value = inr df.

(** The events of the retrieval of one day. *)
Definition day_events (value : Z * Z) : list event :=
  snd (read_report URL_FINTRAFFIC server to_parquet_raises tms_id (fst value) (snd value) direction hour_from hour_to
         delete_if_faulty None).

(** The state of the loop after a day that returned the frame [read_df]. *)
Definition after_day (st : DataFrame * Z) (read_df : DataFrame) : DataFrame * Z :=
  if empty read_df then st
  else ((if empty (fst st) then read_df
         else concat_ignore_index (fst st) read_df),
        snd st + 1).

(** The number of days of the list that yielded data. *)
Definition success_count (year_day_list : list (Z * Z)) : Z :=
  Z.of_nat (List.length
              (filter (fun v => negb (empty (retrieved v))) year_day_list)).

End OneCall.

(** What [read_report] does once its [assert] statements have passed, case
    by case on the answer of the server: the result and the events. *)
Definition report_outcome
    (tms_id year day direction hour_from hour_to : Z)
    (delete_if_faulty : bool) (save_name : option string) : Py DataFrame :=
  let url := make_url URL_FINTRAFFIC tms_id year day in
  let head := [Print (MsgTrying day year); RequestsGet url] in
  match server url with
  | NoConnection => (inl ConnectionError, head)
  | Reply status_code body =>
      if status_code =? 404 then
        (inr [],
         (head ++ [Print MsgTimeSpent; Warn (msg_no_data tms_id day year)]
          ++ match save_name with
             | Some _ => [Warn msg_cannot_save]
             | None => []
             end)%list)
      else if (200 <=? status_code) && (status_code <? 300) then
        match fst (date_of_year_day year day) with
        | inl e => (inl e, (head ++ [ReadCsv url])%list)
        | inr d =>
            let df := cleaned direction hour_from hour_to delete_if_faulty d body in
            let done := (head ++ [ReadCsv url;
                                  Print (MsgDownloadSuccessful tms_id day year)])%list in
            match save_name with
            | None => (inr df, done)
            | Some name =>
                if endswith (lower name) ".gzip"
                then match to_parquet_raises name df with
                     | Some e => (inl e, (done ++ [ToParquet name df])%list)
                     | None =>
                         (inr df,
                          (done ++ [ToParquet name df; Print (MsgSaved name)])%list)
                     end
                else (inl (AssertionError msg_filename), done)
            end
        end
      else (inl (HTTPError status_code), (head ++ [ReadCsv url])%list)
  end.

(** The reading of "validation is pre-flight" for one call of
    [read_several_reports]: with a bad hour window, a bad direction or
    a day of the list out of range, the call fails and nothing has
    reached the network. *)
Definition preflight_claim
    (tms_id : Z) (year_day_list : list (Z * Z))
    (direction hour_from hour_to : Z)
    (delete_if_faulty : bool) (save_name : option string) : Prop :=
  window_ok direction hour_from hour_to = false
  \/ Exists (fun v => year_day_ok v = false) year_day_list ->
  let r := read_several_reports URL_FINTRAFFIC server to_parquet_raises tms_id year_day_list
             direction hour_from hour_to delete_if_faulty save_name in
  (exists e, fst r = inl e) /\ network_events (snd r) = [].

(** The reading of "the loader fails if and only if every requested day
    is empty, and returns the concatenation as soon as one day yields
    data" for one call of [read_several_reports]. *)
Definition fails_iff_all_empty_claim
    (tms_id : Z) (year_day_list : list (Z * Z))
    (direction hour_from hour_to : Z)
    (delete_if_faulty : bool) (save_name : option string) : Prop :=
  let r := read_several_reports URL_FINTRAFFIC server to_parquet_raises tms_id year_day_list
             direction hour_from hour_to delete_if_faulty save_name in
  ((exists e, fst r = inl e)
   <-> Forall (yields_empty tms_id direction hour_from hour_to delete_if_faulty)
         year_day_list)
  /\ (Exists (yields_data tms_id direction hour_from hour_to delete_if_faulty)
        year_day_list ->
      exists df,
        fst r = inr df
        /\ records df
           = List.concat
               (map (fun v => records (retrieved tms_id direction hour_from
                                         hour_to delete_if_faulty v))
                  year_day_list)).

End WithServer.

(** The reading of "the success count can be obtained from the result of
    the function": some function of the returned frame gives, whatever
    the server holds and for every call that returns, the number of days
    that yielded data. *)
Definition count_exposed_by_result
    (URL_FINTRAFFIC : string)
    (to_parquet_raises : string -> DataFrame -> option exn)
    (tms_id direction hour_from hour_to : Z)
    (delete_if_faulty : bool) (save_name : option string) : Prop :=
  exists count_of : DataFrame -> Z,
    forall (server : string -> reply) (year_day_list : list (Z * Z)) df,
      fst (read_several_reports URL_FINTRAFFIC server to_parquet_raises tms_id year_day_list
             direction hour_from hour_to delete_if_faulty save_name) = inr df ->
      count_of df =
      success_count URL_FINTRAFFIC server to_parquet_raises tms_id direction hour_from hour_to
        delete_if_faulty year_day_list.

(** *** A sample server

    Station 123 has a report for day 1 of 2021 with four lines, one of
    them at 20:00:00.00 sharp; day 2 answers with status 500; every other
    report is missing. *)
Definition sample_url : string := "https://example.org/lamraw_TMS_YY_DD.csv".

(** Writing succeeds except under the directory nodir, which does not
    exist. *)
Definition sample_writer (save_name : string) (df : DataFrame) : option exn :=
  if String.prefix "nodir/" save_name then Some (OSError 2) else None.

Definition sample_lines : list Csv.line :=
  [ Csv.Line 7200000 1 1 0 [];
    Csv.Line 3000000 1 3 1 [];
    Csv.Line 3000000 2 2 0 [];
    Csv.Line 3000000 1 7 0 [] ].

Definition sample_server (url : string) : reply :=
  if String.eqb url "https://example.org/lamraw_123_21_1.csv"
  then Reply 200 sample_lines
  else if String.eqb url "https://example.org/lamraw_123_21_2.csv"
  then Reply 500 []
  else Reply 404 [].

(** Two servers that differ in the report of day 1 of 2021: the first has
    the same line twice, the second has it once. *)
Definition twice_server (url : string) : reply :=
  if String.eqb url "https://example.org/lamraw_123_21_1.csv"
  then Reply 200 [Csv.Line 3000000 1 1 0 []; Csv.Line 3000000 1 1 0 []]
  else Reply 404 [].

Definition once_server (url : string) : reply :=
  if String.eqb url "https://example.org/lamraw_123_21_1.csv"
  then Reply 200 [Csv.Line 3000000 1 1 0 []]
  else Reply 404 [].

End load_props.

(* ------------------------------------------------------------------ *)
(** ** Auxiliary definitions for the statements about the orchestrator *)

Module fintraffic_props.
Import py fintraffic.

Section WithSolver.

Variables Num Sol : Type.
Variable fsub : Num -> Num -> Num.
Variable perf_counter : nat -> Num.
Variable beta_default_lb : Num.
Variable wCQR_check : list Num -> list Num -> list Num -> Num -> option exn.
Variable solve : option string -> wCQR Num Sol -> exn + Sol.

(** The state after one more call has been recorded. *)
Definition log (ev : event Num Sol) (s : state Num Sol) : state Num Sol :=
  {| self := self s; ticks := ticks s; trace := (trace s ++ [ev])%list |}.

(** The state after one more reading of the clock. *)
Definition tick (s : state Num Sol) : state Num Sol :=
  {| self := self s; ticks := S (ticks s);
     trace := (trace s ++ [PerfCounter Num Sol])%list |}.

(** The state after an assignment to an attribute of the object. *)
Definition with_self (f : FintrafficTMS Num Sol -> FintrafficTMS Num Sol)
    (s : state Num Sol) : state Num Sol :=
  {| self := f (self s); ticks := ticks s; trace := trace s |}.

(** The model the loop hands to [optimize] for [tau]: the new model with the
    lower bound of [beta] taken away. *)
Definition model_for (bag : BagData Num) (wt : list Num) (t : Num) : wCQR Num Sol :=
  setlb None
    {| y := centroid_flow bag; x := centroid_density bag; w := wt; tau := t;
       beta_lb := Some beta_default_lb; solution := None |}.

(** One turn of the loop of [weighted_model], case by case. *)
Definition fit_outcome (email : option string) (t : Num) (s : state Num Sol)
  : (exn + unit) * state Num Sol :=
  let s1 := tick s in
  match bag_data (self s) with
  | None => (inl (AttributeError "bag_data"), s1)
  | Some bag =>
      match weight (self s) with
      | None => (inl (AttributeError "weight"), s1)
      | Some wt =>
          let s2 := log (CallwCQR Sol (centroid_flow bag) (centroid_density bag)
                           wt t) s1 in
          match wCQR_check (centroid_flow bag) (centroid_density bag) wt t with
          | Some e => (inl e, s2)
          | None =>
              let m := model_for bag wt t in
              let s3 := log (CallOptimize m email) (log (CallSetlb Sol None) s2) in
              match solve email m with
              | inl e => (inl e, s3)
              | inr sol =>
                  match bagged_model (self s) with
                  | None => (inl (AttributeError "bagged_model"), s3)
                  | Some models =>
                      let s4 :=
                        tick (with_self
                                (set_bagged_model
                                   (models ++ [set_solution sol m])%list) s3) in
                      match time_weighted (self s) with
                      | None => (inl (AttributeError "time_weighted"), s4)
                      | Some times =>
                          (inr tt,
                           with_self
                             (set_time_weighted
                                (times ++ [fsub (perf_counter (S (ticks s)))
                                             (perf_counter (ticks s))])%list)
                             s4)
                      end
                  end
              end
          end
      end
  end.

(** The solver accepts the data and solves the model for [tau]. *)
Definition fit_succeeds (email : option string) (o : FintrafficTMS Num Sol)
    (t : Num) : Prop :=
  exists bag wt sol,
    bag_data o = Some bag
    /\ weight o = Some wt
    /\ wCQR_check (centroid_flow bag) (centroid_density bag) wt t = None
    /\ solve email (model_for bag wt t) = inr sol.

(** [m] is a fitted model of the station [o] for the quantile level [t]:
    its data are the bagged flows, densities and weights of the station,
    its level is [t], its coefficient has no lower bound, and its solution
    is the one the solver returned for the model of these data that had
    no solution yet. *)
Definition fitted (email : option string) (o : FintrafficTMS Num Sol)
    (t : Num) (m : wCQR Num Sol) : Prop :=
  exists bag wt sol,
    bag_data o = Some bag
    /\ weight o = Some wt
    /\ y m = centroid_flow bag
    /\ x m = centroid_density bag
    /\ w m = wt
    /\ tau m = t
    /\ beta_lb m = None
    /\ solve email {| y := centroid_flow bag; x := centroid_density bag;
                      w := wt; tau := t; beta_lb := None; solution := None |}
       = inr sol
    /\ solution m = Some sol.

(** The quantile levels a call of [weighted_model] works through. *)
Definition requested (tau_list : option (list Num)) (o : FintrafficTMS Num Sol)
  : list Num :=
  match tau_list with
  | Some l => l
  | None => fintraffic.tau_list o
  end.

(** The number of calls of [optimize] among the events. *)
Fixpoint optimize_calls (evs : list (event Num Sol)) : nat :=
  match evs with
  | [] => 0
  | CallOptimize _ _ :: evs' => S (optimize_calls evs')
  | _ :: evs' => optimize_calls evs'
  end.

(** The order of the calls: [optimize] is only called right after a model
    was made and [setlb(None)] was called, on a model without lower bound;
    a sequence may stop before the solve. *)
Inductive disciplined : list (event Num Sol) -> Prop :=
| disc_nil : disciplined []
| disc_clock evs : disciplined evs -> disciplined (PerfCounter Num Sol :: evs)
| disc_made ys xs ws t : disciplined [CallwCQR Sol ys xs ws t]
| disc_fit ys xs ws m email evs :
    beta_lb m = None ->
    disciplined evs ->
    disciplined (CallwCQR Sol ys xs ws (tau m) :: CallSetlb Sol None
                   :: CallOptimize m email :: evs).

End WithSolver.

(** *** A sample station

    Numbers are integers (quantile levels in hundredths), the clock ticks by
    ten, the solver accepts any data and fails on the quantile level 0. *)
Definition sample_clock (n : nat) : Z := 10 * Z.of_nat n.

Definition sample_check (ys xs ws : list Z) (t : Z) : option exn := None.

Definition sample_solve (email : option string) (m : wCQR Z Z) : exn + Z :=
  if tau m =? 0 then inl (SolverError 1) else inr (tau m).

Definition sample_station : FintrafficTMS Z Z :=
  {| tms_id := 123; days_list := [(2021, 1)]; hour_from := 6; hour_to := 20;
     direction := 1; tau_list := [50];
     bag_data := Some {| centroid_density := [10; 20];
                         centroid_flow := [100; 150];
                         bag_weight := [1; 3] |};
     weight := Some [1; 3];
     bagged_model := None; time_weighted := None |}.

Definition sample_state : state Z Z :=
  {| self := sample_station; ticks := 0; trace := [] |}.

Definition sample_weighted_model (tau_list : option (list Z)) :=
  weighted_model Z.sub sample_clock 0 sample_check sample_solve tau_list None
    sample_state.

End fintraffic_props.

(* ------------------------------------------------------------------ *)
(** ** Further definitions for the loader: labels, writes, leap years *)

Module load_more_props.
Import py load load_props.

(** The index labels of a frame, in row order. *)
Definition labels (df : DataFrame) : list nat := map fst df.

(** The events that write a file. *)
Definition is_write (ev : event) : bool :=
  match ev with
  | ToParquet _ _ => true
  | _ => false
  end.

(** Leap years of the proleptic Gregorian calendar. *)
Definition is_leap (year : Z) : bool :=
  ((year mod 4 =? 0) && negb (year mod 100 =? 0)) || (year mod 400 =? 0).

(** The date [read_report] gives to the rows of the report of a day. *)
Definition date_of (value : Z * Z) : Z :=
  days_before_year (fst value) + 1 + (snd value - 1).

(** What the cleaning steps of [read_report] guarantee of a row. *)
Definition clean_row (direction hour_from hour_to : Z) (delete_if_faulty : bool)
    (r : Col.row) : Prop :=
  Col.direction r = direction
  /\ (delete_if_faulty = true -> Col.faulty r <> 1)
  /\ hour_from * 360000 <= Col.total_time r <= hour_to * 360000
  /\ class_table r.

Section WithServer.

Variable URL_FINTRAFFIC : string.
Variable server : string -> reply.
Variable to_parquet_raises : string -> DataFrame -> option exn.

(** What [read_several_reports] does once its [assert] statements have
    passed, from the outcome of its loop. *)
Definition several_outcome
    (tms_id : Z) (year_day_list : list (Z * Z))
    (direction hour_from hour_to : Z)
    (delete_if_faulty : bool) (save_name : option string) : Py DataFrame :=
  let loop := for_each
                (read_day URL_FINTRAFFIC server to_parquet_raises tms_id direction hour_from
                   hour_to delete_if_faulty)
                year_day_list ([], 0) in
  match fst loop with
  | inl e => (inl e, snd loop)
  | inr st =>
      if empty (fst st) then (inl (AssertionError msg_not_loaded), snd loop)
      else
        let done :=
          (snd loop
           ++ [Print (MsgLoadingSuccessful (snd st) (List.length year_day_list))])%list in
        match save_name with
        | None => (inr (fst st), done)
        | Some name =>
            if endswith (lower name) ".gzip"
            then match to_parquet_raises name (fst st) with
                 | Some e => (inl e, (done ++ [ToParquet name (fst st)])%list)
                 | None =>
                     (inr (fst st),
                      (done ++ [ToParquet name (fst st); Print (MsgSaved name)])%list)
                 end
            else (inl (AssertionError msg_filename), done)
        end
  end.

End WithServer.

(** A server with reports for days 1 and 3 of 2021 of station 123, the
    first with a faulty line in the middle; day 2 answers with status 500. *)
Definition gappy_server (url : string) : reply :=
  if String.eqb url "https://example.org/lamraw_123_21_1.csv"
  then Reply 200 [Csv.Line 3000000 1 1 0 []; Csv.Line 3000000 1 3 1 [];
                  Csv.Line 3100000 1 2 0 []]
  else if String.eqb url "https://example.org/lamraw_123_21_3.csv"
  then Reply 200 [Csv.Line 4000000 1 1 0 []]
  else if String.eqb url "https://example.org/lamraw_123_21_2.csv"
  then Reply 500 []
  else Reply 404 [].

End load_more_props.

(* ------------------------------------------------------------------ *)
(** ** cqrtraffic/utils/load.py: reading a saved file *)

Module load_gzip.
Import py load.

(** A file: its size in bytes and what [pd.read_parquet] makes of it. *)
Record file : Type := {
  size : Z;
  parquet : exn + DataFrame
}.

(** The files, by path.  [pathlib.Path(filepath)] names the same file as
    [filepath]. *)
Definition filesystem : Type := string -> option file.

(** What [read_gzip_ft] raises: an exception of the loader, or the plain
    [Exception] with its message. *)
Inductive raised : Type :=
| Builtin (e : exn)
| Exception (msg : string).

Inductive message : Type :=
| MsgTryingLocal (filepath : string)
| MsgLoadingCompleted.

(** What a call does besides returning. *)
Inductive event : Type :=
| Print (m : message)
| PathExists (filepath : string)
| PathGetsize (filepath : string)
| ReadParquet (filepath : string).

Definition msg_wrong_format : string :=
  "Error: Wrong file format or a file is not found. Please, provide a valid .gzip file.".

Definition msg_missing : string :=
  "File is empty or it does not exist at the given filepath. Please, check the file or the filepath.".

Definition read_gzip_ft (fs : filesystem) (filepath : string)
  : (raised + DataFrame) * list event :=
  let tried := [Print (MsgTryingLocal filepath)] in
  if negb (endswith (lower filepath) ".gzip")
  then (inl (Builtin (AssertionError msg_wrong_format)), tried)
  else
    match fs filepath with
    | None =>
        (* [os.path.exists] is false: [and] does not ask for the size. *)
        (inl (Exception msg_missing), (tried ++ [PathExists filepath])%list)
    | Some f =>
        let asked := (tried ++ [PathExists filepath; PathGetsize filepath])%list in
        if negb (size f =? 0) then
          match parquet f with
          | inl e => (inl (Builtin e), (asked ++ [ReadParquet filepath])%list)
          | inr df =>
              (inr df,
               (asked ++ [ReadParquet filepath; Print MsgLoadingCompleted])%list)
          end
        else (inl (Exception msg_missing), asked)
    end.

(** The events that touch the file system. *)
Definition touches_files (ev : event) : bool :=
  match ev with
  | Print _ => false
  | _ => true
  end.

Section Writing.

(** The size of the file that [df.to_parquet(..., compression="gzip")]
    writes for a frame. *)
Variable parquet_size : DataFrame -> Z.

(** What the call raises, as in [load.save_gzip], and the files a call
    that raises leaves behind: the file may be missing or partly written. *)
Variable to_parquet_raises : string -> DataFrame -> option exn.
Variable failed_to_parquet : string -> DataFrame -> filesystem -> filesystem.

(** The files after a call [df.to_parquet(save_name, ...)] that returns. *)
Definition to_parquet (save_name : string) (df : DataFrame) (fs : filesystem)
  : filesystem :=
  fun filepath =>
    if String.eqb filepath save_name
    then Some {| size := parquet_size df; parquet := inr df |}
    else fs filepath.

(** The files after the events of a call of the loader. *)
Fixpoint files_after (evs : list load.event) (fs : filesystem) : filesystem :=
  match evs with
  | [] => fs
  | ToParquet save_name df :: evs' =>
      files_after evs'
        (match to_parquet_raises save_name df with
         | None => to_parquet save_name df fs
         | Some _ => failed_to_parquet save_name df fs
         end)
  | _ :: evs' => files_after evs' fs
  end.

End Writing.

(** Sample files: a saved frame, an empty file and a file that is no
    parquet file. *)
Definition sample_files : filesystem :=
  fun filepath =>
    if String.eqb filepath "data/day1.GZIP"
    then Some {| size := 512; parquet := inr [(0%nat, Col.Row 3000000 1 1 0 [] 737791 1 0 0)] |}
    else if String.eqb filepath "data/empty.gzip"
    then Some {| size := 0; parquet := inl ValueError |}
    else None.

End load_gzip.

(* ------------------------------------------------------------------ *)
(** ** Further definitions for the orchestrator: what a fit stores *)

Module fintraffic_more_props.
Import py fintraffic fintraffic_props.

Section WithSolver.

Variables Num Sol : Type.
Variable fsub : Num -> Num -> Num.
Variable perf_counter : nat -> Num.
Variable beta_default_lb : Num.
Variable wCQR_check : list Num -> list Num -> list Num -> Num -> option exn.
Variable solve : option string -> wCQR Num Sol -> exn + Sol.

(** The durations of [k] fits that start at the clock reading number [t0]:
    each is the difference of the two readings taken around its fit. *)
Definition durations (t0 k : nat) : list Num :=
  map (fun i => fsub (perf_counter (t0 + 2 * i + 1)) (perf_counter (t0 + 2 * i)))
    (seq 0 k).

(** [m] is the model stored for the quantile level [t]: the model of the
    bagged data and weights without lower bound, with the solution the
    solver gave for it. *)
Definition stored (email : option string) (bag : BagData Num) (wt : list Num)
    (t : Num) (m : wCQR Num Sol) : Prop :=
  exists sol,
    solve email (model_for Sol beta_default_lb bag wt t) = inr sol
    /\ m = set_solution sol (model_for Sol beta_default_lb bag wt t).

(** The fit for [t] fails with [e]: the constructor refuses the data, or the
    solver fails. *)
Definition fit_fails (email : option string) (bag : BagData Num) (wt : list Num)
    (t : Num) (e : exn) : Prop :=
  wCQR_check (centroid_flow bag) (centroid_density bag) wt t = Some e
  \/ (wCQR_check (centroid_flow bag) (centroid_density bag) wt t = None
      /\ solve email (model_for Sol beta_default_lb bag wt t) = inl e).

End WithSolver.

End fintraffic_more_props.

(* ------------------------------------------------------------------ *)
(** ** cqrtraffic/fintraffic.py: the other methods of the pipeline

    [load_raw_data], [aggregate], [bagging] and [make_model].  The module
    [process] is not part of the sources at hand: [process.aggregate] and
    [process.bagging] are parameters, functions that return the frame the
    class goes on with or raise; the frames are taken to have the columns
    the class reads.  The clock readings that the loader takes for its
    printed lines are not counted. *)

Module station.
Import py fintraffic.

Section WithPipeline.

Variables Num Sol : Type.
Variable fsub : Num -> Num -> Num.
Variable perf_counter : nat -> Num.
Variable beta_default_lb : Num.
Variable wCQR_check : list Num -> list Num -> list Num -> Num -> option exn.
Variable solve : option string -> wCQR Num Sol -> exn + Sol.

Variable URL_FINTRAFFIC : string.
Variable server : string -> load.reply.
Variable to_parquet_raises : string -> load.DataFrame -> option exn.

(** The columns of the frame [process.aggregate] returns that the class
    reads. *)
Record AggData : Type := {
  flow : list Num;
  density : list Num
}.

(** [constant.DEF_AGG_TIME_PER] *)
Variable DEF_AGG_TIME_PER : Z.

(** [process.aggregate(data=..., direction=..., aggregation_time_period=...)] *)
Variable process_aggregate : load.DataFrame -> Z -> Z -> exn + AggData.

(** [process.bagging(agg_data, gridsize_x, gridsize_y)] *)
Variable process_bagging : AggData -> Z -> Z -> exn + BagData Num.

(** A station object with all its attributes: those of [FintrafficTMS]
    above and those that the methods of this section assign. *)
Record Station : Type := {
  core : FintrafficTMS Num Sol;
  raw_data : option load.DataFrame;
  agg_data : option AggData;
  agg_time_period : option Z;
  agg_flow : option (list Num);
  agg_density : option (list Num);
  gridsize_x : option Z;
  gridsize_y : option Z;
  bag_density : option (list Num);
  bag_flow : option (list Num)
}.

(** The object right after [__init__]. *)
Definition new_station (tms_id : Z) (days_list : list (Z * Z)) (direction : Z)
    (tau_list : list Num) (hour_from hour_to : Z) : Station :=
  {| core := __init__ Sol tms_id days_list direction tau_list hour_from hour_to;
     raw_data := None; agg_data := None; agg_time_period := None;
     agg_flow := None; agg_density := None;
     gridsize_x := None; gridsize_y := None;
     bag_density := None; bag_flow := None |}.

(** What the methods do besides changing the object. *)
Inductive event : Type :=
| Loader (ev : load.event)
| CallAggregate (data : load.DataFrame) (direction aggregation_time_period : Z)
| CallBagging (agg : AggData) (gridsize_x gridsize_y : Z)
| Solver (ev : fintraffic.event Num Sol).

Record state : Type := {
  this : Station;
  clock : nat;
  log : list event
}.

Definition M (A : Type) : Type := state -> (exn + A) * state.

(** [a; b] *)
Definition and_then (a b : M unit) : M unit :=
  fun s =>
    match a s with
    | (inl e, s') => (inl e, s')
    | (inr _, s') => b s'
    end.

Definition record (evs : list event) (s : state) : state :=
  {| this := this s; clock := clock s; log := (log s ++ evs)%list |}.

Definition assign (f : Station -> Station) (s : state) : state :=
  {| this := f (this s); clock := clock s; log := log s |}.

Definition set_raw_data (df : load.DataFrame) (o : Station) : Station :=
  {| core := core o; raw_data := Some df;
     agg_data := agg_data o; agg_time_period := agg_time_period o;
     agg_flow := agg_flow o; agg_density := agg_density o;
     gridsize_x := gridsize_x o; gridsize_y := gridsize_y o;
     bag_density := bag_density o; bag_flow := bag_flow o |}.

(** The four assignments of [aggregate]. *)
Definition set_aggregate (agg : AggData) (period : Z) (o : Station) : Station :=
  {| core := core o; raw_data := raw_data o;
     agg_data := Some agg; agg_time_period := Some period;
     agg_flow := Some (flow agg); agg_density := Some (density agg);
     gridsize_x := gridsize_x o; gridsize_y := gridsize_y o;
     bag_density := bag_density o; bag_flow := bag_flow o |}.

Definition set_bag (bag : BagData Num) (c : FintrafficTMS Num Sol)
  : FintrafficTMS Num Sol :=
  {| tms_id := tms_id c; days_list := days_list c;
     hour_from := hour_from c; hour_to := hour_to c;
     direction := direction c; tau_list := tau_list c;
     bag_data := Some bag; weight := Some (bag_weight bag);
     bagged_model := bagged_model c; time_weighted := time_weighted c |}.

(** The six assignments of [bagging]. *)
Definition set_bagging (bag : BagData Num) (gx gy : Z) (o : Station) : Station :=
  {| core := set_bag bag (core o); raw_data := raw_data o;
     agg_data := agg_data o; agg_time_period := agg_time_period o;
     agg_flow := agg_flow o; agg_density := agg_density o;
     gridsize_x := Some gx; gridsize_y := Some gy;
     bag_density := Some (centroid_density bag);
     bag_flow := Some (centroid_flow bag) |}.

Definition set_core (c : FintrafficTMS Num Sol) (o : Station) : Station :=
  {| core := c; raw_data := raw_data o;
     agg_data := agg_data o; agg_time_period := agg_time_period o;
     agg_flow := agg_flow o; agg_density := agg_density o;
     gridsize_x := gridsize_x o; gridsize_y := gridsize_y o;
     bag_density := bag_density o; bag_flow := bag_flow o |}.

(** [load_raw_data]: the loader is called with the station, the days and
    the direction only, so with its defaults for the hours, the faulty rows
    and the file name. *)
Definition load_raw_data : M unit :=
  fun s =>
    let o := core (this s) in
    let r := load.read_several_reports URL_FINTRAFFIC server to_parquet_raises (tms_id o)
               (days_list o) (direction o) 6 20 true None in
    let s' := record (map Loader (snd r)) s in
    match fst r with
    | inl e => (inl e, s')
    | inr df => (inr tt, assign (set_raw_data df) s')
    end.

Definition aggregate (aggregation_time_period : option Z) : M unit :=
  fun s =>
    let period := match aggregation_time_period with
                  | Some p => p
                  | None => DEF_AGG_TIME_PER
                  end in
    match raw_data (this s) with
    | None => (inl (AttributeError "raw_data"), s)
    | Some data =>
        let s' := record [CallAggregate data (direction (core (this s))) period] s in
        match process_aggregate data (direction (core (this s))) period with
        | inl e => (inl e, s')
        | inr agg => (inr tt, assign (set_aggregate agg period) s')
        end
    end.

Definition bagging (gridsize_x gridsize_y : option Z) : M unit :=
  fun s =>
    let gx := match gridsize_x with Some g => g | None => 70 end in
    let gy := match gridsize_y with Some g => g | None => 400 end in
    match agg_data (this s) with
    | None => (inl (AttributeError "agg_data"), s)
    | Some agg =>
        let s' := record [CallBagging agg gx gy] s in
        match process_bagging agg gx gy with
        | inl e => (inl e, s')
        | inr bag => (inr tt, assign (set_bagging bag gx gy) s')
        end
    end.

(** [weighted_model], run on the attributes it works with. *)
Definition weighted_model (tau_list : option (list Num)) (email : option string)
  : M unit :=
  fun s =>
    let r := fintraffic.weighted_model fsub perf_counter beta_default_lb
               wCQR_check solve tau_list email
               {| self := core (this s); ticks := clock s; trace := [] |} in
    (fst r,
     {| this := set_core (self (snd r)) (this s);
        clock := ticks (snd r);
        log := (log s ++ map Solver (trace (snd r)))%list |}).

Definition make_model (aggregation_time_period gridsize_x gridsize_y : option Z)
    (tau_list : option (list Num)) (email : option string) : M unit :=
  fun s =>
    let tau_list := match tau_list with
                    | None => fintraffic.tau_list (core (this s))
                    | Some l => l
                    end in
    and_then load_raw_data
      (and_then (aggregate aggregation_time_period)
         (and_then (bagging gridsize_x gridsize_y)
            (weighted_model (Some tau_list) email))) s.

(** The events that are calls of [process] or of the solver. *)
Definition after_loading (ev : event) : bool :=
  match ev with
  | Loader _ => false
  | _ => true
  end.

End WithPipeline.

End station.

(* ------------------------------------------------------------------ *)
(** ** A sample pipeline *)

Module station_props.
Import py fintraffic fintraffic_props station.

(** An aggregation that refuses a period that is not positive and
    otherwise makes one observation of the number of records, and a bagging
    that keeps the observations with weight 1. *)
Definition sample_aggregate (data : load.DataFrame) (direction period : Z)
  : exn + AggData Z :=
  if period <=? 0 then inl ValueError
  else inr {| flow := [Z.of_nat (List.length data)];
              density := [direction] |}.

Definition sample_bagging (agg : AggData Z) (gx gy : Z) : exn + BagData Z :=
  inr {| centroid_density := density agg; centroid_flow := flow agg;
         bag_weight := [1] |}.

(** Station 123 for days 1 and 3 of 2021, constructed with the hours from
    0 to 24. *)
Definition sample_pipeline_state : state Z Z :=
  {| this := new_station Z 123 [(2021, 1); (2021, 3)] 1 [50] 0 24;
     clock := 0; log := [] |}.

Definition sample_make_model (server : string -> load.reply)
    (period : option Z) (tau_list : option (list Z)) :=
  make_model Z.sub sample_clock 0 sample_check sample_solve
    load_props.sample_url server load_props.sample_writer 300 sample_aggregate sample_bagging
    period None None tau_list None sample_pipeline_state.

End station_props.

(* ------------------------------------------------------------------ *)
(** ** Properties of the loader *)

Module load_facts.
Import py load load_props.
Local Open Scope py_scope.

(** *** The monad *)

Lemma bind_ret {A B} (a : A) (f : A -> Py B) : bind (ret a) f = f a.
Proof. unfold bind, ret; simpl. destruct (f a); reflexivity. Qed.

Lemma bind_returned {A B} (m : Py A) (f : A -> Py B) a :
  fst m = inr a -> bind m f = (fst (f a), (snd m ++ snd (f a))%list).
Proof. intros H. unfold bind. rewrite H. reflexivity. Qed.

Lemma bind_raised {A B} (m : Py A) (f : A -> Py B) e :
  fst m = inl e -> bind m f = (inl e, snd m).
Proof. intros H. unfold bind. rewrite H. reflexivity. Qed.

Lemma bind_inr {A B} (m : Py A) (f : A -> Py B) b :
  fst (bind m f) = inr b -> exists a, fst m = inr a /\ fst (f a) = inr b.
Proof.
  unfold bind. destruct (fst m) as [e | a]; simpl; intros H.
  - discriminate.
  - exists a. split; [reflexivity | exact H].
Qed.

Lemma bind_inl {A B} (m : Py A) (f : A -> Py B) e :
  fst (bind m f) = inl e ->
  fst m = inl e \/ exists a, fst m = inr a /\ fst (f a) = inl e.
Proof.
  unfold bind. destruct (fst m) as [e' | a]; simpl; intros H.
  - left. congruence.
  - right. exists a. split; [reflexivity | exact H].
Qed.

Lemma assert_true msg : assert true msg = ret tt.
Proof. reflexivity. Qed.

Lemma bind_assoc {A B C} (m : Py A) (f : A -> Py B) (g : B -> Py C) :
  bind (bind m f) g = bind m (fun a => bind (f a) g).
Proof.
  unfold bind. destruct (fst m) as [e | a]; simpl.
  - reflexivity.
  - destruct (fst (f a)); simpl.
    + reflexivity.
    + rewrite app_assoc. reflexivity.
Qed.

Lemma bind_ext {A B} (m : Py A) (f g : A -> Py B) :
  (forall a, f a = g a) -> bind m f = bind m g.
Proof.
  intros H. unfold bind. destruct (fst m); [reflexivity |].
  rewrite H. reflexivity.
Qed.

Lemma for_each_app {A S} (body : S -> A -> Py S) l1 l2 s :
  for_each body (l1 ++ l2)%list s
  = bind (for_each body l1 s) (for_each body l2).
Proof.
  revert s. induction l1 as [| a l1 IH]; intros s; simpl.
  - rewrite bind_ret. reflexivity.
  - rewrite bind_assoc. apply bind_ext. exact IH.
Qed.

(** *** Frames *)

Lemma records_combine_seq (rs : list Col.row) n :
  map snd (combine (seq n (List.length rs)) rs) = rs.
Proof.
  revert n. induction rs as [| r rs IH]; intros n; simpl.
  - reflexivity.
  - rewrite IH. reflexivity.
Qed.

Lemma records_concat a b :
  records (concat_ignore_index a b) = (records a ++ records b)%list.
Proof. unfold concat_ignore_index, records. apply records_combine_seq. Qed.

Lemma empty_records df : empty df = true <-> records df = [].
Proof. destruct df; simpl; split; congruence. Qed.

Lemma empty_nil df : empty df = true -> df = [].
Proof. destruct df; [reflexivity | discriminate]. Qed.

Lemma records_select p df :
  records (select p df) = filter p (records df).
Proof.
  unfold records, select. induction df as [| [i r] df IH]; simpl.
  - reflexivity.
  - destruct (p r); simpl; rewrite IH; reflexivity.
Qed.

Lemma records_assign f df : records (assign f df) = map f (records df).
Proof. unfold records, assign. rewrite !map_map. reflexivity. Qed.

Lemma Forall_filter_keeps {A} (p : A -> bool) (P : A -> Prop) l :
  Forall P l -> Forall P (filter p l).
Proof.
  induction 1 as [| a l Ha Hl IH]; simpl.
  - constructor.
  - destruct (p a); [constructor |]; assumption.
Qed.

Lemma Forall_filter_holds {A} (p : A -> bool) l :
  Forall (fun a => p a = true) (filter p l).
Proof.
  induction l as [| a l IH]; simpl.
  - constructor.
  - destruct (p a) eqn:E; [constructor |]; assumption.
Qed.

(** *** The cleaning steps *)

Lemma frame_rows (d : Z) (body : list Csv.line) :
  records (assign set_trucks
             (assign set_buses
                (assign set_cars (assign (set_date d) (frame_of_lines body)))))
  = map (row_of_line d) body.
Proof.
  rewrite !records_assign. unfold frame_of_lines, records.
  generalize 0%nat. induction body as [| l body IH]; intros n; simpl.
  - reflexivity.
  - rewrite IH. reflexivity.
Qed.

Lemma cleaned_records direction hour_from hour_to delete_if_faulty d body :
  records (cleaned direction hour_from hour_to delete_if_faulty d body)
  = filter (fun r => Col.direction r =? direction)
      (filter (fun r => Col.total_time r <=? hour_to * 60 * 60 * 100)
         (filter (fun r => hour_from * 60 * 60 * 100 <=? Col.total_time r)
            (if delete_if_faulty
             then filter (fun r => negb (Col.faulty r =? 1))
                    (map (row_of_line d) body)
             else map (row_of_line d) body))).
Proof.
  unfold cleaned. rewrite !records_select.
  destruct delete_if_faulty; [rewrite records_select |];
    rewrite frame_rows; reflexivity.
Qed.

Lemma cleaned_from_lines direction hour_from hour_to delete_if_faulty d body :
  Forall (fun r => exists l, In l body /\ r = row_of_line d l)
    (records (cleaned direction hour_from hour_to delete_if_faulty d body)).
Proof.
  rewrite cleaned_records. do 3 apply Forall_filter_keeps.
  assert (H : Forall (fun r => exists l, In l body /\ r = row_of_line d l)
                (map (row_of_line d) body)).
  { apply Forall_forall. intros r Hr. apply in_map_iff in Hr.
    destruct Hr as [l [Hl Hin]]. exists l. split; [exact Hin | symmetry; exact Hl]. }
  destruct delete_if_faulty; [apply Forall_filter_keeps |]; exact H.
Qed.

Lemma cleaned_direction direction hour_from hour_to delete_if_faulty d body :
  Forall (fun r => Col.direction r = direction)
    (records (cleaned direction hour_from hour_to delete_if_faulty d body)).
Proof.
  rewrite cleaned_records.
  eapply Forall_impl; [| apply Forall_filter_holds].
  intros r Hr. apply Z.eqb_eq. exact Hr.
Qed.

Lemma cleaned_not_faulty direction hour_from hour_to d body :
  Forall (fun r => Col.faulty r <> 1)
    (records (cleaned direction hour_from hour_to true d body)).
Proof.
  rewrite cleaned_records. do 3 apply Forall_filter_keeps.
  eapply Forall_impl; [| apply Forall_filter_holds].
  intros r Hr. apply Z.eqb_neq. apply negb_true_iff. exact Hr.
Qed.

Lemma cleaned_window direction hour_from hour_to delete_if_faulty d body :
  Forall (fun r => hour_from * 360000 <= Col.total_time r <= hour_to * 360000)
    (records (cleaned direction hour_from hour_to delete_if_faulty d body)).
Proof.
  rewrite cleaned_records. apply Forall_forall. intros r Hr.
  apply filter_In in Hr. destruct Hr as [Hr _].
  apply filter_In in Hr. destruct Hr as [Hr Hto].
  apply filter_In in Hr. destruct Hr as [_ Hfrom].
  apply Z.leb_le in Hto, Hfrom. lia.
Qed.

Lemma class_table_row_of_line d l : class_table (row_of_line d l).
Proof.
  unfold class_table, row_of_line, is_car, is_bus, is_truck; simpl.
  set (v := Csv.vehicle l).
  destruct (Z.eqb_spec v 1) as [E1 | E1];
    destruct (Z.eqb_spec v 2) as [E2 | E2];
    destruct (Z.eqb_spec v 3) as [E3 | E3];
    destruct (Z.eqb_spec v 4) as [E4 | E4];
    destruct (Z.eqb_spec v 5) as [E5 | E5];
    destruct (Z.eqb_spec v 6) as [E6 | E6];
    destruct (Z.eqb_spec v 7) as [E7 | E7];
    simpl; try lia;
    (split; [| split; [| split; [| split]]]);
    try (repeat constructor; auto; fail); intuition (try lia).
Qed.

Lemma filter_twice {A} (p q : A -> bool) l :
  filter q (filter p l) = filter (fun a => p a && q a) l.
Proof.
  induction l as [| a l IH]; simpl.
  - reflexivity.
  - destruct (p a); simpl; [destruct (q a) |]; rewrite IH; reflexivity.
Qed.

(** The cleaned frame holds the rows made of the lines of the report that
    the filters keep, in the order of the report. *)
Lemma cleaned_kept direction hour_from hour_to delete_if_faulty d body :
  records (cleaned direction hour_from hour_to delete_if_faulty d body)
  = filter (kept direction hour_from hour_to delete_if_faulty)
      (map (row_of_line d) body).
Proof.
  rewrite cleaned_records. unfold kept.
  destruct delete_if_faulty; rewrite !filter_twice; apply filter_ext;
    intros r; rewrite ?andb_assoc; reflexivity.
Qed.

(** *** Running a computation step by step *)

Lemma fst_bind_emit {B} ev (f : unit -> Py B) :
  fst (bind (emit ev) f) = fst (f tt).
Proof. reflexivity. Qed.

Lemma snd_bind_emit {B} ev (f : unit -> Py B) :
  snd (bind (emit ev) f) = ev :: snd (f tt).
Proof. reflexivity. Qed.

Lemma bind_raise {A B} e (f : A -> Py B) : bind (raise e) f = raise e.
Proof. reflexivity. Qed.

Lemma fst_ret {A} (a : A) : fst (ret a) = inr a.
Proof. reflexivity. Qed.

Lemma snd_ret {A} (a : A) : snd (ret a) = [].
Proof. reflexivity. Qed.

Lemma fst_raise {A} e : fst (raise e : Py A) = inl e.
Proof. reflexivity. Qed.

Lemma snd_raise {A} e : snd (raise e : Py A) = [].
Proof. reflexivity. Qed.

Lemma assert_false msg : assert false msg = raise (AssertionError msg).
Proof. reflexivity. Qed.

Create Rewrite HintDb py.

#[local] Hint Rewrite @bind_assoc @fst_bind_emit @snd_bind_emit @bind_ret @bind_raise
  @fst_ret @snd_ret @fst_raise @snd_raise assert_true assert_false : py.

Ltac run :=
  repeat (progress (autorewrite with py; cbv beta; simpl negb; cbv iota)).

Lemma window_ok_inv direction hour_from hour_to :
  window_ok direction hour_from hour_to = true ->
  ((0 <=? hour_from) && (hour_from <? 24) = true
   /\ (0 <? hour_to) && (hour_to <=? 24) = true)
  /\ (hour_from <? hour_to) = true
     /\ (direction =? 1) || (direction =? 2) = true.
Proof.
  unfold window_ok. intros H.
  apply andb_prop in H. destruct H as [H Hd].
  apply andb_prop in H. destruct H as [H Ho].
  apply andb_prop in H. destruct H as [Hf Ht].
  repeat split; assumption.
Qed.

Lemma year_day_ok_inv value :
  year_day_ok value = true ->
  (1 <=? snd value) && (snd value <=? 366) = true /\ (1995 <=? fst value) = true.
Proof. unfold year_day_ok. intros H. apply andb_prop in H. exact H. Qed.

Section WithServer.

Variable URL_FINTRAFFIC : string.
Variable server : string -> reply.
Variable to_parquet_raises : string -> DataFrame -> option exn.

#[local] Abbreviation read_report := (read_report URL_FINTRAFFIC server to_parquet_raises).
#[local] Abbreviation read_several_reports := (read_several_reports URL_FINTRAFFIC server to_parquet_raises).
#[local] Abbreviation make_url := (make_url URL_FINTRAFFIC).

Section Report.

Variables (tms_id year day direction hour_from hour_to : Z).
Variable delete_if_faulty : bool.
Variable save_name : option string.

Let call := read_report tms_id year day direction hour_from hour_to
              delete_if_faulty save_name.

(** A call whose parameters fail an [assert] raises it right after
    the first printed line. *)
Lemma read_report_invalid :
  window_ok direction hour_from hour_to && year_day_ok (year, day) = false ->
  exists msg,
    In msg param_messages
    /\ call = (inl (AssertionError msg), [Print (MsgTrying day year)]).
Proof.
  unfold call, load.read_report, window_ok, year_day_ok; simpl fst; simpl snd.
  intros H.
  destruct ((0 <=? hour_from) && (hour_from <? 24)); simpl in H;
    [| eexists; split; [| apply injective_projections; run; reflexivity];
       simpl; auto].
  destruct ((0 <? hour_to) && (hour_to <=? 24)); simpl in H;
    [| eexists; split; [| apply injective_projections; run; reflexivity];
       simpl; auto].
  destruct (hour_from <? hour_to); simpl in H;
    [| eexists; split; [| apply injective_projections; run; reflexivity];
       simpl; auto].
  destruct ((1 <=? day) && (day <=? 366)); simpl in H;
    [| eexists; split; [| apply injective_projections; run; reflexivity];
       simpl; auto].
  destruct (1995 <=? year); simpl in H;
    [| destruct ((direction =? 1) || (direction =? 2));
       eexists; (split; [| apply injective_projections; run; reflexivity]);
       simpl; auto 7].
  destruct ((direction =? 1) || (direction =? 2)); simpl in H;
    [discriminate |].
  eexists; split; [| apply injective_projections; run; reflexivity].
  simpl; auto 7.
Qed.

(** A call whose parameters pass every [assert] does what
    [report_outcome] says. *)
Lemma read_report_valid :
  window_ok direction hour_from hour_to = true ->
  year_day_ok (year, day) = true ->
  call = report_outcome URL_FINTRAFFIC server to_parquet_raises tms_id year day direction
           hour_from hour_to delete_if_faulty save_name.
Proof.
  intros Hw Hyd.
  destruct (window_ok_inv _ _ _ Hw) as [[Hf Ht] [Ho Hd]].
  destruct (year_day_ok_inv _ Hyd) as [Hday Hyear]. simpl in Hday, Hyear.
  unfold call, load.read_report, report_outcome.
  rewrite Hf, Ht, Ho, Hd, Hday, Hyear.
  unfold requests_get_status_code, pd_read_csv, date_of_year_day, save_gzip.
  destruct (server (make_url tms_id year day)) as [status_code body |];
    [| apply injective_projections; run; reflexivity].
  destruct (status_code =? 404) eqn:E404.
  - destruct save_name; apply injective_projections; run; rewrite E404;
      run; reflexivity.
  - destruct ((200 <=? status_code) && (status_code <? 300));
      [| apply injective_projections; run; rewrite E404; run; reflexivity].
    destruct (MAXYEAR <? year);
      [apply injective_projections; run; rewrite E404; run; reflexivity |].
    destruct (max_ordinal <? days_before_year year + 1 + (day - 1));
      [apply injective_projections; run; rewrite E404; run; reflexivity |].
    destruct save_name as [name |];
      [destruct (endswith (lower name) ".gzip") |];
      apply injective_projections; run; rewrite E404; run; try reflexivity;
      unfold cleaned; cbv zeta;
      destruct (to_parquet_raises name _); run; reflexivity.
Qed.

(** Either the parameters fail an [assert], or the call is the one
    [report_outcome] describes. *)
Lemma read_report_outcome :
  (exists msg,
      In msg param_messages
      /\ call = (inl (AssertionError msg), [Print (MsgTrying day year)]))
  \/ call = report_outcome URL_FINTRAFFIC server to_parquet_raises tms_id year day direction
              hour_from hour_to delete_if_faulty save_name.
Proof.
  destruct (window_ok direction hour_from hour_to && year_day_ok (year, day))
    eqn:E.
  - right. apply andb_prop in E. destruct E as [Hw Hyd].
    apply read_report_valid; assumption.
  - left. apply read_report_invalid. exact E.
Qed.

(** A frame that [read_report] returns is empty or is made of the lines of
    the report by the cleaning steps. *)
Lemma read_report_returns_cleaned df :
  fst call = inr df ->
  df = []
  \/ exists d body,
       df = cleaned direction hour_from hour_to delete_if_faulty d body.
Proof.
  destruct read_report_outcome as [[msg [_ E]] | E]; rewrite E.
  - discriminate.
  - unfold report_outcome.
    destruct (server (make_url tms_id year day)) as [status_code body |];
      [| discriminate].
    destruct (status_code =? 404).
    + simpl. intros H. left. congruence.
    + destruct ((200 <=? status_code) && (status_code <? 300)); [| discriminate].
      destruct (fst (date_of_year_day year day)) as [e | d]; [discriminate |].
      destruct save_name as [name |];
        [destruct (endswith (lower name) ".gzip"); [| discriminate];
         destruct (to_parquet_raises name _); [discriminate |] |];
        simpl; intros H; right; exists d, body; congruence.
Qed.

(** The time window that the two comparisons on [total_time] keep is closed
    at both ends. *)
Lemma read_report_window_closed df :
  fst call = inr df ->
  Forall (fun r => hour_from * 360000 <= Col.total_time r <= hour_to * 360000)
    (records df).
Proof.
  intros H. destruct (read_report_returns_cleaned H) as [E | [d [body E]]];
    subst df.
  - constructor.
  - apply cleaned_window.
Qed.

(** C4: every record of a frame returned by [read_report] has the requested
    direction, and with [delete_if_faulty] no record has its faulty flag
    equal to 1. *)
Theorem read_report_direction_and_faulty df :
  fst call = inr df ->
  Forall (fun r =>
            Col.direction r = direction
            /\ (delete_if_faulty = true -> Col.faulty r <> 1))
    (records df).
Proof.
  intros H. destruct (read_report_returns_cleaned H) as [E | [d [body E]]];
    subst df.
  - constructor.
  - apply Forall_forall. intros r Hr. split.
    + pose proof (cleaned_direction direction hour_from hour_to
                    delete_if_faulty d body) as Hd.
      rewrite Forall_forall in Hd. apply Hd. exact Hr.
    + intros Hf. subst delete_if_faulty.
      pose proof (cleaned_not_faulty direction hour_from hour_to d body) as Hn.
      rewrite Forall_forall in Hn. apply Hn. exact Hr.
Qed.

(** C5: when [read_report] returns for a day that the server has, the
    three [apply] steps have made one row of every line of the report, with
    the class code of the line and with the columns [cars], [buses] and
    [trucks] that the classification table gives for it; the records of the
    returned frame are those of these rows that the filters keep, in the
    order of the report.  So every record of a returned frame follows the
    table. *)
Theorem read_report_classification df :
  fst call = inr df ->
  Forall class_table (records df)
  /\ forall status_code body,
       server (make_url tms_id year day) = Reply status_code body ->
       status_code <> 404 ->
       exists d,
         let processed :=
           records
             (assign set_trucks
                (assign set_buses
                   (assign set_cars
                      (assign (set_date d) (frame_of_lines body))))) in
         fst (date_of_year_day year day) = inr d
         /\ map Col.vehicle processed = map Csv.vehicle body
         /\ Forall class_table processed
         /\ records df
            = filter (kept direction hour_from hour_to delete_if_faulty)
                processed.
Proof.
  intros H. split.
  - destruct (read_report_returns_cleaned H) as [E | [d [body E]]];
      subst df.
    + constructor.
    + eapply Forall_impl; [| apply cleaned_from_lines].
      intros r [l [_ E]]. subst r. apply class_table_row_of_line.
  - revert H.
    destruct read_report_outcome as [[msg [_ E]] | E]; rewrite E;
      [discriminate |].
    unfold report_outcome.
    destruct (server (make_url tms_id year day)) as [status_code' body' |];
      [| discriminate].
    intros H status_code body Hs Hne. injection Hs as Hs Hb.
    subst status_code' body'.
    destruct (Z.eqb_spec status_code 404) as [E4 | _]; [contradiction |].
    destruct ((200 <=? status_code) && (status_code <? 300));
      [| discriminate].
    destruct (fst (date_of_year_day year day)) as [e | d]; [discriminate |].
    assert (Hdf : df = cleaned direction hour_from hour_to delete_if_faulty
                         d body).
    { destruct save_name as [name |];
        [destruct (endswith (lower name) ".gzip"); [| discriminate];
         destruct (to_parquet_raises name _); [discriminate |] |];
        cbn [fst] in H; congruence. }
    exists d. cbv zeta. rewrite frame_rows.
    split; [reflexivity |]. split; [| split].
    + rewrite map_map. reflexivity.
    + apply Forall_forall. intros r Hr. apply in_map_iff in Hr.
      destruct Hr as [l [El _]]. subst r. apply class_table_row_of_line.
    + subst df. apply cleaned_kept.
Qed.

(** C9: with valid parameters, [read_report] returns the empty frame with
    the "does not exist" warning exactly when the server answers 404; any
    other status outside 200..299 raises, and so does a failed connection. *)
Theorem read_report_empty_day_iff_404 :
  window_ok direction hour_from hour_to = true ->
  year_day_ok (year, day) = true ->
  let url := make_url tms_id year day in
  ((fst call = inr [] /\ In (Warn (msg_no_data tms_id day year)) (snd call))
   <-> exists body, server url = Reply 404 body)
  /\ (forall status_code body,
        server url = Reply status_code body ->
        status_code <> 404 ->
        (200 <=? status_code) && (status_code <? 300) = false ->
        call = (inl (HTTPError status_code),
                [Print (MsgTrying day year); RequestsGet url; ReadCsv url]))
  /\ (server url = NoConnection ->
      call = (inl ConnectionError, [Print (MsgTrying day year); RequestsGet url])).
Proof.
  intros Hw Hyd url. rewrite (read_report_valid Hw Hyd).
  unfold report_outcome. fold url. split; [split | split].
  - intros [Hr Hin].
    destruct (server url) as [status_code body |]; [| discriminate].
    destruct (Z.eqb_spec status_code 404) as [E | E].
    + subst. exists body. reflexivity.
    + exfalso.
      destruct ((200 <=? status_code) && (status_code <? 300)); [| discriminate].
      destruct (fst (date_of_year_day year day)); [discriminate |].
      destruct save_name as [name |];
        [destruct (endswith (lower name) ".gzip"); [| discriminate];
         destruct (to_parquet_raises name _); [discriminate |] |];
        simpl in Hin; intuition discriminate.
  - intros [body E]. rewrite E. simpl. split; [reflexivity |]. auto.
  - intros status_code body E Hne H2. rewrite E.
    destruct (Z.eqb_spec status_code 404) as [E4 | _]; [contradiction |].
    rewrite H2. reflexivity.
  - intros E. rewrite E. reflexivity.
Qed.

(** Invalid parameters stop [read_report] before anything reaches the
    network. *)
Lemma read_report_invalid_no_network :
  window_ok direction hour_from hour_to && year_day_ok (year, day) = false ->
  (exists msg, fst call = inl (AssertionError msg))
  /\ network_events (snd call) = [].
Proof.
  intros H. destruct (read_report_invalid H) as [msg [_ E]]. rewrite E.
  split; [exists msg |]; reflexivity.
Qed.

Lemma date_of_year_day_raises e :
  fst (date_of_year_day year day) = inl e -> e = ValueError \/ e = OverflowError.
Proof.
  unfold date_of_year_day. destruct (MAXYEAR <? year); simpl.
  - intros H. left. congruence.
  - destruct (max_ordinal <? days_before_year year + 1 + (day - 1)); simpl.
    + intros H. right. congruence.
    + discriminate.
Qed.

(** Without a file name, [read_report] never raises the "data was not
    loaded" error. *)
Lemma read_report_never_not_loaded :
  save_name = None ->
  fst call <> inl (AssertionError msg_not_loaded).
Proof.
  intros Hs.
  destruct read_report_outcome as [[msg [Hin E]] | E]; rewrite E.
  - simpl. intros H. injection H as H. subst msg.
    simpl in Hin. intuition discriminate.
  - unfold report_outcome.
    destruct (server (make_url tms_id year day)) as [status_code body |];
      [| discriminate].
    destruct (status_code =? 404); [discriminate |].
    destruct ((200 <=? status_code) && (status_code <? 300)); [| discriminate].
    destruct (fst (date_of_year_day year day)) as [e | d] eqn:Ed.
    + destruct (date_of_year_day_raises Ed); subst e; discriminate.
    + rewrite Hs. discriminate.
Qed.

End Report.

Section Several.

Variables (tms_id direction hour_from hour_to : Z).
Variable delete_if_faulty : bool.

#[local] Abbreviation read_day :=
  (read_day URL_FINTRAFFIC server to_parquet_raises tms_id direction hour_from hour_to
     delete_if_faulty).
#[local] Abbreviation day_result :=
  (day_result URL_FINTRAFFIC server to_parquet_raises tms_id direction hour_from hour_to
     delete_if_faulty).
#[local] Abbreviation retrieved :=
  (retrieved URL_FINTRAFFIC server to_parquet_raises tms_id direction hour_from hour_to
     delete_if_faulty).
#[local] Abbreviation yields_empty :=
  (yields_empty URL_FINTRAFFIC server to_parquet_raises tms_id direction hour_from hour_to
     delete_if_faulty).
#[local] Abbreviation yields_data :=
  (yields_data URL_FINTRAFFIC server to_parquet_raises tms_id direction hour_from hour_to
     delete_if_faulty).
#[local] Abbreviation returns :=
  (returns URL_FINTRAFFIC server to_parquet_raises tms_id direction hour_from hour_to
     delete_if_faulty).
#[local] Abbreviation success_count :=
  (success_count URL_FINTRAFFIC server to_parquet_raises tms_id direction hour_from hour_to
     delete_if_faulty).

#[local] Abbreviation day_events :=
  (day_events URL_FINTRAFFIC server to_parquet_raises tms_id direction hour_from hour_to
     delete_if_faulty).
#[local] Abbreviation save_raises := (save_raises to_parquet_raises).

Lemma read_day_step st value :
  read_day st value
  = match day_result value with
    | inl e => (inl e, day_events value)
    | inr read_df => (inr (after_day st read_df), day_events value)
    end.
Proof.
  destruct st as [df counter].
  unfold load.read_day, load_props.day_result, load_props.day_events,
    after_day, bind.
  cbn [fst snd].
  destruct (empty df);
    destruct (fst (read_report tms_id (fst value) (snd value) direction
                     hour_from hour_to delete_if_faulty None)) as [e | read_df];
    try reflexivity;
    destruct (empty read_df); simpl; rewrite app_nil_r; reflexivity.
Qed.

Lemma records_after_day st read_df :
  records (fst (after_day st read_df)) = (records (fst st) ++ records read_df)%list.
Proof.
  unfold after_day. destruct (empty read_df) eqn:E.
  - apply empty_nil in E. subst. simpl. rewrite app_nil_r. reflexivity.
  - simpl. destruct (empty (fst st)) eqn:E'.
    + apply empty_nil in E'. rewrite E'. reflexivity.
    + apply records_concat.
Qed.

Lemma counter_after_day st read_df :
  snd (after_day st read_df) = snd st + (if empty read_df then 0 else 1).
Proof. unfold after_day. destruct (empty read_df); simpl; lia. Qed.

Lemma success_count_cons value l :
  success_count (value :: l)
  = (if empty (retrieved value) then 0 else 1) + success_count l.
Proof.
  unfold load_props.success_count. simpl.
  destruct (empty (retrieved value)); simpl negb; cbv iota.
  - reflexivity.
  - simpl List.length. lia.
Qed.

(** The loop returns exactly when every day returns; the final frame holds
    the records of the days in the order of the list and the final counter
    has grown by the number of days that yielded data. *)
Lemma loop_returned l : forall st st',
  fst (for_each read_day l st) = inr st' ->
  Forall returns l
  /\ records (fst st')
     = (records (fst st) ++ List.concat (map (fun v => records (retrieved v)) l))%list
  /\ snd st' = snd st + success_count l.
Proof.
  induction l as [| value l IH]; intros st st' H.
  - simpl in H. inversion H; subst.
    split; [constructor |]. split.
    + simpl. rewrite app_nil_r. reflexivity.
    + unfold load_props.success_count. simpl. lia.
  - simpl in H. apply bind_inr in H. destruct H as [st1 [H1 H2]].
    rewrite read_day_step in H1.
    destruct (day_result value) as [e | read_df] eqn:E; [discriminate |].
    simpl in H1. inversion H1; subst st1; clear H1.
    destruct (IH _ _ H2) as [Hall [Hrec Hcnt]].
    assert (Er : retrieved value = read_df).
    { unfold load_props.retrieved. rewrite E. reflexivity. }
    split; [| split].
    + constructor; [exists read_df; exact E | exact Hall].
    + rewrite Hrec, records_after_day. simpl. rewrite Er, app_assoc.
      reflexivity.
    + rewrite Hcnt, counter_after_day, success_count_cons, Er. lia.
Qed.

Lemma loop_raised l : forall st e,
  fst (for_each read_day l st) = inl e ->
  Exists (fun v => day_result v = inl e) l.
Proof.
  induction l as [| value l IH]; intros st e H.
  - discriminate.
  - simpl in H. apply bind_inl in H. rewrite read_day_step in H.
    destruct (day_result value) as [e' | read_df] eqn:E.
    + destruct H as [H | [st1 [H _]]]; [| discriminate].
      simpl in H. left. congruence.
    + destruct H as [H | [st1 [H1 H2]]]; [discriminate |].
      right. eapply IH. exact H2.
Qed.

Lemma loop_returns l : forall st,
  Forall returns l -> exists st', fst (for_each read_day l st) = inr st'.
Proof.
  induction l as [| value l IH]; intros st H.
  - exists st. reflexivity.
  - inversion H as [| ? ? Hv Hl]; subst. destruct Hv as [read_df Hv].
    destruct (IH (after_day st read_df) Hl) as [st' H'].
    exists st'. simpl.
    rewrite (bind_returned _ _ (a := after_day st read_df)).
    + exact H'.
    + rewrite read_day_step, Hv. reflexivity.
Qed.

Lemma yields_empty_retrieved value :
  yields_empty value <-> returns value /\ records (retrieved value) = [].
Proof.
  unfold load_props.yields_empty, load_props.returns, load_props.retrieved.
  split.
  - intros [df [E He]]. rewrite E. split; [exists df; reflexivity |].
    apply empty_records. exact He.
  - intros [[df E] Hr]. rewrite E in Hr. exists df.
    split; [exact E | apply empty_records; exact Hr].
Qed.

Lemma all_yield_empty l :
  Forall yields_empty l
  <-> Forall returns l
      /\ List.concat (map (fun v => records (retrieved v)) l) = [].
Proof.
  induction l as [| value l IH]; simpl.
  - split; [intros _; split; [constructor | reflexivity] | constructor].
  - split.
    + intros H. inversion H as [| ? ? Hv Hl]; subst.
      apply yields_empty_retrieved in Hv. destruct Hv as [Hr He].
      apply IH in Hl. destruct Hl as [Hrs Hc].
      split; [constructor; assumption |]. rewrite He, Hc. reflexivity.
    + intros [Hrs Hc]. inversion Hrs as [| ? ? Hr Hrl]; subst.
      apply app_eq_nil in Hc. destruct Hc as [He Hc].
      constructor.
      * apply yields_empty_retrieved. split; assumption.
      * apply IH. split; assumption.
Qed.

Section Call.

Variable year_day_list : list (Z * Z).
Variable save_name : option string.

Let loop := for_each read_day year_day_list ([], 0).

Let call := read_several_reports tms_id year_day_list direction hour_from
              hour_to delete_if_faulty save_name.

(** After its [assert] statements, [read_several_reports] is its loop
    followed by the check that some data was loaded, the printed line and
    the saving step. *)
Lemma read_several_reports_counted_valid :
  window_ok direction hour_from hour_to = true ->
  read_several_reports_counted URL_FINTRAFFIC server to_parquet_raises tms_id year_day_list
    direction hour_from hour_to delete_if_faulty save_name
  = bind loop
      (fun st =>
         bind (assert (negb (empty (fst st))) msg_not_loaded)
           (fun _ =>
              bind (emit (Print (MsgLoadingSuccessful (snd st)
                                   (List.length year_day_list))))
                (fun _ =>
                   bind match save_name with
                        | Some name => save_gzip to_parquet_raises name (fst st)
                        | None => ret tt
                        end
                     (fun _ => ret st)))).
Proof.
  intros Hw. destruct (window_ok_inv _ _ _ Hw) as [[Hf Ht] [Ho Hd]].
  unfold load.read_several_reports_counted. rewrite Hf, Ht, Ho, Hd.
  rewrite !assert_true, !bind_ret. apply bind_ext. intros [df counter].
  reflexivity.
Qed.

(** The outcome of a call whose hour window and direction are valid. *)
Lemma read_several_reports_fst :
  window_ok direction hour_from hour_to = true ->
  fst call
  = match fst loop with
    | inl e => inl e
    | inr st =>
        if empty (fst st) then inl (AssertionError msg_not_loaded)
        else match save_raises save_name (fst st) with
             | Some e => inl e
             | None => inr (fst st)
             end
    end.
Proof.
  intros Hw. unfold call, load.read_several_reports.
  rewrite (read_several_reports_counted_valid Hw).
  unfold bind at 1 2. destruct (fst loop) as [e | st]; [reflexivity |].
  destruct (empty (fst st)); [reflexivity |].
  rewrite assert_true. run. unfold load_props.save_raises, save_gzip.
  destruct save_name as [name |];
    [destruct (endswith (lower name) ".gzip");
       [destruct (to_parquet_raises name (fst st)) |] |]; run; reflexivity.
Qed.

Lemma loop_records st :
  fst loop = inr st ->
  Forall returns year_day_list
  /\ records (fst st)
     = List.concat (map (fun v => records (retrieved v)) year_day_list)
  /\ snd st = success_count year_day_list.
Proof.
  intros H. destruct (loop_returned _ _ H) as [Hr [Hrec Hcnt]].
  simpl in Hrec, Hcnt. auto.
Qed.

(** A list whose days all return an empty frame raises the "data was not
    loaded" error. *)
Lemma all_empty_not_loaded :
  window_ok direction hour_from hour_to = true ->
  Forall yields_empty year_day_list ->
  fst call = inl (AssertionError msg_not_loaded).
Proof.
  intros Hw H. rewrite (read_several_reports_fst Hw).
  apply all_yield_empty in H. destruct H as [Hr Hc].
  destruct (loop_returns ([], 0) Hr) as [st E]. fold loop in E. rewrite E.
  destruct (loop_records E) as [_ [Hrec _]]. rewrite Hc in Hrec.
  apply empty_records in Hrec. rewrite Hrec. reflexivity.
Qed.

(** The "data was not loaded" error comes from a list whose days all
    return an empty frame, unless the saving step itself raises it. *)
Lemma not_loaded_all_empty :
  window_ok direction hour_from hour_to = true ->
  fst call = inl (AssertionError msg_not_loaded) ->
  Forall yields_empty year_day_list
  \/ exists df, save_raises save_name df = Some (AssertionError msg_not_loaded).
Proof.
  intros Hw. rewrite (read_several_reports_fst Hw).
  destruct (fst loop) as [e | st] eqn:E.
  - intros H. exfalso. injection H as H. subst e.
    apply loop_raised in E. apply Exists_exists in E.
    destruct E as [value [_ Hv]].
    unfold load_props.day_result in Hv. revert Hv.
    apply read_report_never_not_loaded. reflexivity.
  - destruct (loop_records E) as [Hr [Hrec _]].
    destruct (empty (fst st)) eqn:Ee.
    + intros _. left. apply all_yield_empty. split; [exact Hr |].
      rewrite <- Hrec. apply empty_records. exact Ee.
    + destruct (save_raises save_name (fst st)) as [e |] eqn:Es; [| discriminate].
      intros H. right. exists (fst st). congruence.
Qed.

(** When every day returns and the records of the days are not all
    missing, some day yields data. *)
Lemma some_day_yields_data l :
  Forall returns l ->
  List.concat (map (fun v => records (retrieved v)) l) <> [] ->
  Exists yields_data l.
Proof.
  intros Hr Hc. induction Hr as [| value l [df Hv] Hl IH].
  - contradiction Hc. reflexivity.
  - destruct (empty df) eqn:Ee.
    + right. apply IH. intros Hn. apply Hc. simpl.
      unfold load_props.retrieved at 1. rewrite Hv.
      apply empty_records in Ee. rewrite Ee. exact Hn.
    + left. exists df. split; assumption.
Qed.

(** C3, as the code has it: with a valid hour window and direction, a list
    whose days all yield an empty frame raises the "data was not loaded"
    error; a list with a day whose retrieval raises makes the call raise
    what the retrieval of one of its days raised; when every retrieval
    returns and some day yields data, the frame of the records of the days
    in the order of the list reaches the saving step, and the call returns
    that frame unless the saving step raises; a call returns in no other
    case; and the "data was not loaded" error comes from a list whose days
    are all empty, unless the saving step itself raises it. *)
Theorem read_several_reports_fails_or_concatenates :
  window_ok direction hour_from hour_to = true ->
  (Forall yields_empty year_day_list ->
   fst call = inl (AssertionError msg_not_loaded))
  /\ (~ Forall returns year_day_list ->
      exists e,
        fst call = inl e
        /\ Exists (fun v => day_result v = inl e) year_day_list)
  /\ (Forall returns year_day_list ->
      Exists yields_data year_day_list ->
      exists df,
        records df
        = List.concat (map (fun v => records (retrieved v)) year_day_list)
        /\ fst call = match save_raises save_name df with
                      | Some e => inl e
                      | None => inr df
                      end)
  /\ (forall df,
        fst call = inr df ->
        Forall returns year_day_list
        /\ Exists yields_data year_day_list
        /\ save_raises save_name df = None
        /\ records df
           = List.concat (map (fun v => records (retrieved v)) year_day_list))
  /\ (fst call = inl (AssertionError msg_not_loaded) ->
      Forall yields_empty year_day_list
      \/ exists df,
           save_raises save_name df = Some (AssertionError msg_not_loaded)).
Proof.
  intros Hw. pose proof (read_several_reports_fst Hw) as Hc.
  split; [apply all_empty_not_loaded; exact Hw |].
  split; [| split; [| split; [| apply not_loaded_all_empty; exact Hw]]].
  - intros Hn. destruct (fst loop) as [e | st] eqn:E.
    + exists e. split; [exact Hc |]. eapply loop_raised. exact E.
    + exfalso. apply Hn. apply (loop_records E).
  - intros Hr Hd.
    destruct (loop_returns ([], 0) Hr) as [st E]. fold loop in E.
    destruct (loop_records E) as [_ [Hrec _]]. rewrite E in Hc.
    exists (fst st). split; [exact Hrec |].
    rewrite Hc. destruct (empty (fst st)) eqn:Ee; [| reflexivity].
    exfalso. apply empty_records in Ee. rewrite Hrec in Ee.
    apply Exists_exists in Hd. destruct Hd as [value [Hin [df [Hv Hne]]]].
    assert (Hall : Forall yields_empty year_day_list).
    { apply all_yield_empty. split; assumption. }
    rewrite Forall_forall in Hall. destruct (Hall _ Hin) as [df' [Hv' He']].
    rewrite Hv in Hv'. injection Hv' as Hv'. subst df'. congruence.
  - intros df H. rewrite Hc in H.
    destruct (fst loop) as [e | st] eqn:E; [discriminate |].
    destruct (loop_records E) as [Hr [Hrec _]].
    destruct (empty (fst st)) eqn:Ee; [discriminate |].
    destruct (save_raises save_name (fst st)) as [e |] eqn:Es; [discriminate |].
    injection H as H. subst df.
    split; [exact Hr |]. split; [| split; assumption].
    apply some_day_yields_data; [exact Hr |].
    rewrite <- Hrec. intros Hn. apply empty_records in Hn. congruence.
Qed.

(** A bad hour window or direction stops [read_several_reports] before its
    loop: nothing is printed and nothing reaches the network. *)
Lemma read_several_reports_invalid_window :
  window_ok direction hour_from hour_to = false ->
  exists msg, call = (inl (AssertionError msg), []).
Proof.
  unfold call, load.read_several_reports, load.read_several_reports_counted,
    window_ok.
  intros H.
  destruct ((0 <=? hour_from) && (hour_from <? 24)); simpl in H;
    [| eexists; apply injective_projections; run; reflexivity].
  destruct ((0 <? hour_to) && (hour_to <=? 24)); simpl in H;
    [| eexists; apply injective_projections; run; reflexivity].
  destruct (hour_from <? hour_to); simpl in H;
    [| eexists; apply injective_projections; run; reflexivity].
  destruct ((direction =? 1) || (direction =? 2)); simpl in H;
    [discriminate | eexists; apply injective_projections; run; reflexivity].
Qed.

(** C2, as the code has it: a call that returns has counted the days that
    yielded data and has printed "M out of N files loaded" with that count
    and the length of the list; what it returns is the frame alone, with
    the records of the days in the order of the list. *)
Theorem read_several_reports_prints_count df :
  fst call = inr df ->
  fst (read_several_reports_counted URL_FINTRAFFIC server to_parquet_raises tms_id year_day_list
         direction hour_from hour_to delete_if_faulty save_name)
  = inr (df, success_count year_day_list)
  /\ In (Print (MsgLoadingSuccessful (success_count year_day_list)
                  (List.length year_day_list)))
       (snd call)
  /\ records df
     = List.concat (map (fun v => records (retrieved v)) year_day_list).
Proof.
  destruct (window_ok direction hour_from hour_to) eqn:Hw.
  - intros H. pose proof H as H'. rewrite (read_several_reports_fst Hw) in H'.
    destruct (fst loop) as [e | st] eqn:E; [discriminate |].
    destruct (loop_records E) as [_ [Hrec Hcnt]].
    destruct (empty (fst st)) eqn:Ee; [discriminate |].
    destruct (save_raises save_name (fst st)) as [e |] eqn:Es; [discriminate |].
    injection H' as H'. subst df.
    unfold call, load.read_several_reports.
    rewrite (read_several_reports_counted_valid Hw).
    rewrite (bind_returned _ _ E), Ee, assert_true. run. rewrite <- Hcnt.
    unfold load_props.save_raises in Es. unfold save_gzip.
    destruct save_name as [name |];
      [destruct (endswith (lower name) ".gzip"); [rewrite Es | discriminate] |];
      run;
      (split; [destruct st; reflexivity |]); (split; [| exact Hrec]);
      unfold bind; cbn [fst snd]; rewrite !in_app_iff; simpl; auto.
  - destruct (read_several_reports_invalid_window Hw) as [msg E].
    rewrite E. discriminate.
Qed.

End Call.

(** C10: with a valid hour window and direction, the empty list raises
    the "data was not loaded" error, the very error of a list whose days
    are all empty. *)
Theorem read_several_reports_empty_list save_name :
  window_ok direction hour_from hour_to = true ->
  fst (read_several_reports tms_id [] direction hour_from hour_to
         delete_if_faulty save_name)
  = inl (AssertionError msg_not_loaded)
  /\ forall year_day_list,
      Forall yields_empty year_day_list ->
      fst (read_several_reports tms_id year_day_list direction hour_from
             hour_to delete_if_faulty save_name)
      = fst (read_several_reports tms_id [] direction hour_from hour_to
               delete_if_faulty save_name).
Proof.
  intros Hw.
  assert (H0 : fst (read_several_reports tms_id [] direction hour_from hour_to
                      delete_if_faulty save_name)
               = inl (AssertionError msg_not_loaded)).
  { apply all_empty_not_loaded; [exact Hw | constructor]. }
  split; [exact H0 |].
  intros year_day_list Hall. rewrite H0.
  apply all_empty_not_loaded; assumption.
Qed.

(** A list with a day out of range: the loop stops at that day, and what
    has reached the network is what the days before it asked for. *)
Lemma loop_stops_at_invalid_day pre bad post st :
  window_ok direction hour_from hour_to && year_day_ok bad = false ->
  let run_all := for_each read_day (pre ++ bad :: post)%list st in
  (exists e, fst run_all = inl e)
  /\ network_events (snd run_all)
     = network_events (snd (for_each read_day pre st)).
Proof.
  intros Hbad run_all. unfold run_all. rewrite for_each_app.
  assert (Hb : forall st1,
             exists msg,
               for_each read_day (bad :: post) st1
               = (inl (AssertionError msg),
                  [Print (MsgTrying (snd bad) (fst bad))])).
  { intros st1. destruct bad as [year day].
    destruct (read_report_invalid tms_id year day direction hour_from hour_to
                delete_if_faulty None Hbad) as [msg [_ E]].
    exists msg. simpl for_each. rewrite read_day_step.
    unfold load_props.day_result, load_props.day_events. cbn [fst snd].
    rewrite E. reflexivity. }
  unfold bind. destruct (fst (for_each read_day pre st)) as [e | st1].
  - split; [exists e |]; reflexivity.
  - destruct (Hb st1) as [msg E]. rewrite E. cbn [fst snd]. split.
    + exists (AssertionError msg). reflexivity.
    + unfold network_events. rewrite filter_app. simpl.
      rewrite app_nil_r. reflexivity.
Qed.

(** C6, as the code has it: [read_report] checks every parameter, and
    [read_several_reports] the hour window and the direction, before
    anything reaches the network; a day out of range in the list of
    [read_several_reports] is found when the loop reaches it, so the call
    fails without a retrieval for that day or a later one, after the
    retrievals of the days before it. *)
Theorem validation_before_network :
  (forall year day save_name,
      window_ok direction hour_from hour_to && year_day_ok (year, day) = false ->
      let r := read_report tms_id year day direction hour_from hour_to
                 delete_if_faulty save_name in
      (exists msg, fst r = inl (AssertionError msg))
      /\ network_events (snd r) = [])
  /\ (forall year_day_list save_name,
        window_ok direction hour_from hour_to = false ->
        let r := read_several_reports tms_id year_day_list direction
                   hour_from hour_to delete_if_faulty save_name in
        (exists msg, fst r = inl (AssertionError msg))
        /\ network_events (snd r) = [])
  /\ (forall pre bad post save_name,
        window_ok direction hour_from hour_to = true ->
        year_day_ok bad = false ->
        let r := read_several_reports tms_id (pre ++ bad :: post)%list
                   direction hour_from hour_to delete_if_faulty save_name in
        (exists e, fst r = inl e)
        /\ network_events (snd r)
           = network_events (snd (for_each read_day pre ([], 0)))).
Proof.
  split; [| split].
  - intros year day save_name H. apply read_report_invalid_no_network. exact H.
  - intros year_day_list save_name H r.
    destruct (read_several_reports_invalid_window year_day_list save_name H)
      as [msg E].
    unfold r. rewrite E. split; [exists msg |]; reflexivity.
  - intros pre bad post save_name Hw Hbad r.
    assert (Hb : window_ok direction hour_from hour_to && year_day_ok bad = false).
    { rewrite Hw, Hbad. reflexivity. }
    destruct (loop_stops_at_invalid_day pre bad post ([], 0) Hb) as [[e He] Hn].
    unfold r, load.read_several_reports.
    rewrite (read_several_reports_counted_valid _ save_name Hw).
    rewrite (bind_raised _ _ He).
    rewrite (bind_raised _ _ (e := e)); [| reflexivity].
    split; [exists e; reflexivity | exact Hn].
Qed.

End Several.

End WithServer.

(** *** The loader on the sample servers *)

(** C1: with [hour_to = 20], [read_report] keeps the record of the sample
    report whose [total_time] is [20 * 360000], so the records of the
    returned frame are not all inside the half-open window: the comparison
    with [hour_to] is [<=]. *)
Theorem read_report_keeps_hour_to_instant :
  exists df,
    fst (read_report sample_url sample_server sample_writer 123 2021 1 1 6 20 true None)
    = inr df
    /\ ~ Forall (fun r => 6 * 360000 <= Col.total_time r < 20 * 360000)
          (records df).
Proof.
  eexists. split.
  - vm_compute. reflexivity.
  - intros H. inversion H as [| r rs Hr Hrs]; subst. simpl in Hr. lia.
Qed.

Lemma read_report_direction_and_faulty_witness :
  exists df,
    fst (read_report sample_url sample_server sample_writer 123 2021 1 1 6 20 true None)
    = inr df
    /\ df <> []
    /\ Forall (fun r => Col.direction r = 1 /\ (true = true -> Col.faulty r <> 1))
         (records df).
Proof.
  eexists. split; [vm_compute; reflexivity |]. split; [discriminate |].
  apply (read_report_direction_and_faulty sample_url sample_server sample_writer
           123 2021 1 1 6 20 true None).
  vm_compute. reflexivity.
Defined.

Lemma read_report_classification_witness :
  exists df,
    fst (read_report sample_url sample_server sample_writer 123 2021 1 1 6 20 false None)
    = inr df
    /\ map (fun r => (Col.vehicle r, Col.cars r, Col.buses r, Col.trucks r))
         (records df)
       = [(1, 1, 0, 0); (3, 0, 1, 0); (7, 0, 0, 1)]
    /\ Forall class_table (records df)
    /\ exists d,
        records df
        = filter (kept 1 6 20 false)
            (records
               (assign set_trucks
                  (assign set_buses
                     (assign set_cars
                        (assign (set_date d) (frame_of_lines sample_lines)))))).
Proof.
  eexists. split; [vm_compute; reflexivity |].
  split; [vm_compute; reflexivity |].
  destruct (read_report_classification sample_url sample_server sample_writer
              123 2021 1 1 6 20 false None
              (df := [(0%nat, Col.Row 7200000 1 1 0 [] 737791 1 0 0);
                      (1%nat, Col.Row 3000000 1 3 1 [] 737791 0 1 0);
                      (3%nat, Col.Row 3000000 1 7 0 [] 737791 0 0 1)]))
    as [Hall Hrows].
  - vm_compute. reflexivity.
  - split; [exact Hall |].
    destruct (Hrows 200 sample_lines) as [d [_ [_ [_ Hr]]]].
    + vm_compute. reflexivity.
    + discriminate.
    + exists d. exact Hr.
Defined.

Lemma read_report_empty_day_iff_404_witness :
  window_ok 1 6 20 = true
  /\ year_day_ok (2021, 3) = true
  /\ year_day_ok (2021, 2) = true
  /\ (fst (read_report sample_url sample_server sample_writer 123 2021 3 1 6 20 true None)
      = inr []
      /\ In (Warn (msg_no_data 123 3 2021))
           (snd (read_report sample_url sample_server sample_writer 123 2021 3 1 6 20 true
                   None)))
  /\ fst (read_report sample_url sample_server sample_writer 123 2021 2 1 6 20 true None)
     = inl (HTTPError 500).
Proof.
  split; [reflexivity |]. split; [reflexivity |]. split; [reflexivity |].
  split.
  - apply (read_report_empty_day_iff_404 sample_url sample_server sample_writer
             123 2021 3 1 6 20 true None eq_refl eq_refl).
    exists []. reflexivity.
  - destruct (read_report_empty_day_iff_404 sample_url sample_server sample_writer
                123 2021 2 1 6 20 true None eq_refl eq_refl) as [_ [H _]].
    rewrite (H 500 []).
    + reflexivity.
    + reflexivity.
    + discriminate.
    + reflexivity.
Defined.

Lemma read_several_reports_fails_or_concatenates_witness :
  window_ok 1 6 20 = true
  /\ fst (read_several_reports sample_url sample_server sample_writer 123
            [(2021, 3); (2021, 4)] 1 6 20 true None)
     = inl (AssertionError msg_not_loaded)
  /\ (exists df,
        fst (read_several_reports sample_url sample_server sample_writer 123
               [(2021, 3); (2021, 1)] 1 6 20 true (Some "day1.gzip"))
        = inr df
        /\ List.length (records df) = 2%nat)
  /\ fst (read_several_reports sample_url sample_server sample_writer 123
            [(2021, 3); (2021, 1)] 1 6 20 true (Some "nodir/day1.gzip"))
     = inl (OSError 2).
Proof.
  assert (Hr : Forall (returns sample_url sample_server sample_writer 123 1 6 20 true)
                 [(2021, 3); (2021, 1)]).
  { repeat constructor; eexists; vm_compute; reflexivity. }
  assert (Hd : Exists (yields_data sample_url sample_server sample_writer 123 1 6 20 true)
                 [(2021, 3); (2021, 1)]).
  { right. left. eexists. split; vm_compute; reflexivity. }
  split; [reflexivity |]. split; [| split].
  - apply (read_several_reports_fails_or_concatenates sample_url sample_server
             sample_writer 123 1 6 20 true [(2021, 3); (2021, 4)] None eq_refl).
    repeat constructor; eexists; split; vm_compute; reflexivity.
  - destruct (read_several_reports_fails_or_concatenates sample_url sample_server
                sample_writer 123 1 6 20 true [(2021, 3); (2021, 1)]
                (Some "day1.gzip") eq_refl)
      as [_ [_ [H _]]].
    destruct (H Hr Hd) as [df [R E]].
    exists df. split; [exact E |]. rewrite R. vm_compute. reflexivity.
  - destruct (read_several_reports_fails_or_concatenates sample_url sample_server
                sample_writer 123 1 6 20 true [(2021, 3); (2021, 1)]
                (Some "nodir/day1.gzip") eq_refl)
      as [_ [_ [H _]]].
    destruct (H Hr Hd) as [df [R E]]. exact E.
Defined.

(** Day 1 yields data and day 2 answers with status 500: the call raises,
    though not every day is empty. *)
Lemma failure_with_a_day_of_data :
  ~ fails_iff_all_empty_claim sample_url sample_server sample_writer 123
      [(2021, 1); (2021, 2)] 1 6 20 true None.
Proof.
  unfold fails_iff_all_empty_claim. intros [_ H].
  destruct H as [df [E _]].
  - left. eexists. split; vm_compute; reflexivity.
  - vm_compute in E. discriminate.
Qed.

Lemma read_several_reports_prints_count_witness :
  exists df,
    fst (read_several_reports sample_url sample_server sample_writer 123
           [(2021, 3); (2021, 1)] 1 6 20 true None)
    = inr df
    /\ In (Print (MsgLoadingSuccessful 1 2))
         (snd (read_several_reports sample_url sample_server sample_writer 123
                 [(2021, 3); (2021, 1)] 1 6 20 true None)).
Proof.
  eexists. split; [vm_compute; reflexivity |].
  exact (proj1 (proj2
           (read_several_reports_prints_count sample_url sample_server sample_writer
              123 1 6 20 true [(2021, 3); (2021, 1)] None eq_refl))).
Defined.

(** The count is not a function of the returned frame: two calls return the
    same frame, one after one day out of two yielded data, the other after
    two days out of two did. *)
Lemma count_not_exposed_by_result :
  ~ count_exposed_by_result sample_url sample_writer 123 1 6 20 true None.
Proof.
  intros [count_of H].
  pose proof (H twice_server [(2021, 1); (2021, 2)] _ eq_refl) as H1.
  pose proof (H once_server [(2021, 1); (2021, 1)] _ eq_refl) as H2.
  vm_compute in H1, H2. rewrite H1 in H2. discriminate.
Qed.

Lemma read_several_reports_empty_list_witness :
  window_ok 1 6 20 = true
  /\ fst (read_several_reports sample_url sample_server sample_writer 123 [] 1 6 20 true None)
     = inl (AssertionError msg_not_loaded)
  /\ fst (read_several_reports sample_url sample_server sample_writer 123
            [(2021, 3); (2021, 4)] 1 6 20 true None)
     = fst (read_several_reports sample_url sample_server sample_writer 123 [] 1 6 20 true
              None).
Proof.
  split; [reflexivity |].
  destruct (read_several_reports_empty_list sample_url sample_server sample_writer
              123 1 6 20 true None eq_refl) as [H0 Hall].
  split; [exact H0 |]. apply Hall.
  repeat constructor; eexists; split; vm_compute; reflexivity.
Defined.

(** Day 400 comes second in the list: the call fails, after the report of
    day 1 has been requested and read. *)
Lemma day_checked_after_retrieval :
  ~ preflight_claim sample_url sample_server sample_writer 123 [(2021, 1); (2021, 400)]
      1 6 20 true None.
Proof.
  unfold preflight_claim. intros H.
  destruct H as [_ Hn].
  - right. right. left. reflexivity.
  - vm_compute in Hn. discriminate.
Qed.

End load_facts.

(* ------------------------------------------------------------------ *)
(** ** Properties of the orchestrator *)

Module fintraffic_facts.
Import py fintraffic fintraffic_props.

Section WithSolver.

Variables Num Sol : Type.
Variable fsub : Num -> Num -> Num.
Variable perf_counter : nat -> Num.
Variable beta_default_lb : Num.
Variable wCQR_check : list Num -> list Num -> list Num -> Num -> option exn.
Variable solve : option string -> wCQR Num Sol -> exn + Sol.

#[local] Abbreviation fit :=
  (fit fsub perf_counter beta_default_lb wCQR_check solve).
#[local] Abbreviation weighted_model :=
  (weighted_model fsub perf_counter beta_default_lb wCQR_check solve).
#[local] Abbreviation fit_outcome :=
  (fit_outcome fsub perf_counter beta_default_lb wCQR_check solve).
#[local] Abbreviation fit_succeeds :=
  (fit_succeeds beta_default_lb wCQR_check solve).
#[local] Abbreviation fitted := (fitted solve).
#[local] Abbreviation model_for := (model_for Sol beta_default_lb).
#[local] Abbreviation state := (state Num Sol).
#[local] Abbreviation M := (M Num Sol).

(** *** One turn of the loop *)

Ltac step :=
  repeat (progress (unfold bind, time_perf_counter, getattr, new_wCQR, emit,
                      optimize, update, ret, raise;
                    cbn [self ticks trace bagged_model time_weighted bag_data
                         weight set_bagged_model set_time_weighted])).

Lemma fit_run email t (s : state) : fit email t s = fit_outcome email t s.
Proof.
  unfold fintraffic.fit, fintraffic_props.fit_outcome, tick, log, with_self,
    fintraffic_props.model_for.
  step.
  destruct (bag_data (self s)) as [bag |]; step; [| reflexivity].
  destruct (weight (self s)) as [wt |]; step; [| reflexivity].
  destruct (wCQR_check (centroid_flow bag) (centroid_density bag) wt t);
    step; [reflexivity |].
  destruct (solve email _); step; [reflexivity |].
  destruct (bagged_model (self s)); step; [| reflexivity].
  destruct (time_weighted (self s)); step; reflexivity.
Qed.

Lemma fit_lists email t (s : state) models times :
  bagged_model (self s) = Some models ->
  time_weighted (self s) = Some times ->
  let r := fit email t s in
  bag_data (self (snd r)) = bag_data (self s)
  /\ weight (self (snd r)) = weight (self s)
  /\ match fst r with
     | inr _ =>
         exists m d,
           tau m = t
           /\ bagged_model (self (snd r)) = Some (models ++ [m])%list
           /\ time_weighted (self (snd r)) = Some (times ++ [d])%list
     | inl _ =>
         bagged_model (self (snd r)) = Some models
         /\ time_weighted (self (snd r)) = Some times
     end.
Proof.
  intros Hm Ht r. unfold r. rewrite fit_run.
  unfold fintraffic_props.fit_outcome. rewrite Hm, Ht.
  destruct (bag_data (self s)) as [bag |] eqn:Eb;
    [| simpl; rewrite ?Eb; auto].
  destruct (weight (self s)) as [wt |] eqn:Ew;
    [| simpl; rewrite ?Eb, ?Ew; auto].
  destruct (wCQR_check (centroid_flow bag) (centroid_density bag) wt t)
    as [refused |]; [simpl; rewrite ?Eb, ?Ew; auto |].
  destruct (solve email (model_for bag wt t)) as [e | sol];
    [simpl; rewrite ?Eb, ?Ew; auto |].
  simpl. rewrite Eb, Ew. split; [reflexivity |]. split; [reflexivity |].
  eexists. eexists. split; [| split; reflexivity]. reflexivity.
Qed.

Lemma fit_returns email t (s : state) models times :
  bagged_model (self s) = Some models ->
  time_weighted (self s) = Some times ->
  fit_succeeds email (self s) t ->
  fst (fit email t s) = inr tt.
Proof.
  intros Hm Ht [bag [wt [sol [Hb [Hw [Hc Hs]]]]]].
  rewrite fit_run. unfold fintraffic_props.fit_outcome.
  rewrite Hb, Hw, Hc, Hs, Hm, Ht. reflexivity.
Qed.

Lemma fit_trace email t (s : state) :
  let r := fit email t s in
  exists new,
    trace (snd r) = (trace s ++ new)%list
    /\ match fst r with
       | inr _ =>
           exists ys xs ws m,
             beta_lb m = None
             /\ new = [PerfCounter Num Sol; CallwCQR Sol ys xs ws (tau m);
                       CallSetlb Sol None; CallOptimize m email;
                       PerfCounter Num Sol]
       | inl _ => disciplined new /\ (optimize_calls new <= 1)%nat
       end.
Proof.
  intros r. unfold r. rewrite fit_run.
  unfold fintraffic_props.fit_outcome, tick, log, with_self.
  destruct (bag_data (self s)) as [bag |];
    [| eexists; split; [reflexivity |];
       split; [repeat constructor | simpl; lia]].
  destruct (weight (self s)) as [wt |];
    [| eexists; split; [reflexivity |];
       split; [repeat constructor | simpl; lia]].
  destruct (wCQR_check (centroid_flow bag) (centroid_density bag) wt t)
    as [refused |].
  { eexists. cbn [fst snd trace]. rewrite <- !app_assoc.
    split; [reflexivity |]. split; [repeat constructor | simpl; lia]. }
  assert (Hd : disciplined
                 [PerfCounter Num Sol;
                  CallwCQR Sol (centroid_flow bag) (centroid_density bag) wt t;
                  CallSetlb Sol None; CallOptimize (model_for bag wt t) email]).
  { constructor.
    apply (disc_fit (centroid_flow bag) (centroid_density bag) wt
             (model_for bag wt t) email);
      [reflexivity | constructor]. }
  destruct (solve email (model_for bag wt t)) as [e | sol].
  { eexists. cbn [fst snd trace]. rewrite <- !app_assoc.
    split; [reflexivity |]. split; [exact Hd | simpl; lia]. }
  destruct (bagged_model (self s)).
  2: { eexists. cbn [fst snd trace]. rewrite <- !app_assoc.
       split; [reflexivity |]. split; [exact Hd | simpl; lia]. }
  destruct (time_weighted (self s)).
  - eexists. cbn [fst snd trace]. rewrite <- !app_assoc.
    split; [reflexivity |].
    exists (centroid_flow bag), (centroid_density bag), wt, (model_for bag wt t).
    split; reflexivity.
  - eexists. cbn [fst snd trace]. rewrite <- !app_assoc.
    split; [reflexivity |]. split.
    + constructor.
      apply (disc_fit (centroid_flow bag) (centroid_density bag) wt
               (model_for bag wt t) email);
        [reflexivity | repeat constructor].
    + simpl; lia.
Qed.

(** *** The loop *)

Lemma for_each_cons (body : Num -> M unit) t taus (s : state) :
  for_each body (t :: taus) s
  = match body t s with
    | (inl e, s') => (inl e, s')
    | (inr _, s') => for_each body taus s'
    end.
Proof. reflexivity. Qed.

Lemma fit_succeeds_same_data email (o o' : FintrafficTMS Num Sol) t :
  bag_data o' = bag_data o ->
  weight o' = weight o ->
  fit_succeeds email o t -> fit_succeeds email o' t.
Proof.
  intros Hb Hw [bag [wt [sol [Eb [Ew H]]]]].
  exists bag, wt, sol. rewrite Hb, Hw. auto.
Qed.

(** A turn that returns has appended a fitted model and a duration. *)
Lemma fit_appends email t (s : state) models times :
  bagged_model (self s) = Some models ->
  time_weighted (self s) = Some times ->
  let r := fit email t s in
  fst r = inr tt ->
  exists m d,
    fitted email (self s) t m
    /\ bagged_model (self (snd r)) = Some (models ++ [m])%list
    /\ time_weighted (self (snd r)) = Some (times ++ [d])%list.
Proof.
  intros Hm Ht r. unfold r. rewrite fit_run.
  unfold fintraffic_props.fit_outcome. rewrite Hm, Ht.
  destruct (bag_data (self s)) as [bag |] eqn:Eb; [| discriminate].
  destruct (weight (self s)) as [wt |] eqn:Ew; [| discriminate].
  destruct (wCQR_check (centroid_flow bag) (centroid_density bag) wt t)
    as [refused |]; [discriminate |].
  destruct (solve email (model_for bag wt t)) as [e | sol] eqn:Es;
    [discriminate |].
  intros _. eexists. eexists. split; [| split; reflexivity].
  exists bag, wt, sol. repeat split; try reflexivity; assumption.
Qed.

Lemma fitted_same_data email (o o' : FintrafficTMS Num Sol) t m :
  bag_data o' = bag_data o ->
  weight o' = weight o ->
  fitted email o' t m -> fitted email o t m.
Proof.
  intros Hb Hw [bag [wt [sol [Eb [Ew H]]]]].
  exists bag, wt, sol. rewrite <- Hb, <- Hw. auto.
Qed.

Lemma loop_lists email taus : forall (s : state) models times,
  bagged_model (self s) = Some models ->
  time_weighted (self s) = Some times ->
  let r := for_each (fit email) taus s in
  exists done rest appended durations,
    taus = (done ++ rest)%list
    /\ bagged_model (self (snd r)) = Some (models ++ appended)%list
    /\ time_weighted (self (snd r)) = Some (times ++ durations)%list
    /\ List.length durations = List.length appended
    /\ Forall2 (fitted email (self s)) done appended
    /\ (fst r = inr tt -> rest = []).
Proof.
  induction taus as [| t taus IH]; intros s models times Hm Ht r.
  - exists [], [], [], []. unfold r. simpl.
    rewrite !app_nil_r. repeat split; auto; try constructor.
  - unfold r. rewrite for_each_cons.
    destruct (fit_lists email t s Hm Ht) as [Hb [Hw H]].
    pose proof (fit_appends email t s Hm Ht) as Ha. cbv zeta in Ha.
    destruct (fit email t s) as [[e | u] s'] eqn:E; cbn [fst snd] in *.
    + destruct H as [Hm' Ht']. exists [], (t :: taus), [], []. cbn [fst snd].
      rewrite !app_nil_r. repeat split; auto; try constructor; discriminate.
    + destruct u. destruct (Ha eq_refl) as [m [d [Hfit [Hm' Ht']]]].
      destruct (IH s' _ _ Hm' Ht')
        as [done [rest [appended [durations [Hp [Hf [Hd [Hl [H2 Hr]]]]]]]]].
      exists (t :: done), rest, (m :: appended), (d :: durations).
      rewrite <- !app_assoc in Hf, Hd. simpl in Hf, Hd.
      split; [simpl; rewrite Hp; reflexivity |].
      split; [exact Hf |]. split; [exact Hd |].
      split; [simpl; rewrite Hl; reflexivity |]. split; [| exact Hr].
      constructor; [exact Hfit |].
      eapply Forall2_impl; [| exact H2].
      intros t' m' Hfit'. eapply fitted_same_data; eassumption.
Qed.

Lemma fitted_levels email (o : FintrafficTMS Num Sol) done appended :
  Forall2 (fitted email o) done appended ->
  map (@tau Num Sol) appended = done
  /\ Forall (fun m => fitted email o (tau m) m) appended.
Proof.
  induction 1 as [| t m done appended Hf _ [IHm IHf]].
  - split; [reflexivity | constructor].
  - assert (Et : tau m = t).
    { destruct Hf as [bag [wt [sol [_ [_ [_ [_ [_ [Et _]]]]]]]]]. exact Et. }
    split; [simpl; rewrite Et, IHm; reflexivity |].
    constructor; [rewrite Et; exact Hf | exact IHf].
Qed.

Lemma loop_succeeds email taus : forall (s : state) models times,
  bagged_model (self s) = Some models ->
  time_weighted (self s) = Some times ->
  Forall (fit_succeeds email (self s)) taus ->
  fst (for_each (fit email) taus s) = inr tt.
Proof.
  induction taus as [| t taus IH]; intros s models times Hm Ht Hall.
  - reflexivity.
  - inversion Hall as [| ? ? Hok Hrest]; subst.
    rewrite for_each_cons.
    pose proof (fit_returns s Hm Ht Hok) as Hr.
    destruct (fit_lists email t s Hm Ht) as [Hb [Hw H]].
    destruct (fit email t s) as [[e | u] s'] eqn:E; cbn [fst snd] in *;
      [discriminate |].
    destruct H as [m [d [_ [Hm' Ht']]]].
    apply (IH s' _ _ Hm' Ht').
    eapply Forall_impl; [| exact Hrest].
    intros t' Ht'ok. eapply fit_succeeds_same_data; eassumption.
Qed.

Lemma disciplined_turn ys xs ws (m : wCQR Num Sol) email evs :
  beta_lb m = None ->
  disciplined evs ->
  disciplined ([PerfCounter Num Sol; CallwCQR Sol ys xs ws (tau m);
                CallSetlb Sol None; CallOptimize m email;
                PerfCounter Num Sol] ++ evs)%list.
Proof.
  intros Hlb Hd. simpl. constructor. apply disc_fit; [exact Hlb |].
  constructor. exact Hd.
Qed.

Lemma loop_trace email taus : forall (s : state),
  let r := for_each (fit email) taus s in
  exists new,
    trace (snd r) = (trace s ++ new)%list
    /\ disciplined new
    /\ (optimize_calls new <= List.length taus)%nat
    /\ (fst r = inr tt -> optimize_calls new = List.length taus).
Proof.
  induction taus as [| t taus IH]; intros s r.
  - exists []. unfold r. simpl. rewrite app_nil_r.
    repeat split; auto. constructor.
  - unfold r. rewrite for_each_cons.
    destruct (fit_trace email t s) as [new1 [E1 H1]].
    destruct (fit email t s) as [[e | u] s'] eqn:E; cbn [fst snd] in *.
    + exists new1. destruct H1 as [Hd Hc].
      repeat split; auto; [simpl; lia | discriminate].
    + destruct H1 as [ys [xs [ws [m [Hlb Hnew]]]]].
      destruct (IH s') as [new2 [E2 [Hd2 [Hle Hc2]]]].
      exists (new1 ++ new2)%list. rewrite E2, E1, app_assoc.
      split; [reflexivity |]. subst new1. split; [| split].
      * apply disciplined_turn; assumption.
      * simpl. lia.
      * intros Hok. simpl. rewrite (Hc2 Hok). reflexivity.
Qed.

(** In a disciplined sequence, every call of [optimize] is on a model without
    lower bound and comes right after the construction of a model for the
    same quantile level and the call [setlb(None)]. *)
Lemma disciplined_optimize (evs : list (event Num Sol)) :
  disciplined evs ->
  forall before m email after,
    evs = (before ++ CallOptimize m email :: after)%list ->
    beta_lb m = None
    /\ exists earlier ys xs ws,
        before = (earlier ++ [CallwCQR Sol ys xs ws (tau m);
                              CallSetlb Sol None])%list.
Proof.
  induction 1 as [| evs Hd IH | ys xs ws t | ys xs ws m0 email0 evs Hlb Hd IH];
    intros before m email after E.
  - destruct before; discriminate.
  - destruct before as [| ev before]; [discriminate |].
    injection E as Eev E. subst ev.
    destruct (IH _ _ _ _ E) as [Hm [earlier [ys [xs [ws Hb]]]]].
    split; [exact Hm |].
    exists (PerfCounter Num Sol :: earlier), ys, xs, ws. rewrite Hb. reflexivity.
  - destruct before as [| ev before]; [discriminate |].
    destruct before; discriminate.
  - destruct before as [| ev1 before]; [discriminate |].
    destruct before as [| ev2 before]; [discriminate |].
    destruct before as [| ev3 before].
    + simpl in E. inversion E. subst. split; [exact Hlb |].
      exists [], ys, xs, ws. reflexivity.
    + simpl in E. inversion E as [[E1 E2 E3 E4]]. clear E. subst ev1 ev2 ev3.
      destruct (IH _ _ _ _ E4) as [Hm [earlier [ys' [xs' [ws' Hb]]]]].
      split; [exact Hm |].
      exists (CallwCQR Sol ys xs ws (tau m0) :: CallSetlb Sol None
                :: CallOptimize m0 email0 :: earlier), ys', xs', ws'.
      rewrite Hb. reflexivity.
Qed.

(** *** The method *)

Lemma weighted_model_run tau_list email (s : state) :
  weighted_model tau_list email s
  = for_each (fit email) (requested tau_list (self s))
      (with_self (set_time_weighted []) (with_self (set_bagged_model []) s)).
Proof.
  unfold fintraffic.weighted_model, requested, with_self, self_tau_list.
  destruct tau_list; step; reflexivity.
Qed.

(** C7: after a call of [weighted_model] the list of models and the list of
    durations have the same length; the models are fitted models for the
    first quantile levels of the list, in its order: each carries the
    bagged data of the station, its level, no lower bound and the solution
    the solver returned for it.  When the call returns they are the fitted
    models of all [k] levels, so both lists have length [k]; and the call
    returns whenever the solver accepts and solves every level. *)
Theorem weighted_model_appends_fitted tau_list email (s : state) :
  let taus := requested tau_list (self s) in
  let r := weighted_model tau_list email s in
  exists models times,
    bagged_model (self (snd r)) = Some models
    /\ time_weighted (self (snd r)) = Some times
    /\ List.length times = List.length models
    /\ (exists rest, taus = (map (@tau Num Sol) models ++ rest)%list)
    /\ Forall (fun m => fitted email (self s) (tau m) m) models
    /\ (fst r = inr tt ->
        Forall2 (fitted email (self s)) taus models
        /\ map (@tau Num Sol) models = taus
        /\ List.length models = List.length taus
        /\ List.length times = List.length taus)
    /\ (Forall (fit_succeeds email (self s)) taus -> fst r = inr tt).
Proof.
  intros taus r. unfold r. rewrite weighted_model_run. fold taus.
  set (s0 := with_self (set_time_weighted [])
               (with_self (set_bagged_model []) s)).
  assert (Hm : bagged_model (self s0) = Some []) by reflexivity.
  assert (Ht : time_weighted (self s0) = Some []) by reflexivity.
  destruct (loop_lists email taus s0 Hm Ht)
    as [done [rest [appended [durations [Hp [Hf [Hd [Hl [H2 Hr]]]]]]]]].
  assert (H2s : Forall2 (fitted email (self s)) done appended).
  { eapply Forall2_impl; [| exact H2].
    intros t m Hfit. eapply fitted_same_data; [| | exact Hfit]; reflexivity. }
  destruct (fitted_levels H2s) as [Hmap Hall].
  exists appended, durations. simpl in Hf, Hd.
  split; [exact Hf |]. split; [exact Hd |]. split; [exact Hl |].
  split; [exists rest; rewrite Hmap; exact Hp |]. split; [exact Hall |]. split.
  - intros Hok. rewrite (Hr Hok), app_nil_r in Hp. subst done.
    split; [exact H2s |]. split; [exact Hmap |].
    assert (Hlen : List.length appended = List.length taus).
    { symmetry. apply (Forall2_length H2s). }
    split; [exact Hlen | rewrite Hl; exact Hlen].
  - intros Hall'. apply (loop_succeeds s0 Hm Ht).
    eapply Forall_impl; [| exact Hall'].
    intros t Hok. eapply fit_succeeds_same_data; [| | exact Hok]; reflexivity.
Qed.

(** C8: among the calls that [weighted_model] makes, every call of
    [optimize] is on a model whose coefficient has no lower bound and comes
    right after the construction of that model and the call [setlb(None)];
    a call that returns has done so once for every quantile level. *)
Theorem weighted_model_disables_lower_bound tau_list email (s : state) :
  let r := weighted_model tau_list email s in
  exists new,
    trace (snd r) = (trace s ++ new)%list
    /\ (forall before m email' after,
          new = (before ++ CallOptimize m email' :: after)%list ->
          beta_lb m = None
          /\ exists earlier ys xs ws,
              before = (earlier ++ [CallwCQR Sol ys xs ws (tau m);
                                    CallSetlb Sol None])%list)
    /\ (fst r = inr tt ->
        optimize_calls new = List.length (requested tau_list (self s))).
Proof.
  intros r. unfold r. rewrite weighted_model_run.
  destruct (loop_trace email (requested tau_list (self s))
              (with_self (set_time_weighted [])
                 (with_self (set_bagged_model []) s)))
    as [new [E [Hd [_ Hc]]]].
  exists new. split; [exact E |]. split; [| exact Hc].
  apply disciplined_optimize. exact Hd.
Qed.

End WithSolver.

(** *** The orchestrator on the sample station *)

Lemma weighted_model_appends_fitted_witness :
  fst (sample_weighted_model (Some [25; 50; 75])) = inr tt
  /\ exists models times,
      bagged_model (self (snd (sample_weighted_model (Some [25; 50; 75]))))
      = Some models
      /\ time_weighted (self (snd (sample_weighted_model (Some [25; 50; 75]))))
         = Some times
      /\ Forall2 (fitted sample_solve None sample_station) [25; 50; 75] models
      /\ map (@tau Z Z) models = [25; 50; 75]
      /\ List.length times = 3%nat.
Proof.
  unfold sample_weighted_model.
  destruct (weighted_model_appends_fitted Z.sub sample_clock 0 sample_check
              sample_solve (Some [25; 50; 75]) None sample_state)
    as [models [times [Hm [Ht [_ [_ [_ [Hok Hret]]]]]]]].
  cbn [requested] in Hok, Hret.
  assert (H : fst (weighted_model Z.sub sample_clock 0 sample_check
                     sample_solve (Some [25; 50; 75]) None sample_state)
              = inr tt).
  { apply Hret. repeat constructor; repeat eexists; reflexivity. }
  split; [exact H |].
  exists models, times. destruct (Hok H) as [H2 [Hmap [_ Hlen]]].
  split; [exact Hm |]. split; [exact Ht |]. split; [exact H2 |].
  split; [exact Hmap | exact Hlen].
Defined.

Lemma weighted_model_disables_lower_bound_witness :
  exists new,
    trace (snd (sample_weighted_model (Some [25; 0; 75]))) = new
    /\ optimize_calls new = 2%nat
    /\ forall before m email after,
        new = (before ++ CallOptimize m email :: after)%list ->
        beta_lb m = None.
Proof.
  destruct (weighted_model_disables_lower_bound Z.sub sample_clock 0
              sample_check sample_solve (Some [25; 0; 75]) None sample_state)
    as [new [E [H _]]].
  exists new. split; [exact E |]. split.
  - simpl in E. rewrite <- E. reflexivity.
  - intros before m email after Hnew. apply (H _ _ _ _ Hnew).
Defined.

End fintraffic_facts.

(* ------------------------------------------------------------------ *)
(** ** Further properties of the loader *)

Module load_more.
Import py load load_props load_more_props load_facts.
Local Open Scope py_scope.

Lemma labels_combine_seq (rs : list Col.row) n :
  map fst (combine (seq n (List.length rs)) rs) = seq n (List.length rs).
Proof.
  revert n. induction rs as [| r rs IH]; intros n; simpl.
  - reflexivity.
  - rewrite IH. reflexivity.
Qed.

Lemma length_combine_seq (rs : list Col.row) n :
  List.length (combine (seq n (List.length rs)) rs) = List.length rs.
Proof. rewrite length_combine, length_seq. apply Nat.min_id. Qed.

Lemma labels_concat a b :
  labels (concat_ignore_index a b)
  = seq 0 (List.length (concat_ignore_index a b)).
Proof.
  unfold labels, concat_ignore_index.
  rewrite labels_combine_seq, length_combine_seq. reflexivity.
Qed.

Lemma snd_bind_returned {A B} (m : Py A) (f : A -> Py B) a :
  fst m = inr a -> snd (bind m f) = (snd m ++ snd (f a))%list.
Proof. intros H. rewrite (bind_returned _ _ H). reflexivity. Qed.

Section WithServer.

Variable URL_FINTRAFFIC : string.
Variable server : string -> reply.
Variable to_parquet_raises : string -> DataFrame -> option exn.

#[local] Abbreviation read_report := (read_report URL_FINTRAFFIC server to_parquet_raises).
#[local] Abbreviation read_several_reports :=
  (read_several_reports URL_FINTRAFFIC server to_parquet_raises).
#[local] Abbreviation make_url := (make_url URL_FINTRAFFIC).

Section Several.

Variables (tms_id direction hour_from hour_to : Z).
Variable delete_if_faulty : bool.

#[local] Abbreviation read_day :=
  (read_day URL_FINTRAFFIC server to_parquet_raises tms_id direction hour_from hour_to
     delete_if_faulty).
#[local] Abbreviation day_result :=
  (day_result URL_FINTRAFFIC server to_parquet_raises tms_id direction hour_from hour_to
     delete_if_faulty).
#[local] Abbreviation day_events :=
  (day_events URL_FINTRAFFIC server to_parquet_raises tms_id direction hour_from hour_to
     delete_if_faulty).
#[local] Abbreviation retrieved :=
  (retrieved URL_FINTRAFFIC server to_parquet_raises tms_id direction hour_from hour_to
     delete_if_faulty).
#[local] Abbreviation returns :=
  (returns URL_FINTRAFFIC server to_parquet_raises tms_id direction hour_from hour_to
     delete_if_faulty).
#[local] Abbreviation yields_data :=
  (yields_data URL_FINTRAFFIC server to_parquet_raises tms_id direction hour_from hour_to
     delete_if_faulty).
#[local] Abbreviation success_count :=
  (success_count URL_FINTRAFFIC server to_parquet_raises tms_id direction hour_from hour_to
     delete_if_faulty).
#[local] Abbreviation several_outcome :=
  (several_outcome URL_FINTRAFFIC server to_parquet_raises).

(** With a valid hour window and direction, [read_several_reports] is what
    [several_outcome] says. *)
Lemma read_several_reports_run year_day_list save_name :
  window_ok direction hour_from hour_to = true ->
  read_several_reports tms_id year_day_list direction hour_from hour_to
    delete_if_faulty save_name
  = several_outcome tms_id year_day_list direction hour_from hour_to
      delete_if_faulty save_name.
Proof.
  intros Hw. unfold load.read_several_reports.
  rewrite (read_several_reports_counted_valid URL_FINTRAFFIC server to_parquet_raises tms_id
             direction hour_from hour_to delete_if_faulty year_day_list
             save_name Hw).
  unfold load_more_props.several_outcome.
  destruct (fst (for_each read_day year_day_list ([], 0))) as [e | st] eqn:E.
  - rewrite (bind_raised _ _ E). reflexivity.
  - rewrite (bind_returned _ _ E). cbn [fst snd].
    destruct (empty (fst st)); cbn [negb].
    + unfold assert, bind, raise. cbn [fst snd]. rewrite app_nil_r. reflexivity.
    + unfold save_gzip.
      destruct save_name as [name |];
        [destruct (endswith (lower name) ".gzip");
           [destruct (to_parquet_raises name (fst st)) |] |];
        unfold assert, bind, emit, ret, raise; cbn [fst snd];
        rewrite ?app_nil_r, <- ?app_assoc; reflexivity.
Qed.

(** *** The rows of one day *)

Lemma cleaned_rows d body :
  Forall (fun r =>
            Col.date r = d
            /\ clean_row direction hour_from hour_to delete_if_faulty r)
    (records (cleaned direction hour_from hour_to delete_if_faulty d body)).
Proof.
  apply Forall_forall. intros r Hr.
  pose proof (cleaned_from_lines direction hour_from hour_to delete_if_faulty
                d body) as Hl.
  pose proof (cleaned_direction direction hour_from hour_to delete_if_faulty
                d body) as Hd.
  pose proof (cleaned_window direction hour_from hour_to delete_if_faulty
                d body) as Hw.
  rewrite Forall_forall in Hl, Hd, Hw.
  destruct (Hl r Hr) as [l [_ El]].
  split; [subst r; reflexivity |].
  split; [apply Hd; exact Hr |]. split; [| split].
  - intros Hf. subst delete_if_faulty.
    pose proof (cleaned_not_faulty direction hour_from hour_to d body) as Hn.
    rewrite Forall_forall in Hn. apply Hn. exact Hr.
  - apply Hw. exact Hr.
  - subst r. apply class_table_row_of_line.
Qed.

Lemma date_of_year_day_value year day d :
  fst (date_of_year_day year day) = inr d -> d = date_of (year, day).
Proof.
  unfold date_of_year_day, date_of. simpl fst; simpl snd.
  destruct (MAXYEAR <? year); [discriminate |].
  destruct (max_ordinal <? days_before_year year + 1 + (day - 1));
    [discriminate |].
  simpl. congruence.
Qed.

Lemma retrieved_rows value :
  Forall (fun r =>
            Col.date r = date_of value
            /\ clean_row direction hour_from hour_to delete_if_faulty r)
    (records (retrieved value)).
Proof.
  unfold load_props.retrieved, load_props.day_result.
  destruct value as [year day]. cbn [fst snd].
  destruct (read_report_outcome URL_FINTRAFFIC server to_parquet_raises tms_id year day direction
              hour_from hour_to delete_if_faulty None) as [[msg [_ E]] | E];
    rewrite E; [constructor |].
  unfold report_outcome.
  destruct (server (make_url tms_id year day)) as [status_code body |];
    [| constructor].
  destruct (status_code =? 404); [constructor |].
  destruct ((200 <=? status_code) && (status_code <? 300)); [| constructor].
  destruct (fst (date_of_year_day year day)) as [e | d] eqn:Ed; [constructor |].
  cbn [fst]. rewrite <- (date_of_year_day_value _ _ Ed). apply cleaned_rows.
Qed.

(** The retrieval of one day writes no file. *)
Lemma day_writes_nothing value : filter is_write (day_events value) = [].
Proof.
  unfold load_props.day_events. destruct value as [year day]. cbn [fst snd].
  destruct (read_report_outcome URL_FINTRAFFIC server to_parquet_raises tms_id year day direction
              hour_from hour_to delete_if_faulty None) as [[msg [_ E]] | E];
    rewrite E; [reflexivity |].
  unfold report_outcome.
  destruct (server (make_url tms_id year day)) as [status_code body |];
    [| reflexivity].
  destruct (status_code =? 404); [reflexivity |].
  destruct ((200 <=? status_code) && (status_code <? 300)); [| reflexivity].
  destruct (fst (date_of_year_day year day)); reflexivity.
Qed.

(** *** The loop *)

Lemma loop_cons value l st :
  for_each read_day (value :: l) st
  = match day_result value with
    | inl e => (inl e, day_events value)
    | inr read_df =>
        (fst (for_each read_day l (after_day st read_df)),
         (day_events value ++ snd (for_each read_day l (after_day st read_df)))%list)
    end.
Proof.
  simpl for_each. unfold bind.
  rewrite (read_day_step URL_FINTRAFFIC server to_parquet_raises tms_id direction hour_from
             hour_to delete_if_faulty st value).
  destruct (day_result value); reflexivity.
Qed.

Lemma loop_writes_nothing l : forall st,
  filter is_write (snd (for_each read_day l st)) = [].
Proof.
  induction l as [| value l IH]; intros st.
  - reflexivity.
  - rewrite loop_cons. destruct (day_result value) as [e | read_df]; cbn [snd].
    + apply day_writes_nothing.
    + rewrite filter_app, day_writes_nothing, IH. reflexivity.
Qed.

Lemma loop_output l : forall st st',
  fst (for_each read_day l st) = inr st' ->
  forall r, In r (records (fst st')) ->
            In r (records (fst st)) \/ exists v, In v l /\ In r (records (retrieved v)).
Proof.
  intros st st' H r Hr.
  destruct (loop_returned URL_FINTRAFFIC server to_parquet_raises tms_id direction hour_from
              hour_to delete_if_faulty l st H) as [_ [Hrec _]].
  rewrite Hrec in Hr. apply in_app_or in Hr. destruct Hr as [Hr | Hr].
  - left. exact Hr.
  - right. apply in_concat in Hr. destruct Hr as [rs [Hrs Hin]].
    apply in_map_iff in Hrs. destruct Hrs as [v [Ev Hv]]. subst rs.
    exists v. split; assumption.
Qed.

(** A call that returns had a valid hour window and direction and a
    saving step that did not raise, and returns the frame its loop ended
    with, which is not empty. *)
Lemma returned_inv year_day_list save_name df :
  fst (read_several_reports tms_id year_day_list direction hour_from hour_to
         delete_if_faulty save_name) = inr df ->
  window_ok direction hour_from hour_to = true
  /\ save_raises to_parquet_raises save_name df = None
  /\ empty df = false
  /\ exists counter,
      fst (for_each read_day year_day_list ([], 0)) = inr (df, counter).
Proof.
  destruct (window_ok direction hour_from hour_to) eqn:Hw.
  - rewrite (read_several_reports_run year_day_list save_name Hw).
    unfold load_more_props.several_outcome.
    destruct (fst (for_each read_day year_day_list ([], 0))) as [e | [df' c]];
      [discriminate |].
    cbn [fst snd]. destruct (empty df') eqn:Ee; [discriminate |].
    unfold save_raises.
    destruct save_name as [name |];
      [destruct (endswith (lower name) ".gzip"); [| discriminate];
       destruct (to_parquet_raises name df') eqn:Et; [discriminate |] |];
      cbn [fst]; intros H; injection H as H; subst df';
      (split; [reflexivity |]); (split; [try exact Et; reflexivity |]);
      (split; [exact Ee |]); exists c; reflexivity.
  - destruct (read_several_reports_invalid_window URL_FINTRAFFIC server to_parquet_raises tms_id
                direction hour_from hour_to delete_if_faulty year_day_list
                save_name Hw) as [msg E].
    rewrite E. discriminate.
Qed.

(** *** The frame of several days *)

(** X1: every record of a frame that [read_several_reports] returns has the
    requested direction, lies in the closed window from [hour_from] to
    [hour_to], has its three vehicle columns as the classification table
    says, and is not faulty when [delete_if_faulty] is set. *)
Theorem read_several_reports_clean year_day_list save_name df :
  fst (read_several_reports tms_id year_day_list direction hour_from hour_to
         delete_if_faulty save_name) = inr df ->
  Forall (clean_row direction hour_from hour_to delete_if_faulty) (records df).
Proof.
  intros H. destruct (returned_inv _ _ H) as [_ [_ [_ [c Hl]]]].
  apply Forall_forall. intros r Hr.
  destruct (loop_output _ _ Hl r Hr) as [Hr0 | [v [_ Hv]]]; [destruct Hr0 |].
  pose proof (retrieved_rows v) as Hrows. rewrite Forall_forall in Hrows.
  apply (Hrows r Hv).
Qed.

(** X2: every record of a frame that [read_several_reports] returns is dated
    with the day of one of the requested pairs, a pair whose retrieval
    yielded data. *)
Theorem read_several_reports_dates year_day_list save_name df :
  fst (read_several_reports tms_id year_day_list direction hour_from hour_to
         delete_if_faulty save_name) = inr df ->
  Forall (fun r =>
            exists value,
              In value year_day_list
              /\ yields_data value
              /\ Col.date r = date_of value)
    (records df).
Proof.
  intros H. destruct (returned_inv _ _ H) as [_ [_ [_ [c Hl]]]].
  destruct (loop_returned URL_FINTRAFFIC server to_parquet_raises tms_id direction hour_from
              hour_to delete_if_faulty year_day_list ([], 0) Hl)
    as [Hret _].
  rewrite Forall_forall in Hret.
  apply Forall_forall. intros r Hr.
  destruct (loop_output _ _ Hl r Hr) as [Hr0 | [v [Hin Hv]]]; [destruct Hr0 |].
  exists v. split; [exact Hin |]. split.
  - destruct (Hret v Hin) as [read_df E]. exists read_df. split; [exact E |].
    unfold load_props.retrieved in Hv. rewrite E in Hv.
    destruct read_df; [destruct Hv | reflexivity].
  - pose proof (retrieved_rows v) as Hrows. rewrite Forall_forall in Hrows.
    apply (Hrows r Hv).
Qed.

Lemma success_count_bounds l :
  0 <= success_count l <= Z.of_nat (List.length l).
Proof.
  unfold load_props.success_count. split; [lia |].
  apply Nat2Z.inj_le. apply filter_length_le.
Qed.

Lemma success_count_zero l :
  success_count l = 0 ->
  List.concat (map (fun v => records (retrieved v)) l) = [].
Proof.
  induction l as [| value l IH]; intros H.
  - reflexivity.
  - rewrite (success_count_cons URL_FINTRAFFIC server to_parquet_raises tms_id direction
               hour_from hour_to delete_if_faulty value l) in H.
    pose proof (success_count_bounds l) as Hb.
    destruct (empty (retrieved value)) eqn:E; [| lia].
    simpl. apply empty_records in E. rewrite E. apply IH. lia.
Qed.

(** X3: the counter of a call of [read_several_reports] that returns is the
    number of days that yielded data; it is at least 1, at most the length
    of the list, and the frame returned is not empty. *)
Theorem read_several_reports_count_bounds year_day_list save_name df counter :
  fst (read_several_reports_counted URL_FINTRAFFIC server to_parquet_raises tms_id year_day_list
         direction hour_from hour_to delete_if_faulty save_name)
  = inr (df, counter) ->
  counter = success_count year_day_list
  /\ 1 <= counter <= Z.of_nat (List.length year_day_list)
  /\ df <> [].
Proof.
  intros H.
  assert (Hc : fst (read_several_reports tms_id year_day_list direction
                      hour_from hour_to delete_if_faulty save_name) = inr df).
  { unfold load.read_several_reports. rewrite (bind_returned _ _ H).
    reflexivity. }
  destruct (returned_inv _ _ Hc) as [Hw [_ [He [c Hl]]]].
  rewrite (read_several_reports_counted_valid URL_FINTRAFFIC server to_parquet_raises tms_id
             direction hour_from hour_to delete_if_faulty year_day_list
             save_name Hw) in H.
  apply bind_inr in H. destruct H as [st [Hst H]].
  rewrite Hl in Hst. injection Hst as Hst. subst st. cbn [fst snd] in H.
  rewrite He in H. rewrite assert_true, bind_ret in H.
  apply bind_inr in H. destruct H as [u [_ H]].
  apply bind_inr in H. destruct H as [u' [_ H]].
  injection H as H. subst c.
  destruct (loop_records URL_FINTRAFFIC server to_parquet_raises tms_id direction hour_from
              hour_to delete_if_faulty year_day_list Hl) as [_ [Hrec Hcnt]].
  cbn [fst snd] in Hrec, Hcnt.
  pose proof (success_count_bounds year_day_list) as Hb.
  split; [exact Hcnt |]. split.
  - split; [| lia].
    destruct (Z.eq_dec (success_count year_day_list) 0) as [E0 | E0]; [| lia].
    apply success_count_zero in E0. rewrite <- Hrec in E0.
    apply empty_records in E0. congruence.
  - intros E. subst df. discriminate.
Qed.

(** The state of the loop, by its counter: nothing yet, the frame of one
    day as [read_report] returned it, or a frame relabelled from 0. *)
Lemma loop_shape year_day_list l : forall st st',
  incl l year_day_list ->
  fst (for_each read_day l st) = inr st' ->
  (snd st = 0 /\ fst st = [])
  \/ (snd st = 1 /\ fst st <> []
      /\ exists v, In v year_day_list /\ day_result v = inr (fst st))
  \/ (2 <= snd st /\ fst st <> []
      /\ labels (fst st) = seq 0 (List.length (fst st))) ->
  (snd st' = 0 /\ fst st' = [])
  \/ (snd st' = 1 /\ fst st' <> []
      /\ exists v, In v year_day_list /\ day_result v = inr (fst st'))
  \/ (2 <= snd st' /\ fst st' <> []
      /\ labels (fst st') = seq 0 (List.length (fst st'))).
Proof.
  induction l as [| value l IH]; intros st st' Hincl H Hst.
  - simpl in H. injection H as H. subst st'. exact Hst.
  - rewrite loop_cons in H.
    destruct (day_result value) as [e | read_df] eqn:E; [discriminate |].
    cbn [fst] in H.
    apply (IH (after_day st read_df) st');
      [intros v Hv; apply Hincl; right; exact Hv | exact H |].
    unfold after_day. destruct (empty read_df) eqn:Er; [exact Hst |].
    cbn [fst snd].
    destruct Hst as [[Hc Hd] | [[Hc [Hd _]] | [Hc [Hd _]]]].
    + rewrite Hd. cbn [empty]. right. left.
      split; [lia |]. split; [intros E'; subst read_df; discriminate |].
      exists value. split; [apply Hincl; left; reflexivity | exact E].
    + destruct (empty (fst st)) eqn:Es;
        [apply empty_nil in Es; contradiction |].
      right. right. split; [lia |]. split; [| apply labels_concat].
      intros E'. apply (f_equal records) in E'. rewrite records_concat in E'.
      apply app_eq_nil in E'. destruct E' as [E' _].
      apply empty_records in E'. congruence.
    + destruct (empty (fst st)) eqn:Es;
        [apply empty_nil in Es; contradiction |].
      right. right. split; [lia |]. split; [| apply labels_concat].
      intros E'. apply (f_equal records) in E'. rewrite records_concat in E'.
      apply app_eq_nil in E'. destruct E' as [E' _].
      apply empty_records in E'. congruence.
Qed.

(** X4: when exactly one day yielded data, the frame [read_several_reports]
    returns is the frame [read_report] returned for that day, with the
    labels its rows had in the report; when two or more did, the rows are
    labelled 0, 1, 2, ... *)
Theorem read_several_reports_labels year_day_list save_name df counter :
  fst (read_several_reports_counted URL_FINTRAFFIC server to_parquet_raises tms_id year_day_list
         direction hour_from hour_to delete_if_faulty save_name)
  = inr (df, counter) ->
  (counter = 1 ->
   exists value, In value year_day_list /\ day_result value = inr df)
  /\ (2 <= counter -> labels df = seq 0 (List.length df)).
Proof.
  intros H.
  assert (Hc : fst (read_several_reports tms_id year_day_list direction
                      hour_from hour_to delete_if_faulty save_name) = inr df).
  { unfold load.read_several_reports. rewrite (bind_returned _ _ H).
    reflexivity. }
  destruct (returned_inv _ _ Hc) as [Hw [_ [He [c Hl]]]].
  rewrite (read_several_reports_counted_valid URL_FINTRAFFIC server to_parquet_raises tms_id
             direction hour_from hour_to delete_if_faulty year_day_list
             save_name Hw) in H.
  apply bind_inr in H. destruct H as [st [Hst H]].
  rewrite Hl in Hst. injection Hst as Hst. subst st. cbn [fst snd] in H.
  rewrite He in H. rewrite assert_true, bind_ret in H.
  apply bind_inr in H. destruct H as [u [_ H]].
  apply bind_inr in H. destruct H as [u' [_ H]].
  injection H as H. subst c.
  assert (Hsh : (snd (@nil (nat * Col.row), 0) = 0
                 /\ fst (@nil (nat * Col.row), 0) = [])
                \/ (snd (@nil (nat * Col.row), 0) = 1
                    /\ fst (@nil (nat * Col.row), 0) <> []
                    /\ exists v, In v year_day_list
                                 /\ day_result v
                                    = inr (fst (@nil (nat * Col.row), 0)))
                \/ (2 <= snd (@nil (nat * Col.row), 0)
                    /\ fst (@nil (nat * Col.row), 0) <> []
                    /\ labels (fst (@nil (nat * Col.row), 0))
                       = seq 0 (List.length (fst (@nil (nat * Col.row), 0))))).
  { left. split; reflexivity. }
  pose proof (@loop_shape year_day_list year_day_list ([], 0) (df, counter)
                (incl_refl _) Hl Hsh) as Hshape.
  cbn [fst snd] in Hshape.
  destruct Hshape as [[Hc0 Hd] | [[Hc1 [_ Hv]] | [Hc2 [_ Hlab]]]].
  - subst df. discriminate.
  - split; [intros _; exact Hv | lia].
  - split; [lia | intros _; exact Hlab].
Qed.

(** X5: when the retrieval of a day raises after the days before it have
    returned, [read_several_reports] raises the same exception, whatever
    the earlier days yielded, and nothing is done for the days after it. *)
Theorem read_several_reports_aborts pre value post save_name e :
  window_ok direction hour_from hour_to = true ->
  Forall returns pre ->
  day_result value = inl e ->
  read_several_reports tms_id (pre ++ value :: post)%list direction hour_from
    hour_to delete_if_faulty save_name
  = (inl e, (snd (for_each read_day pre ([], 0)) ++ day_events value)%list).
Proof.
  intros Hw Hpre Hv.
  rewrite (read_several_reports_run _ save_name Hw).
  unfold load_more_props.several_outcome.
  rewrite for_each_app.
  destruct (loop_returns ([], 0) Hpre) as [st1 E1].
  rewrite (bind_returned _ _ E1), loop_cons, Hv. reflexivity.
Qed.

(** What [read_several_reports] writes: nothing, or it has called
    [to_parquet] once, with the file name and the frame of its loop, and
    returns that frame unless the call raised. *)
Lemma several_writes year_day_list save_name :
  let r := read_several_reports tms_id year_day_list direction hour_from
             hour_to delete_if_faulty save_name in
  (filter is_write (snd r) = [] /\ (forall df, fst r = inr df -> save_name = None))
  \/ exists name df,
       save_name = Some name
       /\ filter is_write (snd r) = [ToParquet name df]
       /\ fst r = match to_parquet_raises name df with
                  | Some e => inl e
                  | None => inr df
                  end.
Proof.
  intros r. unfold r.
  destruct (window_ok direction hour_from hour_to) eqn:Hw.
  - rewrite (read_several_reports_run year_day_list save_name Hw).
    unfold load_more_props.several_outcome.
    pose proof (loop_writes_nothing year_day_list ([], 0)) as Hn.
    destruct (fst (for_each read_day year_day_list ([], 0))) as [e | st].
    + left. cbn [fst snd]. split; [exact Hn | discriminate].
    + destruct (empty (fst st)).
      * left. cbn [fst snd]. split; [exact Hn | discriminate].
      * destruct save_name as [name |];
          [destruct (endswith (lower name) ".gzip") |].
        -- right. exists name, (fst st). split; [reflexivity |].
           destruct (to_parquet_raises name (fst st)); cbn [fst snd];
             rewrite !filter_app, Hn; split; reflexivity.
        -- left. cbn [fst snd]. rewrite filter_app, Hn.
           split; [reflexivity | discriminate].
        -- left. cbn [fst snd]. rewrite filter_app, Hn.
           split; [reflexivity | intros; reflexivity].
  - destruct (read_several_reports_invalid_window URL_FINTRAFFIC server to_parquet_raises tms_id
                direction hour_from hour_to delete_if_faulty year_day_list
                save_name Hw) as [msg E].
    rewrite E. left. split; [reflexivity | discriminate].
Qed.

(** X6: [read_several_reports] calls [to_parquet] only when it is given a
    file name: then at most once, under that name, on the frame of the
    loop, and it returns that frame unless the call raises, in which case
    it raises the same.  A call that returns with a file name has written
    once, the frame it returns, and the writing did not raise; the
    retrievals of the single days write nothing. *)
Theorem read_several_reports_writes year_day_list save_name :
  let r := read_several_reports tms_id year_day_list direction hour_from
             hour_to delete_if_faulty save_name in
  (forall name df,
      In (ToParquet name df) (snd r) ->
      save_name = Some name
      /\ filter is_write (snd r) = [ToParquet name df]
      /\ fst r = match to_parquet_raises name df with
                 | Some e => inl e
                 | None => inr df
                 end)
  /\ (forall name df,
        save_name = Some name -> fst r = inr df ->
        filter is_write (snd r) = [ToParquet name df]
        /\ to_parquet_raises name df = None)
  /\ Forall (fun v => filter is_write (day_events v) = []) year_day_list.
Proof.
  intros r. pose proof (several_writes year_day_list save_name) as Hw.
  fold r in Hw. cbv zeta in Hw. split; [| split].
  - intros name df Hin.
    assert (Hf : In (ToParquet name df) (filter is_write (snd r))).
    { apply filter_In. split; [exact Hin | reflexivity]. }
    destruct Hw as [[Hn _] | [name' [df' [Hs [Hn Hr]]]]];
      rewrite Hn in Hf; [destruct Hf |].
    destruct Hf as [Hf | []]. injection Hf as En Ed. subst name' df'.
    auto.
  - intros name df Hs Hr.
    destruct Hw as [[_ Hnone] | [name' [df' [Hs' [Hn Hr']]]]].
    + rewrite (Hnone df Hr) in Hs. discriminate.
    + rewrite Hs in Hs'. injection Hs' as Hs'. subst name'.
      rewrite Hr in Hr'.
      destruct (to_parquet_raises name df') eqn:Et; [discriminate |].
      injection Hr' as Hr'. subst df'. auto.
  - apply Forall_forall. intros v _. apply day_writes_nothing.
Qed.

(** X7: a file name that does not end in [.gzip] is found only after the
    loop: when the days return and one of them yields data, the call fails
    on the file name after the same requests as a call without file name,
    which returns; nothing is written. *)
Theorem read_several_reports_late_file_name year_day_list name :
  window_ok direction hour_from hour_to = true ->
  Forall returns year_day_list ->
  Exists yields_data year_day_list ->
  endswith (lower name) ".gzip" = false ->
  let r := read_several_reports tms_id year_day_list direction hour_from
             hour_to delete_if_faulty (Some name) in
  let r0 := read_several_reports tms_id year_day_list direction hour_from
              hour_to delete_if_faulty None in
  fst r = inl (AssertionError msg_filename)
  /\ (exists df, fst r0 = inr df)
  /\ snd r = snd r0
  /\ filter is_write (snd r) = [].
Proof.
  intros Hw Hret Hdata Hname r r0. unfold r, r0.
  rewrite !(read_several_reports_run _ _ Hw).
  unfold load_more_props.several_outcome.
  destruct (loop_returns ([], 0) Hret) as [st E]. rewrite E.
  destruct (loop_records URL_FINTRAFFIC server to_parquet_raises tms_id direction hour_from
              hour_to delete_if_faulty year_day_list E) as [_ [Hrec _]].
  assert (He : empty (fst st) = false).
  { destruct (empty (fst st)) eqn:Ee; [| reflexivity]. exfalso.
    apply empty_records in Ee. rewrite Hrec in Ee.
    assert (Hall : Forall (yields_empty URL_FINTRAFFIC server to_parquet_raises tms_id direction
                             hour_from hour_to delete_if_faulty)
                     year_day_list).
    { apply all_yield_empty. split; assumption. }
    apply Exists_exists in Hdata. destruct Hdata as [v [Hin [df [Hv Hne]]]].
    rewrite Forall_forall in Hall. destruct (Hall v Hin) as [df' [Hv' He']].
    unfold load_props.day_result in Hv, Hv'. rewrite Hv in Hv'.
    injection Hv' as Hv'. subst df'. congruence. }
  rewrite He, Hname. cbn [fst snd].
  split; [reflexivity |]. split; [exists (fst st); reflexivity |].
  split; [reflexivity |].
  rewrite filter_app, loop_writes_nothing. reflexivity.
Qed.

End Several.

Section Report.

Variables (tms_id year day direction hour_from hour_to : Z).
Variable delete_if_faulty : bool.
Variable save_name : option string.

Let call := read_report tms_id year day direction hour_from hour_to
              delete_if_faulty save_name.

Let url := make_url tms_id year day.

(** X8: [read_report] makes at most two requests, both for the URL of the
    day: the status request and then, unless the status is 404, the reading
    of the report.  A call that returns has made both, or has made the
    first only and returns the empty frame of a missing day. *)
Theorem read_report_requests :
  let n := network_events (snd call) in
  (n = [] \/ n = [RequestsGet url] \/ n = [RequestsGet url; ReadCsv url])
  /\ (forall df,
        fst call = inr df ->
        n = [RequestsGet url; ReadCsv url]
        \/ (n = [RequestsGet url] /\ df = []
            /\ exists body, server url = Reply 404 body)).
Proof.
  intros n. unfold n, call, url.
  destruct (read_report_outcome URL_FINTRAFFIC server to_parquet_raises tms_id year day direction
              hour_from hour_to delete_if_faulty save_name)
    as [[msg [_ E]] | E]; rewrite E.
  - split; [left; reflexivity | discriminate].
  - unfold report_outcome.
    destruct (server (make_url tms_id year day)) as [status_code body |];
      [| split; [right; left; reflexivity | discriminate]].
    destruct (Z.eqb_spec status_code 404) as [E4 | E4].
    + subst status_code. split.
      * right. left. destruct save_name; reflexivity.
      * intros df H. right. injection H as H. subst df.
        split; [destruct save_name; reflexivity |].
        split; [reflexivity |]. exists body. reflexivity.
    + destruct ((200 <=? status_code) && (status_code <? 300));
        [| split; [right; right; reflexivity | discriminate]].
      destruct (fst (date_of_year_day year day));
        [split; [right; right; reflexivity | discriminate] |].
      destruct save_name as [name |];
        [destruct (endswith (lower name) ".gzip");
           [destruct (to_parquet_raises name _) |] |];
        (split; [right; right; reflexivity |]);
        try discriminate; intros df _; left; reflexivity.
Qed.

(** What [read_report] writes: nothing, or, for a day that exists, it has
    called [to_parquet] once, with the file name and the cleaned frame,
    and returns that frame unless the call raised. *)
Lemma report_writes :
  (filter is_write (snd call) = []
   /\ ((exists body, server url = Reply 404 body)
       \/ forall df, fst call = inr df -> save_name = None))
  \/ exists name df,
       save_name = Some name
       /\ (forall body, server url <> Reply 404 body)
       /\ filter is_write (snd call) = [ToParquet name df]
       /\ fst call = match to_parquet_raises name df with
                     | Some e => inl e
                     | None => inr df
                     end.
Proof.
  unfold call, url.
  destruct (read_report_outcome URL_FINTRAFFIC server to_parquet_raises tms_id year day direction
              hour_from hour_to delete_if_faulty save_name)
    as [[msg [_ E]] | E]; rewrite E.
  - left. split; [reflexivity | right; discriminate].
  - unfold report_outcome.
    destruct (server (make_url tms_id year day)) as [status_code body |];
      [| left; split; [reflexivity | right; discriminate]].
    destruct (Z.eqb_spec status_code 404) as [E4 | E4].
    { subst status_code. left.
      split; [destruct save_name; reflexivity | left; exists body; reflexivity]. }
    destruct ((200 <=? status_code) && (status_code <? 300));
      [| left; split; [reflexivity | right; discriminate]].
    destruct (fst (date_of_year_day year day)) as [e | d];
      [left; split; [reflexivity | right; discriminate] |].
    destruct save_name as [name |];
      [destruct (endswith (lower name) ".gzip") |].
    + right.
      exists name, (cleaned direction hour_from hour_to delete_if_faulty d body).
      split; [reflexivity |].
      split; [intros body' H; congruence |].
      destruct (to_parquet_raises name _); split; reflexivity.
    + left. split; [reflexivity | right; discriminate].
    + left. split; [reflexivity | right; intros; reflexivity].
Qed.

(** X9: [read_report] calls [to_parquet] only when the day exists on the
    server and a file name is given: then at most once, under that name, on
    the cleaned frame, and it returns that frame unless the call raises, in
    which case it raises the same.  For a missing day it writes nothing,
    whatever the file name; a call that returns for a day that exists, with
    a file name, has written once, the frame it returns, and the writing
    did not raise. *)
Theorem read_report_writes :
  (forall name df,
      In (ToParquet name df) (snd call) ->
      save_name = Some name
      /\ filter is_write (snd call) = [ToParquet name df]
      /\ fst call = match to_parquet_raises name df with
                    | Some e => inl e
                    | None => inr df
                    end)
  /\ (forall body, server url = Reply 404 body -> filter is_write (snd call) = [])
  /\ (forall name df status_code body,
        save_name = Some name ->
        fst call = inr df ->
        server url = Reply status_code body ->
        status_code <> 404 ->
        filter is_write (snd call) = [ToParquet name df]
        /\ to_parquet_raises name df = None).
Proof.
  pose proof report_writes as Hw. split; [| split].
  - intros name df Hin.
    assert (Hf : In (ToParquet name df) (filter is_write (snd call))).
    { apply filter_In. split; [exact Hin | reflexivity]. }
    destruct Hw as [[Hn _] | [name' [df' [Hs [_ [Hn Hr]]]]]];
      rewrite Hn in Hf; [destruct Hf |].
    destruct Hf as [Hf | []]. injection Hf as En Ed. subst name' df'.
    auto.
  - intros body Hb.
    destruct Hw as [[Hn _] | [name' [df' [_ [H4 _]]]]]; [exact Hn |].
    destruct (H4 body Hb).
  - intros name df status_code body Hs Hr Hb H4.
    destruct Hw as [[_ [[body' Hb'] | Hnone]] | [name' [df' [Hs' [_ [Hn Hr']]]]]].
    + rewrite Hb in Hb'. injection Hb' as Hb' _. contradiction.
    + rewrite (Hnone df Hr) in Hs. discriminate.
    + rewrite Hs in Hs'. injection Hs' as Hs'. subst name'.
      rewrite Hr in Hr'.
      destruct (to_parquet_raises name df') eqn:Et; [discriminate |].
      injection Hr' as Hr'. subst df'. auto.
Qed.

End Report.

End WithServer.

(** *** Day 366 *)

Lemma days_before_next_year year :
  is_leap year = false ->
  days_before_year (year + 1) = days_before_year year + 365.
Proof.
  unfold is_leap, days_before_year. intros H.
  apply orb_false_iff in H. destruct H as [H4 H400].
  apply Z.eqb_neq in H400.
  replace (year + 1 - 1) with year by lia.
  destruct (Z.eqb_spec (year mod 4) 0) as [E4 | E4].
  - simpl in H4. apply negb_false_iff in H4. apply Z.eqb_eq in H4.
    Z.div_mod_to_equations. lia.
  - Z.div_mod_to_equations. lia.
Qed.

(** X10: day 366 passes the check on the day in every year; in a year that
    is not a leap year the rows are then dated as those of day 1 of the
    next year. *)
Theorem day_366_of_common_year year :
  1995 <= year <= 9998 ->
  is_leap year = false ->
  year_day_ok (year, 366) = true
  /\ date_of_year_day year 366 = date_of_year_day (year + 1) 1
  /\ exists d, date_of_year_day year 366 = (inr d, []).
Proof.
  intros Hy Hl. pose proof (days_before_next_year year Hl) as Hn.
  assert (Hb : days_before_year year + 1 + (366 - 1) <= max_ordinal).
  { unfold days_before_year, max_ordinal. Z.div_mod_to_equations. lia. }
  split; [| split].
  - unfold year_day_ok. cbn [fst snd].
    destruct (Z.leb_spec 1995 year); [reflexivity | lia].
  - unfold date_of_year_day, MAXYEAR.
    destruct (Z.ltb_spec 9999 year); [lia |].
    destruct (Z.ltb_spec 9999 (year + 1)); [lia |].
    rewrite Hn.
    replace (days_before_year year + 365 + 1 + (1 - 1))
      with (days_before_year year + 1 + (366 - 1)) by lia.
    reflexivity.
  - unfold date_of_year_day, MAXYEAR.
    destruct (Z.ltb_spec 9999 year); [lia |].
    destruct (Z.ltb_spec max_ordinal (days_before_year year + 1 + (366 - 1)));
      [lia |].
    eexists. reflexivity.
Qed.

Lemma day_366_of_common_year_witness :
  (1995 <= 2021 <= 9998)
  /\ is_leap 2021 = false
  /\ date_of_year_day 2021 366 = date_of_year_day 2022 1.
Proof.
  split; [lia |]. split; [reflexivity |].
  destruct (day_366_of_common_year (year := 2021)) as [_ [H _]];
    [lia | reflexivity | exact H].
Defined.

(** *** The loader on the sample servers, again *)

Lemma read_several_reports_clean_witness :
  exists df,
    fst (read_several_reports sample_url gappy_server sample_writer 123
           [(2021, 1); (2021, 4); (2021, 3)] 1 6 20 true None) = inr df
    /\ List.length df = 3%nat
    /\ Forall (clean_row 1 6 20 true) (records df).
Proof.
  eexists. split; [vm_compute; reflexivity |]. split; [reflexivity |].
  apply (read_several_reports_clean sample_url gappy_server sample_writer 123 1 6 20 true
           [(2021, 1); (2021, 4); (2021, 3)] None).
  vm_compute. reflexivity.
Defined.

Lemma read_several_reports_dates_witness :
  exists df,
    fst (read_several_reports sample_url gappy_server sample_writer 123
           [(2021, 1); (2021, 4); (2021, 3)] 1 6 20 true None) = inr df
    /\ Forall (fun r =>
                 exists value,
                   In value [(2021, 1); (2021, 4); (2021, 3)]
                   /\ yields_data sample_url gappy_server sample_writer 123 1 6 20 true value
                   /\ Col.date r = date_of value)
         (records df).
Proof.
  eexists. split; [vm_compute; reflexivity |].
  apply (read_several_reports_dates sample_url gappy_server sample_writer 123 1 6 20 true
           [(2021, 1); (2021, 4); (2021, 3)] None).
  vm_compute. reflexivity.
Defined.

Lemma read_several_reports_count_bounds_witness :
  exists df,
    fst (read_several_reports_counted sample_url gappy_server sample_writer 123
           [(2021, 1); (2021, 4); (2021, 3)] 1 6 20 true None) = inr (df, 2)
    /\ 1 <= 2 <= Z.of_nat (List.length [(2021, 1); (2021, 4); (2021, 3)])
    /\ df <> [].
Proof.
  eexists. split; [vm_compute; reflexivity |].
  apply (read_several_reports_count_bounds sample_url gappy_server sample_writer 123 1 6 20
           true [(2021, 1); (2021, 4); (2021, 3)] None).
  vm_compute. reflexivity.
Defined.

Lemma read_several_reports_labels_witness :
  (exists df,
      fst (read_several_reports_counted sample_url gappy_server sample_writer 123
             [(2021, 4); (2021, 1)] 1 6 20 true None) = inr (df, 1)
      /\ labels df = [0; 2]%nat
      /\ exists value,
          In value [(2021, 4); (2021, 1)]
          /\ day_result sample_url gappy_server sample_writer 123 1 6 20 true value = inr df)
  /\ (exists df,
        fst (read_several_reports_counted sample_url gappy_server sample_writer 123
               [(2021, 1); (2021, 3)] 1 6 20 true None) = inr (df, 2)
        /\ labels df = seq 0 (List.length df)).
Proof.
  split.
  - eexists. split; [vm_compute; reflexivity |]. split; [reflexivity |].
    refine (proj1 (read_several_reports_labels sample_url gappy_server sample_writer 123
                     1 6 20 true [(2021, 4); (2021, 1)] None (counter := 1) _)
              eq_refl).
    vm_compute. reflexivity.
  - eexists. split; [vm_compute; reflexivity |].
    refine (proj2 (read_several_reports_labels sample_url gappy_server sample_writer 123
                     1 6 20 true [(2021, 1); (2021, 3)] None (counter := 2) _)
              _); [vm_compute; reflexivity | lia].
Defined.

Lemma read_several_reports_aborts_witness :
  window_ok 1 6 20 = true
  /\ day_result sample_url gappy_server sample_writer 123 1 6 20 true (2021, 2)
     = inl (HTTPError 500)
  /\ fst (read_several_reports sample_url gappy_server sample_writer 123
            [(2021, 1); (2021, 2); (2021, 3)] 1 6 20 true None)
     = inl (HTTPError 500).
Proof.
  split; [reflexivity |]. split; [vm_compute; reflexivity |].
  refine (f_equal fst
            (@read_several_reports_aborts sample_url gappy_server sample_writer 123 1 6 20
               true [(2021, 1)] (2021, 2) [(2021, 3)] None (HTTPError 500)
               eq_refl _ _)).
  - repeat constructor. eexists. vm_compute. reflexivity.
  - vm_compute. reflexivity.
Defined.

Lemma read_several_reports_late_file_name_witness :
  window_ok 1 6 20 = true
  /\ endswith (lower "day1.csv") ".gzip" = false
  /\ fst (read_several_reports sample_url gappy_server sample_writer 123
            [(2021, 1); (2021, 3)] 1 6 20 true (Some "day1.csv"))
     = inl (AssertionError msg_filename)
  /\ exists df,
      fst (read_several_reports sample_url gappy_server sample_writer 123
             [(2021, 1); (2021, 3)] 1 6 20 true None) = inr df.
Proof.
  split; [reflexivity |]. split; [reflexivity |].
  destruct (@read_several_reports_late_file_name sample_url gappy_server sample_writer 123
              1 6 20 true [(2021, 1); (2021, 3)] "day1.csv")
    as [H1 [H2 _]].
  - reflexivity.
  - repeat constructor; eexists; vm_compute; reflexivity.
  - left. eexists. split; vm_compute; reflexivity.
  - reflexivity.
  - split; [exact H1 | exact H2].
Defined.

End load_more.

(* ------------------------------------------------------------------ *)
(** ** Properties of the reading of a saved file *)

Module load_gzip_facts.
Import py load load_props load_more_props load_facts load_more load_gzip.

(** X11: [read_gzip_ft] returns a frame exactly when the path ends in
    [.gzip] (in any case of the letters), the file exists, is not empty and
    is read by [pd.read_parquet] as that frame. *)
Theorem read_gzip_ft_returns (fs : filesystem) filepath df :
  fst (read_gzip_ft fs filepath) = inr df
  <-> endswith (lower filepath) ".gzip" = true
      /\ exists f, fs filepath = Some f /\ size f <> 0 /\ parquet f = inr df.
Proof.
  unfold read_gzip_ft.
  destruct (endswith (lower filepath) ".gzip"); cbn [negb].
  - destruct (fs filepath) as [f |].
    + destruct (Z.eqb_spec (size f) 0) as [E | E]; cbn [negb].
      * split; [discriminate |]. intros [_ [f' [Hf [Hs _]]]].
        injection Hf as Hf. subst f'. contradiction.
      * destruct (parquet f) as [e | df'] eqn:Ep; cbn [fst].
        -- split; [discriminate |]. intros [_ [f' [Hf [_ Hp]]]].
           injection Hf as Hf. subst f'. congruence.
        -- split.
           ++ intros H. injection H as H. subst df'.
              split; [reflexivity |]. exists f. auto.
           ++ intros [_ [f' [Hf [_ Hp]]]]. injection Hf as Hf. subst f'.
              congruence.
    + split; [discriminate |]. intros [_ [f [Hf _]]]. discriminate.
  - split; [discriminate |]. intros [H _]. discriminate.
Qed.

(** X12: with a path that does not end in [.gzip], [read_gzip_ft] raises
    the [AssertionError] without a look at the file system, whether the
    file exists or not; with a path that does, a missing or empty file
    raises the [Exception] and [pd.read_parquet] is not called. *)
Theorem read_gzip_ft_fails (fs : filesystem) filepath :
  (endswith (lower filepath) ".gzip" = false ->
   fst (read_gzip_ft fs filepath) = inl (Builtin (AssertionError msg_wrong_format))
   /\ filter touches_files (snd (read_gzip_ft fs filepath)) = [])
  /\ (endswith (lower filepath) ".gzip" = true ->
      (fs filepath = None \/ exists f, fs filepath = Some f /\ size f = 0) ->
      fst (read_gzip_ft fs filepath) = inl (Exception msg_missing)
      /\ ~ In (ReadParquet filepath) (snd (read_gzip_ft fs filepath))).
Proof.
  unfold read_gzip_ft. split.
  - intros H. rewrite H. split; reflexivity.
  - intros H Hf. rewrite H. cbn [negb].
    destruct Hf as [Hf | [f [Hf Hs]]]; rewrite Hf.
    + split; [reflexivity |]. simpl. intuition discriminate.
    + rewrite Hs. split; [reflexivity |]. simpl. intuition discriminate.
Qed.

Section Writing.

Variable parquet_size : DataFrame -> Z.
Variable to_parquet_raises : string -> DataFrame -> option exn.
Variable failed_to_parquet : string -> DataFrame -> filesystem -> filesystem.
Hypothesis parquet_size_pos : forall df, 0 < parquet_size df.

#[local] Abbreviation files_after :=
  (files_after parquet_size to_parquet_raises failed_to_parquet).
#[local] Abbreviation to_parquet := (to_parquet parquet_size).

(** Only the writes among the events change the files. *)
Lemma files_after_writes evs : forall fs,
  files_after evs fs = files_after (filter is_write evs) fs.
Proof.
  induction evs as [| ev evs IH]; intros fs.
  - reflexivity.
  - destruct ev; simpl; apply IH.
Qed.

(** A file name that the saving step accepts ends in .gzip. *)
Lemma save_raises_name name df :
  save_raises to_parquet_raises (Some name) df = None ->
  endswith (lower name) ".gzip" = true /\ to_parquet_raises name df = None.
Proof.
  unfold save_raises.
  destruct (endswith (lower name) ".gzip"); [auto | discriminate].
Qed.

Lemma read_after_write name df (fs : filesystem) :
  endswith (lower name) ".gzip" = true ->
  fst (read_gzip_ft (to_parquet name df fs) name) = inr df.
Proof.
  intros H. unfold read_gzip_ft, load_gzip.to_parquet.
  rewrite H, String.eqb_refl. cbn [negb size parquet].
  pose proof (parquet_size_pos df) as Hp.
  destruct (Z.eqb_spec (parquet_size df) 0); [lia | reflexivity].
Qed.

(** X13: a frame saved by [read_several_reports] is read back by
    [read_gzip_ft]: after a call with a file name that returns, reading
    that name gives the frame the call returned. *)
Theorem read_several_reports_then_read_gzip_ft
    URL_FINTRAFFIC server tms_id year_day_list direction hour_from hour_to
    delete_if_faulty name df (fs : filesystem) :
  let r := read_several_reports URL_FINTRAFFIC server to_parquet_raises tms_id year_day_list
             direction hour_from hour_to delete_if_faulty (Some name) in
  fst r = inr df ->
  fst (read_gzip_ft (files_after (snd r) fs) name) = inr df.
Proof.
  intros r H.
  destruct (returned_inv URL_FINTRAFFIC server to_parquet_raises tms_id direction hour_from
              hour_to delete_if_faulty year_day_list (Some name) H)
    as [_ [Hs _]].
  apply save_raises_name in Hs. destruct Hs as [Hn Ht].
  rewrite files_after_writes.
  pose proof (several_writes URL_FINTRAFFIC server to_parquet_raises tms_id direction
                hour_from hour_to delete_if_faulty year_day_list (Some name))
    as Hsw.
  cbv zeta in Hsw. fold r in Hsw.
  destruct Hsw as [[_ Hnone] | [name' [df' [Hs' [Hw Hr]]]]].
  - discriminate (Hnone df H).
  - injection Hs' as Hs'. subst name'. rewrite H in Hr.
    destruct (to_parquet_raises name df') eqn:Et'; [discriminate |].
    injection Hr as Hr. subst df'.
    rewrite Hw. cbn [load_gzip.files_after]. rewrite Ht.
    apply read_after_write. exact Hn.
Qed.

(** X14: a frame saved by [read_report] is read back by [read_gzip_ft]:
    after a call with a file name that returns for a day the server has,
    reading that name gives the frame the call returned. *)
Theorem read_report_then_read_gzip_ft
    URL_FINTRAFFIC server tms_id year day direction hour_from hour_to
    delete_if_faulty name df status_code body (fs : filesystem) :
  let r := read_report URL_FINTRAFFIC server to_parquet_raises tms_id year day direction
             hour_from hour_to delete_if_faulty (Some name) in
  fst r = inr df ->
  server (make_url URL_FINTRAFFIC tms_id year day) = Reply status_code body ->
  status_code <> 404 ->
  fst (read_gzip_ft (files_after (snd r) fs) name) = inr df.
Proof.
  intros r H Hs Hne. unfold r in *.
  destruct (read_report_outcome URL_FINTRAFFIC server to_parquet_raises tms_id year day direction
              hour_from hour_to delete_if_faulty (Some name))
    as [[msg [_ E]] | E]; rewrite E in *; [discriminate |].
  unfold report_outcome in *. rewrite Hs in *.
  destruct (Z.eqb_spec status_code 404) as [E4 | _]; [contradiction |].
  destruct ((200 <=? status_code) && (status_code <? 300)); [| discriminate].
  destruct (fst (date_of_year_day year day)) as [e | d]; [discriminate |].
  destruct (endswith (lower name) ".gzip") eqn:En; [| discriminate].
  destruct (to_parquet_raises name _) eqn:Et; [discriminate |].
  cbn [fst snd] in *. injection H as H. subst df.
  cbn [app load_gzip.files_after]. rewrite Et.
  apply read_after_write. exact En.
Qed.

End Writing.

Lemma read_several_reports_then_read_gzip_ft_witness :
  (forall df : DataFrame, 0 < 1)
  /\ exists df,
      fst (read_several_reports sample_url gappy_server sample_writer 123
             [(2021, 1); (2021, 3)] 1 6 20 true (Some "days.gzip")) = inr df
      /\ fst (read_gzip_ft
                (files_after (fun _ => 1) sample_writer (fun _ _ fs => fs)
                   (snd (read_several_reports sample_url gappy_server sample_writer 123
                           [(2021, 1); (2021, 3)] 1 6 20 true
                           (Some "days.gzip")))
                   sample_files)
                "days.gzip") = inr df.
Proof.
  split; [intros _; lia |].
  eexists. split; [vm_compute; reflexivity |].
  apply (@read_several_reports_then_read_gzip_ft (fun _ => 1) sample_writer
           (fun _ _ fs => fs) (fun _ => eq_refl) sample_url gappy_server 123
           [(2021, 1); (2021, 3)] 1 6 20 true "days.gzip").
  vm_compute. reflexivity.
Defined.

Lemma read_report_then_read_gzip_ft_witness :
  (forall df : DataFrame, 0 < 1)
  /\ exists df,
      fst (read_report sample_url gappy_server sample_writer 123 2021 1 1 6 20 true
             (Some "day1.gzip")) = inr df
      /\ fst (read_gzip_ft
                (files_after (fun _ => 1) sample_writer (fun _ _ fs => fs)
                   (snd (read_report sample_url gappy_server sample_writer 123 2021 1 1 6 20
                           true (Some "day1.gzip")))
                   sample_files)
                "day1.gzip") = inr df.
Proof.
  split; [intros _; lia |].
  eexists. split; [vm_compute; reflexivity |].
  apply (@read_report_then_read_gzip_ft (fun _ => 1) sample_writer
           (fun _ _ fs => fs) (fun _ => eq_refl)
           sample_url gappy_server 123 2021 1 1 6 20 true "day1.gzip" _ 200
           [Csv.Line 3000000 1 1 0 []; Csv.Line 3000000 1 3 1 [];
            Csv.Line 3100000 1 2 0 []]).
  - vm_compute. reflexivity.
  - vm_compute. reflexivity.
  - discriminate.
Defined.

End load_gzip_facts.

(* ------------------------------------------------------------------ *)
(** ** Further properties of the orchestrator *)

Module fintraffic_more.
Import py fintraffic fintraffic_props fintraffic_more_props fintraffic_facts.

Section WithSolver.

Variables Num Sol : Type.
Variable fsub : Num -> Num -> Num.
Variable perf_counter : nat -> Num.
Variable beta_default_lb : Num.
Variable wCQR_check : list Num -> list Num -> list Num -> Num -> option exn.
Variable solve : option string -> wCQR Num Sol -> exn + Sol.

#[local] Abbreviation fit :=
  (fit fsub perf_counter beta_default_lb wCQR_check solve).
#[local] Abbreviation weighted_model :=
  (weighted_model fsub perf_counter beta_default_lb wCQR_check solve).
#[local] Abbreviation fit_outcome :=
  (fit_outcome fsub perf_counter beta_default_lb wCQR_check solve).
#[local] Abbreviation fit_succeeds :=
  (fit_succeeds beta_default_lb wCQR_check solve).
#[local] Abbreviation fit_fails :=
  (fit_fails beta_default_lb wCQR_check solve).
#[local] Abbreviation stored := (stored beta_default_lb solve).
#[local] Abbreviation durations := (durations fsub perf_counter).
#[local] Abbreviation model_for := (model_for Sol beta_default_lb).
#[local] Abbreviation state := (state Num Sol).
#[local] Abbreviation M := (M Num Sol).

Lemma fits_app (body : Num -> M unit) l1 l2 (s : state) :
  for_each body (l1 ++ l2)%list s
  = match for_each body l1 s with
    | (inl e, s') => (inl e, s')
    | (inr _, s') => for_each body l2 s'
    end.
Proof.
  revert s. induction l1 as [| t l1 IH]; intros s.
  - reflexivity.
  - simpl app. rewrite !for_each_cons.
    destruct (body t s) as [[e | u] s']; [reflexivity | apply IH].
Qed.

Lemma durations_succ t0 k :
  durations t0 (S k)
  = fsub (perf_counter (S t0)) (perf_counter t0) :: durations (S (S t0)) k.
Proof.
  unfold fintraffic_more_props.durations.
  cbn [seq map]. rewrite <- seq_shift, map_map.
  f_equal.
  - f_equal; f_equal; lia.
  - apply map_ext. intros i. f_equal; f_equal; lia.
Qed.

(** A fit that succeeds: what it returns and the state it leaves. *)
Lemma fit_success email t (s : state) bag wt sol models times :
  bag_data (self s) = Some bag ->
  weight (self s) = Some wt ->
  wCQR_check (centroid_flow bag) (centroid_density bag) wt t = None ->
  solve email (model_for bag wt t) = inr sol ->
  bagged_model (self s) = Some models ->
  time_weighted (self s) = Some times ->
  let r := fit email t s in
  fst r = inr tt
  /\ ticks (snd r) = S (S (ticks s))
  /\ bag_data (self (snd r)) = Some bag
  /\ weight (self (snd r)) = Some wt
  /\ bagged_model (self (snd r))
     = Some (models ++ [set_solution sol (model_for bag wt t)])%list
  /\ time_weighted (self (snd r))
     = Some (times ++ [fsub (perf_counter (S (ticks s)))
                         (perf_counter (ticks s))])%list.
Proof.
  intros Hb Hw Hc Hs Hm Ht r. unfold r. rewrite fit_run.
  unfold fintraffic_props.fit_outcome.
  rewrite Hb, Hw, Hc, Hs, Hm, Ht. cbn.
  rewrite Hb, Hw. repeat split; reflexivity.
Qed.

(** A fit that fails: the exception, and the object as it was. *)
Lemma fit_failure email t (s : state) bag wt e :
  bag_data (self s) = Some bag ->
  weight (self s) = Some wt ->
  fit_fails email bag wt t e ->
  let r := fit email t s in
  fst r = inl e /\ self (snd r) = self s.
Proof.
  intros Hb Hw Hf r. unfold r. rewrite fit_run.
  unfold fintraffic_props.fit_outcome. rewrite Hb, Hw.
  destruct Hf as [Hc | [Hc Hs]]; rewrite Hc; [| rewrite Hs];
    split; reflexivity.
Qed.

(** A fit that returns has found the bagged data and the weights, and
    the solver has accepted and solved the model. *)
Lemma fit_returned_inv email t (s : state) :
  fst (fit email t s) = inr tt ->
  exists bag wt sol,
    bag_data (self s) = Some bag
    /\ weight (self s) = Some wt
    /\ wCQR_check (centroid_flow bag) (centroid_density bag) wt t = None
    /\ solve email (model_for bag wt t) = inr sol.
Proof.
  rewrite fit_run. unfold fintraffic_props.fit_outcome.
  destruct (bag_data (self s)) as [bag |]; [| discriminate].
  destruct (weight (self s)) as [wt |]; [| discriminate].
  destruct (wCQR_check (centroid_flow bag) (centroid_density bag) wt t)
    as [refused |] eqn:Ec; [discriminate |].
  destruct (solve email (model_for bag wt t)) as [e | sol] eqn:Es;
    [discriminate |].
  intros _. exists bag, wt, sol. auto.
Qed.

(** The loop, when it returns: two clock readings and one stored model and
    duration for every quantile level, in order. *)
Lemma fits_returned email taus : forall (s : state) models times,
  bagged_model (self s) = Some models ->
  time_weighted (self s) = Some times ->
  let r := for_each (fit email) taus s in
  fst r = inr tt ->
  ticks (snd r) = (ticks s + 2 * List.length taus)%nat
  /\ bag_data (self (snd r)) = bag_data (self s)
  /\ weight (self (snd r)) = weight (self s)
  /\ time_weighted (self (snd r))
     = Some (times ++ durations (ticks s) (List.length taus))%list
  /\ exists fitted,
      bagged_model (self (snd r)) = Some (models ++ fitted)%list
      /\ forall bag wt,
          bag_data (self s) = Some bag ->
          weight (self s) = Some wt ->
          Forall2 (stored email bag wt) taus fitted.
Proof.
  induction taus as [| t taus IH]; intros s models times Hm Ht r Hr.
  - unfold r. simpl.
    split; [lia |]. split; [reflexivity |]. split; [reflexivity |].
    split; [rewrite app_nil_r; exact Ht |].
    exists []. split; [rewrite app_nil_r; exact Hm |].
    intros bag wt _ _. constructor.
  - unfold r in *. rewrite for_each_cons in *.
    destruct (fit email t s) as [[e | u] s'] eqn:E; [discriminate |].
    assert (Hf : fst (fit email t s) = inr tt).
    { rewrite E. destruct u. reflexivity. }
    destruct (fit_returned_inv email t s Hf) as [bag [wt [sol [Hb [Hw [Hc Hs]]]]]].
    destruct (@fit_success email t s bag wt sol models times Hb Hw Hc Hs Hm Ht)
      as [_ [Hticks [Hb' [Hw' [Hm' Ht']]]]].
    rewrite E in Hticks, Hb', Hw', Hm', Ht'. cbn [snd] in *.
    destruct (IH s' _ _ Hm' Ht' Hr) as [Hk [Hbk [Hwk [Htk [fitted [Hmk Hst]]]]]].
    split; [rewrite Hk, Hticks; simpl List.length; lia |].
    split; [rewrite Hbk, Hb', Hb; reflexivity |].
    split; [rewrite Hwk, Hw', Hw; reflexivity |].
    split.
    + rewrite Htk, Hticks, <- app_assoc. simpl List.length.
      rewrite durations_succ. reflexivity.
    + exists (set_solution sol (model_for bag wt t) :: fitted). split.
      * rewrite Hmk, <- app_assoc. reflexivity.
      * intros bag0 wt0 Hb0 Hw0.
        assert (bag0 = bag) by congruence. assert (wt0 = wt) by congruence.
        subst bag0 wt0. constructor.
        -- exists sol. split; [exact Hs | reflexivity].
        -- apply Hst; assumption.
Qed.

Lemma stored_fields email bag wt t (m : wCQR Num Sol) :
  stored email bag wt t m ->
  tau m = t /\ beta_lb m = None
  /\ y m = centroid_flow bag /\ x m = centroid_density bag /\ w m = wt
  /\ solution m <> None.
Proof.
  intros [sol [_ E]]. subst m. cbn. repeat split. discriminate.
Qed.

(** X15: when [weighted_model] returns, the model it has stored for each
    quantile level is the model of the bagged flows, densities and weights
    for that level, without lower bound on [beta], with the solution the
    solver returned for it. *)
Theorem weighted_model_stores tau_list email (s : state) bag wt :
  bag_data (self s) = Some bag ->
  weight (self s) = Some wt ->
  let r := weighted_model tau_list email s in
  fst r = inr tt ->
  exists models,
    bagged_model (self (snd r)) = Some models
    /\ Forall2 (stored email bag wt) (requested tau_list (self s)) models
    /\ Forall (fun m =>
                 beta_lb m = None
                 /\ y m = centroid_flow bag /\ x m = centroid_density bag
                 /\ w m = wt /\ solution m <> None)
         models.
Proof.
  intros Hb Hw r. unfold r. rewrite weighted_model_run. intros Hr.
  set (s0 := with_self (set_time_weighted [])
               (with_self (set_bagged_model []) s)) in *.
  destruct (@fits_returned email (requested tau_list (self s)) s0 [] []
              eq_refl eq_refl Hr)
    as [_ [_ [_ [_ [fitted [Hm Hst]]]]]].
  exists fitted. split; [exact Hm |].
  pose proof (Hst bag wt Hb Hw) as H2. split; [exact H2 |].
  clear - H2. induction H2 as [| t m taus ms Hs _ IH]; constructor.
  - destruct (stored_fields Hs) as [_ [H1 [H3 [H4 [H5 H6]]]]]. auto.
  - exact IH.
Qed.

(** X16: when [weighted_model] returns after [k] fits it has read the clock
    [2 * k] times, and the duration recorded for a fit is the difference
    of the two readings taken right before and right after it. *)
Theorem weighted_model_durations tau_list email (s : state) :
  let r := weighted_model tau_list email s in
  let k := List.length (requested tau_list (self s)) in
  fst r = inr tt ->
  ticks (snd r) = (ticks s + 2 * k)%nat
  /\ time_weighted (self (snd r)) = Some (durations (ticks s) k).
Proof.
  intros r k. unfold r, k. rewrite weighted_model_run. intros Hr.
  set (s0 := with_self (set_time_weighted [])
               (with_self (set_bagged_model []) s)) in *.
  destruct (@fits_returned email (requested tau_list (self s)) s0 [] []
              eq_refl eq_refl Hr)
    as [Hk [_ [_ [Ht _]]]].
  split; [exact Hk | exact Ht].
Qed.

(** X17: when the fits of the first quantile levels succeed and the next
    one fails, in the constructor of the model or in the solver,
    [weighted_model] raises that exception; the models and durations of the
    levels before it stay stored, and the levels after it are not tried. *)
Theorem weighted_model_first_failure tau_list email (s : state) bag wt
    done t rest e :
  bag_data (self s) = Some bag ->
  weight (self s) = Some wt ->
  requested tau_list (self s) = (done ++ t :: rest)%list ->
  Forall (fit_succeeds email (self s)) done ->
  fit_fails email bag wt t e ->
  let r := weighted_model tau_list email s in
  fst r = inl e
  /\ ticks (snd r) = (ticks s + 2 * List.length done + 1)%nat
  /\ time_weighted (self (snd r)) = Some (durations (ticks s) (List.length done))
  /\ exists models,
      bagged_model (self (snd r)) = Some models
      /\ Forall2 (stored email bag wt) done models.
Proof.
  intros Hb Hw Hreq Hdone Hfail r. unfold r.
  rewrite weighted_model_run, Hreq.
  set (s0 := with_self (set_time_weighted [])
               (with_self (set_bagged_model []) s)).
  assert (Hdone0 : Forall (fit_succeeds email (self s0)) done).
  { eapply Forall_impl; [| exact Hdone].
    intros t' Hok. eapply fit_succeeds_same_data; [| | exact Hok]; reflexivity. }
  pose proof (@loop_succeeds Num Sol fsub perf_counter beta_default_lb
                wCQR_check solve email done s0 [] [] eq_refl eq_refl Hdone0)
    as Hr.
  destruct (@fits_returned email done s0 [] [] eq_refl eq_refl Hr)
    as [Hk [Hbk [Hwk [Ht [fitted [Hm Hst]]]]]].
  rewrite fits_app.
  destruct (for_each (fit email) done s0) as [[e' | u] s1] eqn:E1;
    [discriminate |].
  cbn [snd] in Hk, Hbk, Hwk, Ht, Hm.
  rewrite for_each_cons.
  assert (Hb1 : bag_data (self s1) = Some bag) by (rewrite Hbk; exact Hb).
  assert (Hw1 : weight (self s1) = Some wt) by (rewrite Hwk; exact Hw).
  pose proof (@fit_failure email t s1 bag wt e Hb1 Hw1 Hfail) as [Hf Hself].
  assert (Hticks : ticks (snd (fit email t s1)) = S (ticks s1)).
  { rewrite fit_run. unfold fintraffic_props.fit_outcome. rewrite Hb1, Hw1.
    destruct Hfail as [Hc | [Hc Hs]]; rewrite Hc; [| rewrite Hs]; reflexivity. }
  destruct (fit email t s1) as [[e' | u'] s2]; [| discriminate].
  cbn [fst snd] in *. injection Hf as Hf. subst e'.
  split; [reflexivity |]. split; [rewrite Hticks, Hk; simpl; lia |].
  rewrite Hself. split; [exact Ht |].
  exists fitted. split; [exact Hm |]. apply Hst; [exact Hb | exact Hw].
Qed.

(** X18: with no quantile level to fit, [weighted_model] returns at once,
    with both lists empty, even for a station that has not been bagged; with
    a level to fit and no bagged data, it raises [AttributeError] after it
    has emptied both lists and read the clock once, and the solver is not
    called. *)
Theorem weighted_model_edges tau_list email (s : state) :
  let r := weighted_model tau_list email s in
  (requested tau_list (self s) = [] ->
   fst r = inr tt /\ ticks (snd r) = ticks s /\ trace (snd r) = trace s
   /\ bagged_model (self (snd r)) = Some []
   /\ time_weighted (self (snd r)) = Some [])
  /\ (requested tau_list (self s) <> [] ->
      bag_data (self s) = None ->
      fst r = inl (AttributeError "bag_data")
      /\ trace (snd r) = (trace s ++ [PerfCounter Num Sol])%list
      /\ bagged_model (self (snd r)) = Some []
      /\ time_weighted (self (snd r)) = Some []).
Proof.
  intros r. unfold r. rewrite weighted_model_run. split.
  - intros E. rewrite E. repeat split; reflexivity.
  - intros Hne Hb.
    destruct (requested tau_list (self s)) as [| t taus]; [contradiction |].
    rewrite for_each_cons, fit_run. unfold fintraffic_props.fit_outcome.
    cbn [self with_self bag_data set_time_weighted set_bagged_model].
    rewrite Hb. repeat split; reflexivity.
Qed.

End WithSolver.

(** *** The orchestrator on the sample station, again *)

Lemma weighted_model_stores_witness :
  fst (sample_weighted_model (Some [25; 50])) = inr tt
  /\ exists models,
      bagged_model (self (snd (sample_weighted_model (Some [25; 50]))))
      = Some models
      /\ Forall (fun m => beta_lb m = None /\ w m = [1; 3]) models
      /\ List.length models = 2%nat.
Proof.
  unfold sample_weighted_model.
  assert (H : fst (weighted_model Z.sub sample_clock 0 sample_check
                     sample_solve (Some [25; 50]) None sample_state) = inr tt)
    by (vm_compute; reflexivity).
  split; [exact H |].
  destruct (@weighted_model_stores Z Z Z.sub sample_clock 0 sample_check
              sample_solve (Some [25; 50]) None sample_state
              {| centroid_density := [10; 20]; centroid_flow := [100; 150];
                 bag_weight := [1; 3] |}
              [1; 3] eq_refl eq_refl H)
    as [models [Hm [H2 Hall]]].
  exists models. split; [exact Hm |]. split.
  - eapply Forall_impl; [| exact Hall]. cbn beta. intuition.
  - symmetry. apply (Forall2_length H2).
Defined.

Lemma weighted_model_durations_witness :
  fst (sample_weighted_model (Some [25; 50])) = inr tt
  /\ ticks (snd (sample_weighted_model (Some [25; 50]))) = 4%nat
  /\ time_weighted (self (snd (sample_weighted_model (Some [25; 50]))))
     = Some [10; 10].
Proof.
  unfold sample_weighted_model.
  assert (H : fst (weighted_model Z.sub sample_clock 0 sample_check
                     sample_solve (Some [25; 50]) None sample_state) = inr tt)
    by (vm_compute; reflexivity).
  split; [exact H |].
  destruct (@weighted_model_durations Z Z Z.sub sample_clock 0 sample_check
              sample_solve (Some [25; 50]) None sample_state H) as [Hk Ht].
  split; [rewrite Hk | rewrite Ht]; reflexivity.
Defined.

Lemma weighted_model_first_failure_witness :
  fst (sample_weighted_model (Some [25; 0; 75])) = inl (SolverError 1)
  /\ exists models,
      bagged_model (self (snd (sample_weighted_model (Some [25; 0; 75]))))
      = Some models
      /\ List.length models = 1%nat.
Proof.
  unfold sample_weighted_model.
  destruct (@weighted_model_first_failure Z Z Z.sub sample_clock 0 sample_check
              sample_solve (Some [25; 0; 75]) None sample_state
              {| centroid_density := [10; 20]; centroid_flow := [100; 150];
                 bag_weight := [1; 3] |}
              [1; 3] [25] 0 [75] (SolverError 1) eq_refl eq_refl eq_refl)
    as [Hf [_ [_ [models [Hm H2]]]]].
  - repeat constructor. repeat eexists; reflexivity.
  - right. split; reflexivity.
  - split; [exact Hf |]. exists models. split; [exact Hm |].
    symmetry. apply (Forall2_length H2).
Defined.

End fintraffic_more.

(* ------------------------------------------------------------------ *)
(** ** Properties of the pipeline *)

Module station_facts.
Import py fintraffic fintraffic_props fintraffic_more_props station.
Import load_props load_more_props.

Section WithPipeline.

Variables Num Sol : Type.
Variable fsub : Num -> Num -> Num.
Variable perf_counter : nat -> Num.
Variable beta_default_lb : Num.
Variable wCQR_check : list Num -> list Num -> list Num -> Num -> option exn.
Variable solve : option string -> wCQR Num Sol -> exn + Sol.
Variable URL_FINTRAFFIC : string.
Variable server : string -> load.reply.
Variable to_parquet_raises : string -> load.DataFrame -> option exn.
Variable DEF_AGG_TIME_PER : Z.
Variable process_aggregate : load.DataFrame -> Z -> Z -> exn + AggData Num.
Variable process_bagging : AggData Num -> Z -> Z -> exn + BagData Num.

#[local] Abbreviation state := (state Num Sol).
#[local] Abbreviation load_raw_data :=
  (@load_raw_data Num Sol URL_FINTRAFFIC server to_parquet_raises).
#[local] Abbreviation aggregate :=
  (@aggregate Num Sol DEF_AGG_TIME_PER process_aggregate).
#[local] Abbreviation bagging := (@bagging Num Sol process_bagging).
#[local] Abbreviation weighted_model :=
  (@station.weighted_model Num Sol fsub perf_counter beta_default_lb wCQR_check
     solve).
#[local] Abbreviation make_model :=
  (@make_model Num Sol fsub perf_counter beta_default_lb wCQR_check solve
     URL_FINTRAFFIC server to_parquet_raises DEF_AGG_TIME_PER process_aggregate process_bagging).
#[local] Abbreviation stored := (stored beta_default_lb solve).
#[local] Abbreviation fit_succeeds :=
  (fit_succeeds beta_default_lb wCQR_check solve).

(** The call of the loader that [load_raw_data] makes. *)
#[local] Abbreviation loaded s :=
  (load.read_several_reports URL_FINTRAFFIC server to_parquet_raises (tms_id (core (this s)))
     (days_list (core (this s))) (direction (core (this s))) 6 20 true None).

(** X19: [load_raw_data] loads the hours from 6 to 20 and drops the faulty
    rows whatever [hour_from] and [hour_to] the station holds: when it
    returns, the frame it has stored is not empty and each of its records
    has the direction of the station, lies between 6 and 20 o'clock and is
    not faulty. *)
Theorem load_raw_data_window (s : state) :
  let r := load_raw_data s in
  fst r = inr tt ->
  exists df,
    raw_data (this (snd r)) = Some df
    /\ df <> []
    /\ Forall (clean_row (direction (core (this s))) 6 20 true) (load.records df).
Proof.
  intros r. unfold r, station.load_raw_data.
  destruct (fst (loaded s)) as [e | df] eqn:E; [discriminate |].
  intros _. exists df. split; [reflexivity |].
  destruct (load_more.returned_inv URL_FINTRAFFIC server to_parquet_raises
              (tms_id (core (this s))) (direction (core (this s))) 6 20 true
              (days_list (core (this s))) None E)
    as [_ [_ [He [c Hl]]]].
  split; [intros E0; subst df; discriminate |].
  apply Forall_forall. intros row Hr.
  destruct (load_more.loop_output URL_FINTRAFFIC server to_parquet_raises
              (tms_id (core (this s))) (direction (core (this s))) 6 20 true
              (days_list (core (this s))) ([], 0) Hl row Hr)
    as [Hr0 | [v [_ Hv]]]; [destruct Hr0 |].
  pose proof (load_more.retrieved_rows URL_FINTRAFFIC server to_parquet_raises
                (tms_id (core (this s))) (direction (core (this s))) 6 20 true
                v) as Hrows.
  rewrite Forall_forall in Hrows. apply (Hrows row Hv).
Qed.

(** X20: on a station that has only been constructed, [aggregate],
    [bagging] and [weighted_model] with a quantile level to fit raise
    [AttributeError] for the attribute the earlier method would have set;
    [process] is not called, and of the solver's side only the clock is
    read. *)
Theorem methods_before_loading tms_id days_list direction tau_list hour_from
    hour_to period gx gy email t taus n evs :
  let s := {| this := new_station Sol tms_id days_list direction tau_list
                        hour_from hour_to;
              clock := n; log := evs |} in
  aggregate period s = (inl (AttributeError "raw_data"), s)
  /\ bagging gx gy s = (inl (AttributeError "agg_data"), s)
  /\ fst (weighted_model (Some (t :: taus)) email s)
     = inl (AttributeError "bag_data")
  /\ log (snd (weighted_model (Some (t :: taus)) email s))
     = (evs ++ [Solver (PerfCounter Num Sol)])%list.
Proof.
  intros s. split; [reflexivity |]. split; [reflexivity |].
  unfold station.weighted_model.
  rewrite fintraffic_facts.weighted_model_run. cbn [requested].
  rewrite fintraffic_facts.for_each_cons, fintraffic_facts.fit_run.
  unfold fit_outcome. cbn. split; reflexivity.
Qed.

(** X21: when the loader fails, [make_model] raises the exception of the
    loader; the object is as it was, and neither [process] nor the solver
    has been called. *)
Theorem make_model_load_failure period gx gy tau_list email (s : state) e :
  fst (loaded s) = inl e ->
  let r := make_model period gx gy tau_list email s in
  fst r = inl e
  /\ this (snd r) = this s
  /\ log (snd r) = (log s ++ map (@Loader Num Sol) (snd (loaded s)))%list
  /\ filter (@after_loading Num Sol) (log (snd r))
     = filter (@after_loading Num Sol) (log s).
Proof.
  intros H r. unfold r, station.make_model, and_then, station.load_raw_data.
  rewrite H. cbn [fst snd this log record].
  split; [reflexivity |]. split; [reflexivity |]. split; [reflexivity |].
  rewrite filter_app.
  assert (Hn : forall evs, filter (@after_loading Num Sol)
                             (map (@Loader Num Sol) evs) = []).
  { induction evs as [| ev evs IH]; [reflexivity | exact IH]. }
  rewrite Hn, app_nil_r. reflexivity.
Qed.

(** X22: when the loader returns and [process.aggregate] raises,
    [make_model] raises that exception with the new raw data already
    stored, while the aggregate, the bagged data and the models are those
    of before; [process.bagging] and the solver are not called. *)
Theorem make_model_aggregate_failure period gx gy tau_list email (s : state)
    df e :
  let p := match period with Some p => p | None => DEF_AGG_TIME_PER end in
  fst (loaded s) = inr df ->
  process_aggregate df (direction (core (this s))) p = inl e ->
  let r := make_model period gx gy tau_list email s in
  fst r = inl e
  /\ raw_data (this (snd r)) = Some df
  /\ agg_data (this (snd r)) = agg_data (this s)
  /\ core (this (snd r)) = core (this s)
  /\ log (snd r)
     = (log s ++ map (@Loader Num Sol) (snd (loaded s))
        ++ [@CallAggregate Num Sol df (direction (core (this s))) p])%list.
Proof.
  intros p H Ha r.
  unfold r, station.make_model, and_then, station.load_raw_data,
    station.aggregate.
  rewrite H. cbn [fst snd this log record assign raw_data set_raw_data core].
  fold p. rewrite Ha.
  cbn [fst snd this log record assign raw_data agg_data core set_raw_data].
  rewrite <- app_assoc. repeat split; reflexivity.
Qed.

(** X23: when the loader returns, [process.aggregate] and [process.bagging]
    return and the solver solves every quantile level, [make_model]
    returns; the station then holds the loaded frame, its aggregate and
    the bagged data of that aggregate, and for each level the model of the
    bagged flows and densities with the weights of the bagged data. *)
Theorem make_model_success period gx gy tau_list email (s : state)
    df agg bag :
  let p := match period with Some p => p | None => DEF_AGG_TIME_PER end in
  let x := match gx with Some g => g | None => 70 end in
  let y := match gy with Some g => g | None => 400 end in
  let taus := requested tau_list (core (this s)) in
  fst (loaded s) = inr df ->
  process_aggregate df (direction (core (this s))) p = inr agg ->
  process_bagging agg x y = inr bag ->
  Forall (fit_succeeds email (set_bag bag (core (this s)))) taus ->
  let r := make_model period gx gy tau_list email s in
  fst r = inr tt
  /\ raw_data (this (snd r)) = Some df
  /\ agg_data (this (snd r)) = Some agg
  /\ agg_flow (this (snd r)) = Some (flow agg)
  /\ agg_density (this (snd r)) = Some (density agg)
  /\ bag_data (core (this (snd r))) = Some bag
  /\ weight (core (this (snd r))) = Some (bag_weight bag)
  /\ exists models,
      bagged_model (core (this (snd r))) = Some models
      /\ Forall2 (stored email bag (bag_weight bag)) taus models.
Proof.
  intros p x y taus H Ha Hb Hfit r.
  unfold r, station.make_model, and_then, station.load_raw_data,
    station.aggregate, station.bagging.
  rewrite H.
  cbn [fst snd this log clock record assign raw_data set_raw_data core].
  fold p. rewrite Ha.
  cbn [fst snd this log clock record assign raw_data agg_data set_aggregate
       core].
  fold x y. rewrite Hb.
  unfold station.weighted_model.
  cbn [fst snd this log clock record assign raw_data agg_data agg_flow
       agg_density set_aggregate set_bagging set_core core].
  assert (Et : match tau_list with
               | Some l => l
               | None => fintraffic.tau_list (core (this s))
               end = taus) by (destruct tau_list; reflexivity).
  rewrite Et.
  rewrite fintraffic_facts.weighted_model_run. cbn [requested].
  set (s0 := with_self (set_time_weighted [])
               (with_self (set_bagged_model [])
                  {| self := set_bag bag (core (this s)); ticks := clock s;
                     trace := [] |})).
  assert (Hfit0 : Forall (fit_succeeds email (self s0)) taus).
  { eapply Forall_impl; [| exact Hfit].
    intros t Hok.
    eapply fintraffic_facts.fit_succeeds_same_data; [| | exact Hok];
      reflexivity. }
  pose proof (@fintraffic_facts.loop_succeeds Num Sol fsub perf_counter
                beta_default_lb wCQR_check solve email taus s0 [] []
                eq_refl eq_refl Hfit0) as Hr.
  destruct (@fintraffic_more.fits_returned Num Sol fsub perf_counter
              beta_default_lb wCQR_check solve email taus s0 [] []
              eq_refl eq_refl Hr)
    as [_ [Hbk [Hwk [_ [fitted [Hm Hst]]]]]].
  split; [exact Hr |].
  split; [reflexivity |]. split; [reflexivity |]. split; [reflexivity |].
  split; [reflexivity |]. split; [exact Hbk |]. split; [exact Hwk |].
  exists fitted. split; [exact Hm |].
  apply Hst; reflexivity.
Qed.

End WithPipeline.

(** *** The sample pipeline *)

Import station_props.

Lemma load_raw_data_window_witness :
  fst (load_raw_data load_props.sample_url gappy_server sample_writer sample_pipeline_state)
  = inr tt
  /\ exists df,
      raw_data (this (snd (load_raw_data load_props.sample_url gappy_server sample_writer
                             sample_pipeline_state)))
      = Some df
      /\ Forall (clean_row 1 6 20 true) (load.records df).
Proof.
  assert (H : fst (load_raw_data load_props.sample_url gappy_server sample_writer
                     sample_pipeline_state) = inr tt)
    by (vm_compute; reflexivity).
  split; [exact H |].
  destruct (@load_raw_data_window Z Z load_props.sample_url gappy_server sample_writer
              sample_pipeline_state H) as [df [Hd [_ Hc]]].
  exists df. split; [exact Hd | exact Hc].
Defined.

Lemma make_model_load_failure_witness :
  fst (sample_make_model (fun _ => load.Reply 404 []) None None)
  = inl (AssertionError load.msg_not_loaded)
  /\ this (snd (sample_make_model (fun _ => load.Reply 404 []) None None))
     = this sample_pipeline_state.
Proof.
  unfold sample_make_model.
  destruct (@make_model_load_failure Z Z Z.sub sample_clock 0 sample_check
              sample_solve load_props.sample_url (fun _ => load.Reply 404 [])
              load_props.sample_writer
              300 sample_aggregate sample_bagging None None None None None
              sample_pipeline_state (AssertionError load.msg_not_loaded))
    as [Hf [Ht _]].
  - vm_compute. reflexivity.
  - split; [exact Hf | exact Ht].
Defined.

Lemma make_model_aggregate_failure_witness :
  fst (sample_make_model gappy_server (Some 0) None) = inl ValueError
  /\ (exists df,
        raw_data (this (snd (sample_make_model gappy_server (Some 0) None)))
        = Some df)
  /\ agg_data (this (snd (sample_make_model gappy_server (Some 0) None)))
     = None.
Proof.
  unfold sample_make_model.
  assert (H : exists df,
             fst (load.read_several_reports load_props.sample_url gappy_server sample_writer
                    123 [(2021, 1); (2021, 3)] 1 6 20 true None) = inr df)
    by (eexists; vm_compute; reflexivity).
  destruct H as [df H].
  destruct (@make_model_aggregate_failure Z Z Z.sub sample_clock 0 sample_check
              sample_solve load_props.sample_url gappy_server sample_writer
              300 sample_aggregate sample_bagging (Some 0) None None None None
              sample_pipeline_state df ValueError H eq_refl)
    as [Hf [Hr [Ha _]]].
  split; [exact Hf |]. split; [exists df; exact Hr | exact Ha].
Defined.

Lemma make_model_success_witness :
  fst (sample_make_model gappy_server None (Some [25; 75])) = inr tt
  /\ exists models,
      bagged_model
        (core (this (snd (sample_make_model gappy_server None
                            (Some [25; 75])))))
      = Some models
      /\ List.length models = 2%nat.
Proof.
  unfold sample_make_model.
  assert (H : exists df,
             fst (load.read_several_reports load_props.sample_url gappy_server sample_writer
                    123 [(2021, 1); (2021, 3)] 1 6 20 true None) = inr df)
    by (eexists; vm_compute; reflexivity).
  destruct H as [df H].
  destruct (@make_model_success Z Z Z.sub sample_clock 0 sample_check
              sample_solve load_props.sample_url gappy_server sample_writer
              300 sample_aggregate sample_bagging None None None
              (Some [25; 75]) None sample_pipeline_state df
              {| flow := [Z.of_nat (List.length df)]; density := [1] |}
              {| centroid_density := [1];
                 centroid_flow := [Z.of_nat (List.length df)];
                 bag_weight := [1] |}
              H eq_refl eq_refl)
    as [Hf [_ [_ [_ [_ [_ [_ [models [Hm H2]]]]]]]]].
  - repeat constructor; repeat eexists; reflexivity.
  - split; [exact Hf |]. exists models. split; [exact Hm |].
    symmetry. apply (Forall2_length H2).
Defined.

End station_facts.
